(** * scalr-ctl: the specification-driven request/response pipeline

    A shallow embedding of the schema-driven parts of [scalrctl]:
    [scalrctl/commands/__init__.py] (classes [Action], [_OpenAPIBaseSpec],
    [_OpenAPIv2Spec], [_OpenAPIv3Spec]) and [scalrctl/examples.py].

    Python values that come out of [json.loads] are modelled by the type
    [json]; a Python [dict] is an association list in insertion order.
    Python exceptions are modelled by the type [exn] and fallible code
    returns a [result].  The module-level dictionary [_discriminators] is
    a [gmap] threaded through [filter_json_object] by a state-and-exception
    monad whose state survives a raised exception, as a mutated Python
    dictionary does. *)

From Stdlib Require Import ZArith String Ascii List Bool Lia.
From stdpp Require Import base option list strings gmap pretty.

Set Warnings "-register-all".
Local Open Scope string_scope.
Local Open Scope list_scope.

(** ** JSON values *)

Inductive json : Type :=
| JNull
| JBool (b : bool)
| JNum (n : Z)
| JStr (s : string)
| JArr (items : list json)
| JObj (kvs : list (string * json)).

(** ** Exceptions and results *)

(** The text of a [click.ClickException].  The two messages of
    [filter_json_object] are kept as template and arguments: rendering the
    third argument would need Python's [repr] of a list. *)
Inductive message : Type :=
| Msg (text : string)
| MissingRequiredParam (disc_key : json)
| InvalidParamValue (disc_key disc_value : json) (concrete_types : list string).

Inductive exn : Type :=
| ClickException (m : message)
| MultipleClickException (text : string) (code : Z)
| KeyError (k : string)
| IndexError
| TypeError
| AttributeError
| RecursionError
| SchemaError (ref : string).

Inductive result (A : Type) : Type :=
| Ok (a : A)
| Raise (e : exn).
Arguments Ok {A} a.
Arguments Raise {A} e.

Definition rbind {A B} (r : result A) (k : A -> result B) : result B :=
  match r with
  | Ok a => k a
  | Raise e => Raise e
  end.

Declare Scope result_scope.
Delimit Scope result_scope with res.
Notation "x <- r ;; k" := (rbind r (fun x => k))
  (at level 100, r at next level, right associativity) : result_scope.

(** ** Dictionaries *)

Module Dict.

Fixpoint get (kvs : list (string * json)) (k : string) : option json :=
    match kvs with
    | [] => None
    | (k', v) :: rest => if String.eqb k' k then Some v else get rest k
    end.

Definition mem (kvs : list (string * json)) (k : string) : bool :=
    match get kvs k with Some _ => true | None => false end.

  (** [d[k] = v]: an existing key keeps its position, a new key goes last. *)
Fixpoint set (kvs : list (string * json)) (k : string) (v : json)
    : list (string * json) :=
    match kvs with
    | [] => [(k, v)]
    | (k', v') :: rest =>
        if String.eqb k' k then (k', v) :: rest else (k', v') :: set rest k v
    end.

Definition keys (kvs : list (string * json)) : list string := map fst kvs.

  (** The keys of a Python dictionary are pairwise distinct. *)
Fixpoint nodup_keys (kvs : list (string * json)) : bool :=
    match kvs with
    | [] => true
    | (k, _) :: rest => negb (mem rest k) && nodup_keys rest
    end.

End Dict.

(** ** Text

    A [str] is held in UTF-8, so a character is one leading byte and the
    continuation bytes ([10xxxxxx]) that follow it. *)

Definition continuation (c : ascii) : bool :=
  let n := nat_of_ascii c in (128 <=? n)%nat && (n <? 192)%nat.

(** [s] starts in the middle of a character. *)
Definition continued (s : string) : bool :=
  match s with
  | String d _ => continuation d
  | EmptyString => false
  end.

(** The characters of [s], in order. *)
Fixpoint characters (s : string) : list string :=
  match s with
  | EmptyString => []
  | String c rest =>
      match characters rest with
      | following :: others =>
          if continued rest then String c following :: others
          else String c "" :: following :: others
      | [] => [String c ""]
      end
  end.

(** [len(s)] of a [str]: the number of its characters. *)
Definition str_len (s : string) : nat := length (characters s).

(** ** Python primitives on JSON values *)

(** Truth value of an object ([if x:], [x or y], [not x]). *)
Definition truthy (v : json) : bool :=
  match v with
  | JNull => false
  | JBool b => b
  | JNum n => negb (Z.eqb n 0)
  | JStr s => negb (String.eqb s "")
  | JArr l => match l with [] => false | _ => true end
  | JObj kvs => match kvs with [] => false | _ => true end
  end.

(** [a or b] *)
Definition py_or (a b : json) : json := if truthy a then a else b.

(** [v == s] for a string literal [s]. *)
Definition eq_str (v : json) (s : string) : bool :=
  match v with
  | JStr t => String.eqb t s
  | _ => false
  end.

(** [s in t] for two strings: [s] occurs in [t]. *)
Fixpoint is_substring (s t : string) : bool :=
  String.prefix s t ||
  match t with
  | EmptyString => false
  | String _ t' => is_substring s t'
  end.

(** [k in c] for a string [k]. *)
Definition py_in (k : string) (c : json) : result bool :=
  match c with
  | JObj kvs => Ok (Dict.mem kvs k)
  | JArr l => Ok (existsb (fun v => eq_str v k) l)
  | JStr t => Ok (is_substring k t)
  | _ => Raise TypeError
  end.

(** [c[k]] for a string [k]. *)
Definition py_getitem (c : json) (k : string) : result json :=
  match c with
  | JObj kvs =>
      match Dict.get kvs k with
      | Some v => Ok v
      | None => Raise (KeyError k)
      end
  | _ => Raise TypeError
  end.

(** [c.get(k, default)] *)
Definition py_get_default (c : json) (k : string) (default : json) : result json :=
  match c with
  | JObj kvs =>
      match Dict.get kvs k with
      | Some v => Ok v
      | None => Ok default
      end
  | _ => Raise AttributeError
  end.

(** [c.get(k)] *)
Definition py_get (c : json) (k : string) : result json :=
  py_get_default c k JNull.

(** [c.items()] *)
Definition py_items (c : json) : result (list (string * json)) :=
  match c with
  | JObj kvs => Ok kvs
  | _ => Raise AttributeError
  end.

(** [isinstance(v, dict)] *)
Definition isinstance_dict (v : json) : bool :=
  match v with JObj _ => true | _ => false end.

(** [len(c)] *)
Definition py_len (c : json) : result nat :=
  match c with
  | JObj kvs => Ok (length kvs)
  | JArr l => Ok (length l)
  | JStr s => Ok (str_len s)
  | _ => Raise TypeError
  end.

(** ** Strings *)

(** [s.split('/')[-1]]: what follows the last ['/'], the whole string when
    there is none. *)
Fixpoint last_segment_aux (s acc : string) : string :=
  match s with
  | EmptyString => acc
  | String c s' =>
      if Ascii.eqb c "/" then last_segment_aux s' ""
      else last_segment_aux s' (acc +:+ String c "")
  end.

Definition last_segment (s : string) : string := last_segment_aux s "".

(** [ref.split('/')[-1]] on a JSON value. *)
Definition py_last_segment (v : json) : result string :=
  match v with
  | JStr s => Ok (last_segment s)
  | _ => Raise AttributeError
  end.

(** [s.upper()] on ASCII text. *)
Definition upper_ascii (c : ascii) : ascii :=
  let n := nat_of_ascii c in
  if (97 <=? n)%nat && (n <=? 122)%nat then ascii_of_nat (n - 32) else c.

Fixpoint upper (s : string) : string :=
  match s with
  | EmptyString => EmptyString
  | String c s' => String (upper_ascii c) (upper s')
  end.

(** The UTF-8 encoding of the code point [n]. *)
Definition utf8 (n : N) : string :=
  let byte (k : N) := ascii_of_N k in
  let tail (k : N) := byte (128 + k mod 64)%N in
  if (n <? 128)%N then String (byte n) ""
  else if (n <? 2048)%N then
    String (byte (192 + n / 64)%N) (String (tail n) "")
  else if (n <? 65536)%N then
    String (byte (224 + n / 4096)%N)
      (String (tail (n / 64)%N) (String (tail n) ""))
  else
    String (byte (240 + n / 262144)%N)
      (String (tail (n / 4096)%N)
         (String (tail (n / 64)%N) (String (tail n) ""))).

(** The code points that [str.isspace] holds of in Python 3: the ASCII
    ones (tab to carriage return, the four separators, the space), NEL,
    the no-break space, the Ogham space mark, U+2000 to U+200A, the line
    and paragraph separators, the narrow no-break space, the medium
    mathematical space and the ideographic space. *)
Definition WHITE_SPACE : list N :=
  [9; 10; 11; 12; 13; 28; 29; 30; 31; 32; 133; 160; 5760;
   8192; 8193; 8194; 8195; 8196; 8197; 8198; 8199; 8200; 8201; 8202;
   8232; 8233; 8239; 8287; 12288]%N.

Definition is_space (character : string) : bool :=
  existsb (fun n => String.eqb character (utf8 n)) WHITE_SPACE.

Fixpoint drop_spaces (l : list string) : list string :=
  match l with
  | [] => []
  | character :: rest => if is_space character then drop_spaces rest else l
  end.

(** [s.strip()]: [s] without the white space it starts and ends with. *)
Definition lstrip (s : string) : string :=
  String.concat "" (drop_spaces (characters s)).

Definition rstrip (s : string) : string :=
  String.concat "" (rev (drop_spaces (rev (characters s)))).

Definition strip (s : string) : string := rstrip (lstrip s).

(** ['\n'.join(lines)] *)
Fixpoint join (sep : string) (lines : list string) : string :=
  match lines with
  | [] => ""
  | [l] => l
  | l :: rest => l +:+ sep +:+ join sep rest
  end.

(** What the language and the modules outside these sources provide:
    [repr] of a list or dictionary (used by [str.format] and [%s]), the
    regular expression engine of [re], and the functions of
    [scalrctl.utils] that the code calls. *)
Class Runtime : Type := {
  (** [repr(v)] for a list or a dictionary *)
  py_repr : json -> string;
  (** [re.match(pattern, value)]: the matched text, [matches.group()] *)
  re_match : string -> string -> result (option string);
  (** [re.search(pattern, value, re.MULTILINE)] *)
  re_search_multiline : string -> string -> result (option string);
  (** [utils.lookup(response_ref, raw_spec)] *)
  utils_lookup : json -> json -> result json;
  (** [utils.merge_all(data, raw_spec)] *)
  utils_merge_all : json -> json -> result json;
  (** the exception that [utils.reraise(message)] raises *)
  utils_reraise : string -> exn;
}.

(** [str(v)], which is what ['{}'.format(v)] and ['%s' % v] insert. *)
Definition py_str `{Runtime} (v : json) : string :=
  match v with
  | JNull => "None"
  | JBool true => "True"
  | JBool false => "False"
  | JNum n => pretty n
  | JStr s => s
  | JArr _ | JObj _ => py_repr v
  end.

(** ** [SUCCESS_CODES] *)

Definition SUCCESS_CODES (http_method : string) : result string :=
  if String.eqb http_method "get" then Ok "200"
  else if String.eqb http_method "post" then Ok "201"
  else if String.eqb http_method "delete" then Ok "204"
  else if String.eqb http_method "patch" then Ok "200"
  else Raise (KeyError http_method).

(** [x in (a, b, ...)] for strings *)
Definition in_tuple (x : string) (t : list string) : bool :=
  existsb (String.eqb x) t.

(** * class [Action] *)

(** The attributes of an [Action] instance that the modelled methods read.
    [delete_target] is [None] or a string. *)
Record Action : Type := {
  name : string;
  route : string;
  http_method : string;
  api_level : string;
  strip_metadata : bool;
  _table_columns : list string;
  delete_target : option string;
}.

(** ** [Action._format_errmsg] *)

(** [for x in v]: the elements of a list, the keys of a dictionary, the
    characters of a string. *)
Definition py_iter (v : json) : result (list json) :=
  match v with
  | JArr l => Ok l
  | JObj kvs => Ok (map (fun kv => JStr (fst kv)) kvs)
  | JStr s => Ok (map JStr (characters s))
  | _ => Raise TypeError
  end.

Section FormatErrmsg.
Context `{Runtime}.
Local Open Scope result_scope.

  (** The body of the loop of [_format_errmsg] for one [error_data], with
      the current value of [num]. *)
Definition err_line (errors_len : nat) (num : Z) (error_data : json)
    : result string :=
    has_code <- py_in "code" error_data ;;
    err_code <- (if has_code : bool
                 then (c <- py_getitem error_data "code" ;; Ok (py_str c +:+ ":"))
                 else Ok "") ;;
    err_msg <- py_get_default error_data "message" (JStr "") ;;
    let err_index :=
      if Nat.eqb errors_len 1 then ":" else " " +:+ pretty num +:+ ":" in
    Ok ("Error" +:+ err_index +:+ " " +:+ err_code +:+ " " +:+ py_str err_msg).

Fixpoint err_lines (errors_len : nat) (num : Z) (errors : list json)
    : result (list string) :=
    match errors with
    | [] => Ok []
    | error_data :: rest =>
        line <- err_line errors_len num error_data ;;
        messages <- err_lines errors_len (num + 1) rest ;;
        Ok (line :: messages)
    end.

Definition _format_errmsg (errors : json) : result string :=
    items <- py_iter errors ;;
    n <- py_len errors ;;
    messages <- err_lines n 1 items ;;
    Ok (join (String "010" "") messages).

End FormatErrmsg.

(** ** Output *)

(** What [click.echo] is given.  The rendering functions of [json],
    [dicttoxml] and [scalrctl.view] are kept symbolic, applied to their
    arguments. *)
Inductive rendered : Type :=
| Text (s : string)
| JsonDumps (v : json)
| DictToXml (v : json)
| BuildTree (data : json)
| VerticalTable (columns : list string) (response_json : json)
| HorizontalTable (columns : list string) (response_json : json).

Inductive output : Type :=
| Warning (warnings : json)
| Debug (v : json)
| Echo (r : rendered).

(** Code that prints and may raise: what was printed, then the outcome. *)
Definition IO (A : Type) : Type := (list output * result A)%type.

Definition io_ret {A} (a : A) : IO A := ([], Ok a).
Definition io_raise {A} (e : exn) : IO A := ([], Raise e).
Definition io_emit (o : output) : IO unit := ([o], Ok tt).
Definition io_lift {A} (r : result A) : IO A := ([], r).

Definition io_bind {A B} (m : IO A) (k : A -> IO B) : IO B :=
  match m with
  | (out, Ok a) => let '(out', r) := k a in (out ++ out', r)
  | (out, Raise e) => (out, Raise e)
  end.

Declare Scope io_scope.
Delimit Scope io_scope with io.
Notation "x <- r ;; k" := (io_bind r (fun x => k))
  (at level 100, r at next level, right associativity) : io_scope.
Notation "r ;;; k" := (io_bind r (fun _ => k))
  (at level 100, right associativity) : io_scope.

(** A response of the server: its text and what [json.loads] makes of it
    ([None] when [json.loads] raises [ValueError]). *)
Record payload : Type := {
  body_text : string;
  body_json : option json;
}.

(** The methods of [self.spec] that [Action] calls when it renders. *)
Record OpenAPISpec : Type := {
  spec_get_column_names : string -> string -> json -> result (list string);
  spec_get_iterable_object : string -> string -> result bool;
}.

(** ** [Action.get_response_type] *)

Definition get_response_type (response_dict : json) : result json :=
  (data <- py_getitem response_dict "data" ;;
   match data with
   | JObj _ =>
       has_type <- py_in "type" data ;;
       if has_type : bool then py_getitem data "type" else Ok JNull
   | JArr items =>
       match items with
       | first :: _ => if truthy first then py_get first "type" else Ok JNull
       | [] => Ok JNull
       end
   | _ => Ok JNull
   end)%res.

(** ** [Action._format_response] *)

Section FormatResponse.
Context `{Runtime}.
Local Open Scope io_scope.

  (** The first [(param, value)] of [kwargs.items()] that [test] accepts;
      the value left in [deleted_id] otherwise. *)
Fixpoint first_matching (test : string -> bool) (kwargs : list (string * json))
    (deleted_id : json) : json :=
    match kwargs with
    | [] => deleted_id
    | (param, value) :: rest =>
        if test param then value else first_matching test rest deleted_id
    end.

  (** The block [if self.strip_metadata and ...] of [_format_response]:
      the text and the parsed response that are rendered. *)
Definition strip_envelope (self : Action) (settings_view : string)
    (response : payload) (response_json : json) : IO (rendered * json) :=
    if strip_metadata self
       && String.eqb (upper (http_method self)) "GET"
       && in_tuple settings_view ["raw"; "json"; "xml"]
    then
      has_data <- io_lift (py_in "data" response_json) ;;
      if has_data : bool then
        data <- io_lift (py_getitem response_json "data") ;;
        io_ret (JsonDumps data, data)
      else io_ret (Text (body_text response), response_json)
    else io_ret (Text (body_text response), response_json).

  (** The chain [if hidden: ... elif settings.view in ('raw', 'json'): ...]
      of [_format_response]. *)
Definition render_view (self : Action) (spec : OpenAPISpec)
    (settings_view : string) (hidden : bool)
    (response : rendered) (response_json : json) : IO unit :=
    if hidden then io_ret tt
    else if in_tuple settings_view ["raw"; "json"] then
      io_emit (Echo response)
    else if String.eqb settings_view "xml" then
      io_emit (Echo (DictToXml response_json))
    else if String.eqb settings_view "tree" then
      data <- io_lift (py_get response_json "data") ;;
      io_emit (Echo (BuildTree data))
    else if String.eqb settings_view "table" then
      obj_type <- io_lift (get_response_type response_json) ;;
      columns <-
        (match _table_columns self with
         | [] => io_lift (spec_get_column_names spec (route self)
                            (http_method self) obj_type)
         | cols => io_ret cols
         end) ;;
      iterable <- io_lift (spec_get_iterable_object spec (route self)
                             (http_method self)) ;;
      if iterable : bool
      then io_emit (Echo (VerticalTable columns response_json))
      else io_emit (Echo (HorizontalTable columns response_json))
    else io_ret tt.

Definition _format_response (self : Action) (spec : OpenAPISpec)
    (settings_view : string) (response : payload) (hidden : bool)
    (kwargs : list (string * json)) : IO (option string) :=
    if negb (String.eqb (body_text response) "") then
      match body_json response with
      | None =>
          io_emit (Debug (JStr ("Server response: " +:+ body_text response))) ;;;
          io_raise (utils_reraise "Invalid server response")
      | Some response_json =>
          errors <- io_lift (py_get response_json "errors") ;;
          warnings <- io_lift (py_get response_json "warnings") ;;
          (if truthy warnings
           then (_ <- io_lift (py_iter warnings) ;; io_emit (Warning warnings))
           else io_ret tt) ;;;
          if truthy errors then
            errmsg <- io_lift (_format_errmsg errors) ;;
            io_raise (MultipleClickException errmsg 1)
          else
            (if negb hidden
             then (meta <- io_lift (py_get response_json "meta") ;;
                   io_emit (Debug meta))
             else io_ret tt) ;;;
            stripped <- strip_envelope self settings_view response response_json ;;
            let '(response, response_json) := stripped in
            render_view self spec settings_view hidden response response_json ;;;
            io_ret None
      end
    else if String.eqb (upper (http_method self)) "DELETE" then
      let target :=
        match delete_target self with
        | Some t => match Dict.get kwargs t with Some v => v | None => JStr "" end
        | None => JStr ""
        end in
      let deleted_id := py_or target (JStr "") in
      let deleted_id :=
        if negb (truthy deleted_id) then
          first_matching
            (fun param => is_substring "Id" param
                          && negb (in_tuple param ["envId"; "accountId"]))
            kwargs deleted_id
        else deleted_id in
      let deleted_id :=
        if negb (truthy deleted_id) then
          first_matching (fun param => is_substring "Name" param) kwargs deleted_id
        else deleted_id in
      io_ret (Some ("Deleted " +:+ py_str deleted_id))
    else io_ret None.

End FormatResponse.

(** ** [Action._check_arguments] *)

(** [k in d] and [d.get(k, default)] for a dictionary [d] with string keys
    and an arbitrary JSON value [k]: a list or a dictionary is unhashable. *)
Definition kwargs_mem (kwargs : list (string * json)) (k : json) : result bool :=
  match k with
  | JStr s => Ok (Dict.mem kwargs s)
  | JArr _ | JObj _ => Raise TypeError
  | _ => Ok false
  end.

Definition kwargs_get (kwargs : list (string * json)) (k : json) (default : json)
  : result json :=
  match k with
  | JStr s => Ok (match Dict.get kwargs s with Some v => v | None => default end)
  | JArr _ | JObj _ => Raise TypeError
  | _ => Ok default
  end.

Section CheckArguments.
Context `{Runtime}.
Local Open Scope result_scope.

  (** [matches = re.match(pattern, value)], then [re.search] with
      [re.MULTILINE] when there is no match. *)
Definition find_matches (pattern : json) (value : string)
    : result (option string) :=
    match pattern with
    | JStr p =>
        matches <- re_match p value ;;
        match matches with
        | Some g => Ok (Some g)
        | None => re_search_multiline p value
        end
    | _ => Raise TypeError
    end.

  (** The body of the loop of [_check_arguments] for one [param]. *)
Definition check_param (kwargs : list (string * json)) (param : json)
    : result unit :=
    pattern <- py_get param "pattern" ;;
    param_name <- py_get param "name" ;;
    if truthy pattern && truthy param_name then
      supplied <- kwargs_mem kwargs param_name ;;
      if supplied : bool then
        v <- kwargs_get kwargs param_name (JStr "") ;;
        let value := strip (py_str v) in
        matches <- find_matches pattern value ;;
        match matches with
        | Some group =>
            if negb (Nat.eqb (str_len group) (str_len value))
            then Raise (ClickException
                          (Msg ("Invalid value for " +:+ py_str param_name)))
            else Ok tt
        | None =>
            Raise (ClickException
                     (Msg ("Invalid value for " +:+ py_str param_name)))
        end
      else Ok tt
    else Ok tt.

Fixpoint check_params (kwargs : list (string * json)) (params : list json)
    : result unit :=
    match params with
    | [] => Ok tt
    | param :: rest => _ <- check_param kwargs param ;; check_params kwargs rest
    end.

Definition _check_arguments (raw_spec : json) (self : Action)
    (kwargs : list (string * json)) : result unit :=
    paths <- py_getitem raw_spec "paths" ;;
    route_data <- py_getitem paths (route self) ;;
    has_parameters <- py_in "parameters" route_data ;;
    if negb has_parameters then Ok tt
    else
      parameters <- py_getitem route_data "parameters" ;;
      params <- py_iter parameters ;;
      check_params kwargs params.

End CheckArguments.

(** * class [_OpenAPIBaseSpec] *)

(** [data[0]] *)
Definition py_first (data : json) : result json :=
  match data with
  | JArr (x :: _) => Ok x
  | JArr [] => Raise IndexError
  | JStr (String c _) => Ok (JStr (String c ""))
  | JStr EmptyString => Raise IndexError
  | JObj _ => Raise (KeyError "0")
  | _ => Raise TypeError
  end.

(** [f(x) for x in xs], left to right, stopping at the first exception. *)
Fixpoint mapM {A B} (f : A -> result B) (xs : list A) : result (list B) :=
  match xs with
  | [] => Ok []
  | x :: rest =>
      (y <- f x ;; ys <- mapM f rest ;; Ok (y :: ys))%res
  end.

Section BaseSpec.
Context `{Runtime}.
Variable raw_spec : json.
Local Open Scope result_scope.

  (** [self.lookup(response_ref)] *)
Definition lookup (response_ref : json) : result json :=
    utils_lookup response_ref raw_spec.

  (** [self.list_concrete_types_recursive(reference)], with the depth of
      recursion that is left. *)
Fixpoint list_concrete_types_recursive (depth : nat) (reference : json)
    : result (list json) :=
    match depth with
    | O => Raise RecursionError
    | S depth' =>
        schema <- lookup reference ;;
        has <- py_in "x-concreteTypes" schema ;;
        if negb has then Ok [reference]
        else
          concrete <- py_getitem schema "x-concreteTypes" ;;
          ref_dicts <- py_iter concrete ;;
          lists <- mapM (fun ref_dict =>
                           r <- py_getitem ref_dict "$ref" ;;
                           list_concrete_types_recursive depth' r) ref_dicts ;;
          Ok (concat lists)
    end.

  (** [self.list_concrete_types(schema)] *)
Definition list_concrete_types (depth : nat) (schema : json)
    : result (list string) :=
    has <- py_in "x-concreteTypes" schema ;;
    if has : bool then
      concrete <- py_getitem schema "x-concreteTypes" ;;
      ref_dicts <- py_iter concrete ;;
      lists <- mapM (fun ref_dict =>
                       ref_link <- py_getitem ref_dict "$ref" ;;
                       links <- list_concrete_types_recursive depth ref_link ;;
                       mapM py_last_segment links) ref_dicts ;;
      Ok (concat lists)
    else Ok [].

  (** [self.result_descr(route, http_method)], given the subclass's
      [get_response_ref]. *)
Definition result_descr
    (get_response_ref : string -> string -> result json)
    (route http_method : string) : result json :=
    ref <- get_response_ref route http_method ;;
    if truthy ref then lookup ref else Ok JNull.

End BaseSpec.

(** ** The discriminator cache and the monad of [filter_json_object] *)

(** [_OpenAPIBaseSpec._discriminators]: from ['<reference>/<key>'] to the
    discriminator value last accepted there. *)
Abbreviation cache := (gmap string json).

(** A computation that reads and writes the cache and may raise; what it
    wrote before raising stays written. *)
Definition M (A : Type) : Type := cache -> result A * cache.

Definition ret {A} (a : A) : M A := fun c => (Ok a, c).
Definition raise {A} (e : exn) : M A := fun c => (Raise e, c).
Definition lift {A} (r : result A) : M A := fun c => (r, c).
Definition bind {A B} (m : M A) (k : A -> M B) : M B :=
  fun c =>
    match m c with
    | (Ok a, c') => k a c'
    | (Raise e, c') => (Raise e, c')
    end.
(** [self._discriminators.get(disc_path)] *)
Definition cache_get (disc_path : string) : M json :=
  fun c => (Ok (default JNull (c !! disc_path)), c).
(** [self._discriminators[disc_path] = disc_value] *)
Definition cache_set (disc_path : string) (disc_value : json) : M unit :=
  fun c => (Ok tt, <[disc_path := disc_value]> c).

Declare Scope M_scope.
Delimit Scope M_scope with M.
Notation "x <- r ;; k" := (bind r (fun x => k))
  (at level 100, r at next level, right associativity) : M_scope.
Notation "r ;;; k" := (bind r (fun _ => k))
  (at level 100, right associativity) : M_scope.

(** [data.get(k)] for a JSON value [k] *)
Definition py_get_key (data : json) (k : json) : result json :=
  match data with
  | JObj kvs => kwargs_get kvs k JNull
  | _ => Raise AttributeError
  end.

Section FilterProperties.
Context `{Runtime}.
Local Open Scope M_scope.

  (** The loop [for p_key, p_value in schema['properties'].items()] of
      [filter_json_object].  The two implementations have the same loop but
      for the schema handed to the recursive call: [sub_schema] is that
      schema, as a function of [p_value['$ref']], and [recur] is the
      recursive call [self.filter_json_object(data[p_key], route,
      http_method, filter_createonly=filter_createonly, reference=...,
      schema=...)]. *)
Fixpoint filter_properties
    (recur : json -> json -> json -> M json)
    (sub_schema : json -> result json)
    (data : json) (filter_createonly : bool) (reference : json)
    (create_only_props : json)
    (properties : list (string * json)) (filtered : list (string * json))
    : M (list (string * json)) :=
    match properties with
    | [] => ret filtered
    | (p_key, p_value) :: rest =>
        let continue :=
          filter_properties recur sub_schema data filter_createonly reference
            create_only_props rest in
        (* key_path *)
        (if truthy reference
         then (_ <- lift (py_last_segment reference) ;; ret tt)
         else ret tt) ;;;
        known <- lift (py_in p_key data) ;;
        if negb known then continue filtered
        else
          read_only <- lift (py_get p_value "readOnly") ;;
          if truthy read_only then continue filtered
          else
            create_only <-
              (if filter_createonly then lift (py_in p_key create_only_props)
               else ret false) ;;
            if create_only : bool then continue filtered
            else
              has_ref <- lift (py_in "$ref" p_value) ;;
              value <- lift (py_getitem data p_key) ;;
              if has_ref && isinstance_dict value then
                ref <- lift (py_getitem p_value "$ref") ;;
                schema <- lift (sub_schema ref) ;;
                sub <- recur value schema ref ;;
                continue (Dict.set filtered p_key sub)
              else
                continue (Dict.set filtered p_key value)
    end.

  (** [if schema and 'properties' in schema: ...; return filtered] *)
Definition filter_by_properties
    (recur : json -> json -> json -> M json)
    (sub_schema : json -> result json)
    (data : json) (filter_createonly : bool) (schema reference : json)
    : M json :=
    has_properties <-
      (if truthy schema then lift (py_in "properties" schema) else ret false) ;;
    if has_properties : bool then
      create_only_props <- lift (py_get_default schema "x-createOnly" (JStr "")) ;;
      props <- lift (py_getitem schema "properties") ;;
      properties <- lift (py_items props) ;;
      filtered <- filter_properties recur sub_schema data filter_createonly
                    reference create_only_props properties [] ;;
      ret (JObj filtered)
    else ret (JObj []).

End FilterProperties.

(** * class [_OpenAPIv2Spec] *)

Module V2.
Section V2.
Context `{Runtime}.
Variable raw_spec : json.

Section Pure.
Local Open Scope result_scope.

Definition get_response_ref (route http_method : string) : result json :=
    paths <- py_getitem raw_spec "paths" ;;
    route_data <- py_getitem paths route ;;
    op <- py_getitem route_data http_method ;;
    responses <- py_getitem op "responses" ;;
    response_code <- SUCCESS_CODES http_method ;;
    has_code <- py_in response_code responses ;;
    if has_code : bool then
      response_200 <- py_getitem responses response_code ;;
      has_schema <- py_in "schema" response_200 ;;
      if has_schema : bool then
        schema <- py_getitem response_200 "schema" ;;
        has_ref <- py_in "$ref" schema ;;
        if has_ref : bool then py_getitem schema "$ref" else Ok JNull
      else Ok JNull
    else Ok JNull.

Definition get_body_type_params (route http_method : string) : result json :=
    paths <- py_getitem raw_spec "paths" ;;
    route_item <- py_getitem paths route ;;
    route_data <- py_getitem route_item http_method ;;
    data <- py_get_default route_data "parameters" (JArr []) ;;
    if truthy data then
      first <- py_first data ;;
      schema <- py_get first "schema" ;;
      required <- py_get first "required" ;;
      description <- py_get first "description" ;;
      name <- py_get first "name" ;;
      Ok (JObj [("schema", schema); ("required", required);
                ("description", description); ("name", JArr [name])])
    else Ok (JObj []).

Definition get_iterable_object (route http_method : string) : result bool :=
    paths <- py_getitem raw_spec "paths" ;;
    route_data <- py_getitem paths route ;;
    op <- py_getitem route_data http_method ;;
    responses <- py_getitem op "responses" ;;
    response_code <- SUCCESS_CODES http_method ;;
    has_code <- py_in response_code responses ;;
    if has_code : bool then
      response_200 <- py_get responses response_code ;;
      has_schema <- py_in "schema" response_200 ;;
      if has_schema : bool then
        schema <- py_getitem response_200 "schema" ;;
        has_ref <- py_in "$ref" schema ;;
        if has_ref : bool then
          ref <- py_getitem schema "$ref" ;;
          object_key <- py_last_segment ref ;;
          definitions <- py_getitem raw_spec "definitions" ;;
          object_descr <- py_getitem definitions object_key ;;
          object_properties <- py_getitem object_descr "properties" ;;
          data_structure <- py_getitem object_properties "data" ;;
          ty <- py_get data_structure "type" ;;
          Ok (eq_str ty "array")
        else Ok false
      else Ok false
    else Ok false.

Definition _get_schema (route http_method : string) : result json :=
    param <- get_body_type_params route http_method ;;
    has_schema <- py_in "schema" param ;;
    if has_schema : bool then
      schema <- py_getitem param "schema" ;;
      has_ref <- py_in "$ref" schema ;;
      if has_ref : bool then
        ref <- py_getitem schema "$ref" ;;
        lookup raw_spec ref
      else Ok schema
    else Ok JNull.

End Pure.

Local Open Scope M_scope.

  (** The block [if 'discriminator' in schema: ...] of
      [filter_json_object]: the schema and the reference that the
      property loop then uses. *)
Definition resolve_discriminator (depth : nat) (data schema reference : json)
    : M (json * json) :=
    has_discriminator <- lift (py_in "discriminator" schema) ;;
    if has_discriminator : bool then
      disc_key <- lift (py_getitem schema "discriminator") ;;
      let disc_path := py_str reference +:+ "/" +:+ py_str disc_key in
      supplied <- lift (py_get_key data disc_key) ;;
      disc_value <-
        (if truthy supplied then ret supplied else cache_get disc_path) ;;
      (if negb (truthy disc_value) then
         raise (ClickException (MissingRequiredParam disc_key))
       else
         concrete_types <- lift (list_concrete_types raw_spec depth schema) ;;
         if negb (existsb (eq_str disc_value) concrete_types) then
           raise (ClickException
                    (InvalidParamValue disc_key disc_value concrete_types))
         else cache_set disc_path disc_value) ;;;
      let reference := JStr ("#/definitions/" +:+ py_str disc_value) in
      schema <- lift (lookup raw_spec reference) ;;
      ret (schema, reference)
    else ret (schema, reference).

  (** [filter_json_object(data, route, http_method, filter_createonly,
      schema, reference)]; [depth] is the depth of recursion that is left,
      and running out of it is Python's [RecursionError]. *)
Fixpoint filter_json_object (depth : nat) (data : json)
    (route http_method : string) (filter_createonly : bool)
    (schema reference : json) : M json :=
    match depth with
    | O => raise RecursionError
    | S depth' =>
        schema <- (match schema with
                   | JNull => lift (_get_schema route http_method)
                   | _ => ret schema
                   end) ;;
        resolved <- resolve_discriminator depth' data schema reference ;;
        let '(schema, reference) := resolved in
        filter_by_properties
          (fun value sub reference' =>
             filter_json_object depth' value route http_method
               filter_createonly sub reference')
          (lookup raw_spec)
          data filter_createonly schema reference
    end.

End V2.
End V2.

(** * class [_OpenAPIv3Spec] *)

Module V3.
Section V3.
Context `{Runtime}.
Variable raw_spec : json.

Section Pure.
Local Open Scope result_scope.

  (** [self._merge_all(data)] *)
Definition _merge_all (data : json) : result json :=
    utils_merge_all data raw_spec.

  (** [response_200['content']['application/json']] *)
Definition json_content (block : json) : result json :=
    content <- py_getitem block "content" ;;
    py_getitem content "application/json".

Definition get_response_ref (route http_method : string) : result json :=
    paths <- py_getitem raw_spec "paths" ;;
    route_data <- py_getitem paths route ;;
    op <- py_getitem route_data http_method ;;
    responses <- py_getitem op "responses" ;;
    response_code <- SUCCESS_CODES http_method ;;
    response_200 <- py_get responses response_code ;;
    has_ref <- py_in "$ref" response_200 ;;
    response_200 <- (if has_ref : bool
                     then (ref <- py_getitem response_200 "$ref" ;;
                           lookup raw_spec ref)
                     else Ok response_200) ;;
    media <- json_content response_200 ;;
    schema <- py_getitem media "schema" ;;
    py_getitem schema "$ref".

  (** The inner function [list_references_oneof] *)
Fixpoint collect_refs (list_typedata : list json) : result (list json) :=
    match list_typedata with
    | [] => Ok []
    | type_dict :: rest =>
        has_ref <- py_in "$ref" type_dict ;;
        head <- (if has_ref : bool
                 then (r <- py_getitem type_dict "$ref" ;; Ok [r])
                 else Ok []) ;;
        tail <- collect_refs rest ;;
        Ok (head ++ tail)
    end.

Definition list_references_oneof (data : json) : result (list json) :=
    one_of <- py_getitem data "oneOf" ;;
    list_typedata <- py_iter one_of ;;
    collect_refs list_typedata.

Definition get_body_type_params (route http_method : string) : result json :=
    paths <- py_getitem raw_spec "paths" ;;
    route_item <- py_getitem paths route ;;
    route_data <- py_getitem route_item http_method ;;
    has_body <- py_in "requestBody" route_data ;;
    if has_body : bool then
      request_body <- py_getitem route_data "requestBody" ;;
      has_ref <- py_in "$ref" request_body ;;
      raw_block <- (if has_ref : bool
                    then (ref <- py_get request_body "$ref" ;;
                          lookup raw_spec ref)
                    else Ok request_body) ;;
      media <- json_content raw_block ;;
      schema <- py_getitem media "schema" ;;
      required <- py_get raw_block "required" ;;
      description <- py_get raw_block "description" ;;
      let param := [("schema", schema); ("required", required);
                    ("description", description)] in
      schema_has_ref <- py_in "$ref" schema ;;
      if schema_has_ref : bool then
        ref <- py_getitem schema "$ref" ;;
        short <- py_last_segment ref ;;
        name <- py_get_default raw_block "name" (JStr short) ;;
        Ok (JObj (Dict.set param "name" (JArr [name])))
      else
        has_one_of <- py_in "oneOf" schema ;;
        if has_one_of : bool then
          refs <- list_references_oneof schema ;;
          names <- mapM py_last_segment refs ;;
          Ok (JObj (Dict.set param "name" (JArr (map JStr names))))
        else Ok (JObj param)
    else Ok (JObj []).

Definition get_iterable_object (route http_method : string) : result bool :=
    paths <- py_getitem raw_spec "paths" ;;
    route_data <- py_getitem paths route ;;
    op <- py_getitem route_data "get" ;;
    responses <- py_getitem op "responses" ;;
    response_code <- SUCCESS_CODES http_method ;;
    has_code <- py_in response_code responses ;;
    if has_code : bool then
      response_200 <- py_get responses response_code ;;
      has_ref <- py_in "$ref" response_200 ;;
      response_200 <- (if has_ref : bool
                       then (ref <- py_getitem response_200 "$ref" ;;
                             lookup raw_spec ref)
                       else Ok response_200) ;;
      media <- json_content response_200 ;;
      has_schema <- py_in "schema" media ;;
      if has_schema : bool then
        schema <- py_getitem media "schema" ;;
        schema_has_ref <- py_in "$ref" schema ;;
        schema <- (if schema_has_ref : bool
                   then (ref <- py_getitem schema "$ref" ;; lookup raw_spec ref)
                   else Ok schema) ;;
        object_properties <- py_getitem schema "properties" ;;
        data_structure <- py_getitem object_properties "data" ;;
        ty <- py_get data_structure "type" ;;
        Ok (eq_str ty "array")
      else Ok false
    else Ok false.

Definition _get_schema (route http_method : string) : result json :=
    param <- get_body_type_params route http_method ;;
    has_schema <- py_in "schema" param ;;
    if has_schema : bool then
      schema <- py_getitem param "schema" ;;
      has_ref <- py_in "$ref" schema ;;
      if has_ref : bool then
        ref <- py_getitem schema "$ref" ;;
        lookup raw_spec ref
      else Ok schema
    else Ok JNull.

  (** [self.lookup(ref)], merged when it has an ['allOf']. *)
Definition lookup_merged (ref : json) : result json :=
    schema <- lookup raw_spec ref ;;
    has_all_of <- py_in "allOf" schema ;;
    if has_all_of : bool then _merge_all schema else Ok schema.

End Pure.

Local Open Scope M_scope.

  (** [schema.get("discriminator").get('propertyName')] *)
Definition discriminator_property (schema : json) : result json :=
    (discriminator <- py_get schema "discriminator" ;;
     py_get discriminator "propertyName")%res.

  (** The block [if 'discriminator' in schema: ...] of
      [filter_json_object]. *)
Definition resolve_discriminator (depth : nat) (data schema reference : json)
    : M (json * json) :=
    has_discriminator <- lift (py_in "discriminator" schema) ;;
    if has_discriminator : bool then
      disc_key <- lift (discriminator_property schema) ;;
      let disc_path := py_str reference +:+ "/" +:+ py_str disc_key in
      supplied <- lift (py_get_key data disc_key) ;;
      disc_value <-
        (if truthy supplied then ret supplied else cache_get disc_path) ;;
      if negb (truthy disc_value) then
        raise (ClickException (MissingRequiredParam disc_key))
      else
        let reference := JStr ("#/components/schemas/" +:+ py_str disc_value) in
        schema <- lift (lookup_merged reference) ;;
        concrete_types <- lift (list_concrete_types raw_spec depth schema) ;;
        if negb (existsb (eq_str disc_value) concrete_types) then
          raise (ClickException
                   (InvalidParamValue disc_key disc_value concrete_types))
        else
          cache_set disc_path disc_value ;;;
          ret (schema, reference)
    else ret (schema, reference).

Fixpoint filter_json_object (depth : nat) (data : json)
    (route http_method : string) (filter_createonly : bool)
    (schema reference : json) : M json :=
    match depth with
    | O => raise RecursionError
    | S depth' =>
        schema <- (match schema with
                   | JNull => lift (_get_schema route http_method)
                   | _ => ret schema
                   end) ;;
        resolved <- resolve_discriminator depth' data schema reference ;;
        let '(schema, reference) := resolved in
        filter_by_properties
          (fun value sub reference' =>
             filter_json_object depth' value route http_method
               filter_createonly sub reference')
          lookup_merged
          data filter_createonly schema reference
    end.

End V3.
End V3.

(** * [Action.pre]: the key under which the body is sent *)

Section Pre.
Context `{Runtime}.
Local Open Scope result_scope.

  (** [param_names] as [pre] builds it from
      [self.spec.get_body_type_params(self.route, self.http_method)]. *)
Definition body_param_names (param_data : json) : result (list json) :=
    param_name <- py_get param_data "name" ;;
    if truthy param_name then py_iter param_name else Ok [].

  (** The end of the [try] block of [pre], from [schema =
      param_data['schema']] to [kwargs[param_name] =
      filtered_json_object]: the key and the value stored into [kwargs].
      [param_name] is what the variable holds when the block is reached,
      [raw_json_object] and [filtered_json_object] what was read from
      standard input, the editor or [import-data] and what
      [filter_json_object] made of it. *)
Definition pre_body_item (raw_spec : json) (param_data : json)
    (param_name raw_json_object filtered_json_object : json)
    : result (json * json) :=
    param_names <- body_param_names param_data ;;
    schema <- py_getitem param_data "schema" ;;
    has_ref <- py_in "$ref" schema ;;
    schema <- (if has_ref : bool
               then (ref <- py_getitem schema "$ref" ;; lookup raw_spec ref)
               else Ok schema) ;;
    param_name <-
      (match param_names with
       | [only] => Ok only
       | _ =>
           has_discriminator <- py_in "discriminator" schema ;;
           if has_discriminator : bool then
             disc_key <- V3.discriminator_property schema ;;
             py_get_key raw_json_object disc_key
           else Ok param_name
       end) ;;
    match param_name with
    | JArr _ | JObj _ => Raise TypeError
    | _ => Ok (param_name, filtered_json_object)
    end.

End Pre.

(** * [scalrctl/examples.py] *)

Module Examples.

Definition DEFAULTS (ty : json) : result json :=
    match ty with
    | JStr t =>
        if String.eqb t "string" then Ok (JStr "")
        else if String.eqb t "boolean" then Ok (JBool true)
        else if String.eqb t "integer" then Ok (JNum 1)
        else if String.eqb t "number" then Ok (JNum 1)
        else if String.eqb t "array" then Ok (JArr [])
        else Raise (KeyError t)
    | JArr _ | JObj _ => Raise TypeError
    | _ => Raise (KeyError "")
    end.

  (** [ref.strip('/')] *)
Fixpoint lstrip_slash (s : string) : string :=
    match s with
    | EmptyString => EmptyString
    | String c s' => if Ascii.eqb c "/" then lstrip_slash s' else s
    end.

Fixpoint rstrip_slash (s : string) : string :=
    match s with
    | EmptyString => EmptyString
    | String c s' =>
        match rstrip_slash s' with
        | EmptyString =>
            if Ascii.eqb c "/" then EmptyString else String c EmptyString
        | r => String c r
        end
    end.

Definition strip_slash (s : string) : string := rstrip_slash (lstrip_slash s).

Section Generate.
Context `{Runtime}.
Local Open Scope result_scope.

Definition _item_by_ref (spec_data ref : json) : result json :=
    definition <- (match ref with
                   | JStr r => Ok (last_segment (strip_slash r))
                   | _ => Raise AttributeError
                   end) ;;
    has_components <- py_in "components" spec_data ;;
    is_openapi_v3 <-
      (if has_components : bool
       then (components <- py_getitem spec_data "components" ;;
             py_in "schemas" components)
       else Ok false) ;;
    if is_openapi_v3 : bool then
      components <- py_getitem spec_data "components" ;;
      schemas <- py_getitem components "schemas" ;;
      py_getitem schemas definition
    else
      definitions <- py_getitem spec_data "definitions" ;;
      py_getitem definitions definition.

  (** The loop [for p_key, p_value in properties.items()] of
      [_generate_params]; [recur] is the recursive call. *)
Fixpoint generate_properties (recur : json -> result json) (spec_data : json)
    (properties : list (string * json)) (params : list (string * json))
    : result (list (string * json)) :=
    match properties with
    | [] => Ok params
    | (p_key, p_value) :: rest =>
        read_only <- py_get p_value "readOnly" ;;
        if truthy read_only then generate_properties recur spec_data rest params
        else
          has_ref <- py_in "$ref" p_value ;;
          value <-
            (if has_ref : bool then
               ref <- py_getitem p_value "$ref" ;;
               sub_item <- _item_by_ref spec_data ref ;;
               recur sub_item
             else
               has_enum <- py_in "enum" p_value ;;
               if has_enum : bool then
                 enum <- py_getitem p_value "enum" ;;
                 py_first enum
               else
                 ty <- py_getitem p_value "type" ;;
                 DEFAULTS ty) ;;
          generate_properties recur spec_data rest (Dict.set params p_key value)
    end.

  (** [_generate_params(spec_data, schema)]; [depth] is the depth of
      recursion that is left. *)
Fixpoint _generate_params (depth : nat) (spec_data schema : json)
    : result json :=
    match depth with
    | O => Raise RecursionError
    | S depth' =>
        has_ref <- py_in "$ref" schema ;;
        schema <- (if has_ref : bool
                   then (ref <- py_getitem schema "$ref" ;;
                         _item_by_ref spec_data ref)
                   else Ok schema) ;;
        has_all_of <- py_in "allOf" schema ;;
        properties <-
          (if has_all_of : bool
           then (merged <- utils_merge_all schema spec_data ;;
                 py_get_default merged "properties" (JObj []))
           else py_get_default schema "properties" (JObj [])) ;;
        if truthy properties then
          items <- py_items properties ;;
          params <- generate_properties (_generate_params depth' spec_data)
                      spec_data items [] ;;
          Ok (JObj params)
        else Ok (JObj [])
    end.

End Generate.
End Examples.

(** * The two implementations *)

Inductive version : Type := OpenAPIv2 | OpenAPIv3.

(** [self.filter_json_object] of the class that [get_spec] picks. *)
Definition filter_json_object `{Runtime} (v : version) (raw_spec : json)
  : nat -> json -> string -> string -> bool -> json -> json -> M json :=
  match v with
  | OpenAPIv2 => V2.filter_json_object raw_spec
  | OpenAPIv3 => V3.filter_json_object raw_spec
  end.

(** The discriminator block of each. *)
Definition resolve_discriminator `{Runtime} (v : version) (raw_spec : json)
  : nat -> json -> json -> json -> M (json * json) :=
  match v with
  | OpenAPIv2 => V2.resolve_discriminator raw_spec
  | OpenAPIv3 => V3.resolve_discriminator raw_spec
  end.

(** The schema that each hands to the recursive call for a property that
    refers to [ref]. *)
Definition sub_schema `{Runtime} (v : version) (raw_spec : json)
  : json -> result json :=
  match v with
  | OpenAPIv2 => lookup raw_spec
  | OpenAPIv3 => V3.lookup_merged raw_spec
  end.

(** * [filter_json_object] on a store of objects

    Python dictionaries and lists are objects with identity: [data] and
    [filtered] are references, and [filtered[p_key] = data[p_key]] stores a
    reference to the same nested object.  This model keeps the objects in a
    store, so that what [filter_json_object] writes, and where, is
    observable.  The specification document is only read and stays a
    [json] value. *)

Module Store.

  (** A value: a scalar or a reference to an object of the store. *)
Inductive value : Type :=
  | VNull
  | VBool (b : bool)
  | VNum (n : Z)
  | VStr (s : string)
  | VRef (l : nat).

Inductive object : Type :=
  | OList (items : list value)
  | ODict (kvs : list (string * value)).

  (** The store: object [l] is at index [l]; a new object goes last. *)
Abbreviation store := (list object).

Fixpoint get (kvs : list (string * value)) (k : string) : option value :=
    match kvs with
    | [] => None
    | (k', v) :: rest => if String.eqb k' k then Some v else get rest k
    end.

Fixpoint set (kvs : list (string * value)) (k : string) (v : value)
    : list (string * value) :=
    match kvs with
    | [] => [(k, v)]
    | (k', v') :: rest =>
        if String.eqb k' k then (k', v) :: rest else (k', v') :: set rest k v
    end.

  (** The JSON value that [v] denotes in [h], followed to depth [n]. *)
Fixpoint reify (n : nat) (h : store) (v : value) : json :=
    match v with
    | VNull => JNull
    | VBool b => JBool b
    | VNum z => JNum z
    | VStr s => JStr s
    | VRef l =>
        match n with
        | O => JNull
        | S n' =>
            match h !! l with
            | Some (OList items) => JArr (map (reify n' h) items)
            | Some (ODict kvs) =>
                JObj (map (fun kv => (fst kv, reify n' h (snd kv))) kvs)
            | None => JNull
            end
        end
    end.

  (** The object graph of a JSON value, allocated in [h]: the value that
      denotes it and the extended store. *)
Fixpoint alloc (v : json) (h : store) : value * store :=
    match v with
    | JNull => (VNull, h)
    | JBool b => (VBool b, h)
    | JNum z => (VNum z, h)
    | JStr s => (VStr s, h)
    | JArr items =>
        let '(vs, h') :=
          (fix go (items : list json) (h : store) : list value * store :=
             match items with
             | [] => ([], h)
             | x :: rest =>
                 let '(v, h1) := alloc x h in
                 let '(vs, h2) := go rest h1 in
                 (v :: vs, h2)
             end) items h in
        (VRef (length h'), h' ++ [OList vs])
    | JObj kvs =>
        let '(vs, h') :=
          (fix go (kvs : list (string * json)) (h : store)
             : list (string * value) * store :=
             match kvs with
             | [] => ([], h)
             | (k, x) :: rest =>
                 let '(v, h1) := alloc x h in
                 let '(vs, h2) := go rest h1 in
                 ((k, v) :: vs, h2)
             end) kvs h in
        (VRef (length h'), h' ++ [ODict vs])
    end.

  (** A computation on the store and the cache; both keep what was written
      before an exception. *)
Definition H (A : Type) : Type := store -> cache -> result A * store * cache.

Definition hret {A} (a : A) : H A := fun h c => (Ok a, h, c).
Definition hraise {A} (e : exn) : H A := fun h c => (Raise e, h, c).
Definition hlift {A} (r : result A) : H A := fun h c => (r, h, c).
Definition hbind {A B} (m : H A) (k : A -> H B) : H B :=
    fun h c =>
      match m h c with
      | (Ok a, h', c') => k a h' c'
      | (Raise e, h', c') => (Raise e, h', c')
      end.
  (** A computation on the cache alone *)
Definition hcache {A} (m : M A) : H A :=
    fun h c => let '(r, c') := m c in (r, h, c').
  (** A computation that reads the store *)
Definition hread {A} (f : store -> result A) : H A :=
    fun h c => (f h, h, c).
  (** [filtered = {}] *)
Definition new_dict : H nat :=
    fun h c => (Ok (length h), h ++ [ODict []], c).
  (** [filtered[p_key] = v] *)
Definition dict_store (filtered : nat) (p_key : string) (v : value) : H unit :=
    fun h c =>
      match h !! filtered with
      | Some (ODict kvs) => (Ok tt, <[filtered := ODict (set kvs p_key v)]> h, c)
      | _ => (Raise TypeError, h, c)
      end.

Declare Scope H_scope.
Delimit Scope H_scope with H.
Notation "x <- r ;; k" := (hbind r (fun x => k))
    (at level 100, r at next level, right associativity) : H_scope.
Notation "r ;;; k" := (hbind r (fun _ => k))
    (at level 100, right associativity) : H_scope.

  (** [p_key in data] *)
Definition contains (p_key : string) (data : value) (h : store) : result bool :=
    match data with
    | VStr t => Ok (is_substring p_key t)
    | VRef l =>
        match h !! l with
        | Some (ODict kvs) =>
            Ok (match get kvs p_key with Some _ => true | None => false end)
        | Some (OList items) =>
            Ok (existsb (fun v => match v with
                                  | VStr t => String.eqb t p_key
                                  | _ => false
                                  end) items)
        | None => Raise TypeError
        end
    | _ => Raise TypeError
    end.

  (** [data[p_key]] *)
Definition getitem (data : value) (p_key : string) (h : store) : result value :=
    match data with
    | VRef l =>
        match h !! l with
        | Some (ODict kvs) =>
            match get kvs p_key with
            | Some v => Ok v
            | None => Raise (KeyError p_key)
            end
        | _ => Raise TypeError
        end
    | _ => Raise TypeError
    end.

  (** [isinstance(v, dict)] *)
Definition is_dict (v : value) (h : store) : bool :=
    match v with
    | VRef l => match h !! l with Some (ODict _) => true | _ => false end
    | _ => false
    end.

Section Filter.
Context `{Runtime}.
Local Open Scope H_scope.

  (** The property loop, writing into the object [filtered]. *)
Fixpoint filter_properties
    (recur : value -> json -> json -> H value)
    (sub_schema : json -> result json)
    (data : value) (filter_createonly : bool) (reference : json)
    (create_only_props : json)
    (properties : list (string * json)) (filtered : nat) : H unit :=
    match properties with
    | [] => hret tt
    | (p_key, p_value) :: rest =>
        let continue :=
          filter_properties recur sub_schema data filter_createonly reference
            create_only_props rest filtered in
        (if truthy reference
         then (_ <- hlift (py_last_segment reference) ;; hret tt)
         else hret tt) ;;;
        known <- hread (contains p_key data) ;;
        if negb known then continue
        else
          read_only <- hlift (py_get p_value "readOnly") ;;
          if truthy read_only then continue
          else
            create_only <-
              (if filter_createonly then hlift (py_in p_key create_only_props)
               else hret false) ;;
            if create_only : bool then continue
            else
              has_ref <- hlift (py_in "$ref" p_value) ;;
              value <- hread (getitem data p_key) ;;
              nested <- hread (fun h => Ok (is_dict value h)) ;;
              if has_ref && nested then
                ref <- hlift (py_getitem p_value "$ref") ;;
                schema <- hlift (sub_schema ref) ;;
                sub <- recur value schema ref ;;
                dict_store filtered p_key sub ;;;
                continue
              else
                dict_store filtered p_key value ;;;
                continue
    end.

Definition filter_by_properties
    (recur : value -> json -> json -> H value)
    (sub_schema : json -> result json)
    (data : value) (filter_createonly : bool) (schema reference : json)
    (filtered : nat) : H value :=
    has_properties <-
      (if truthy schema then hlift (py_in "properties" schema) else hret false) ;;
    if has_properties : bool then
      create_only_props <- hlift (py_get_default schema "x-createOnly" (JStr "")) ;;
      props <- hlift (py_getitem schema "properties") ;;
      properties <- hlift (py_items props) ;;
      filter_properties recur sub_schema data filter_createonly
        reference create_only_props properties filtered ;;;
      hret (VRef filtered)
    else hret (VRef filtered).

  (** [_OpenAPIv2Spec.filter_json_object] and
      [_OpenAPIv3Spec.filter_json_object]: [resolve] is the discriminator
      block of the implementation, which reads [data] and the cache, and
      [sub_schema] its way to the schema of a nested object. *)
Fixpoint filter_json_object
    (get_schema : string -> string -> result json)
    (resolve : nat -> json -> json -> json -> M (json * json))
    (sub_schema : json -> result json)
    (depth : nat) (data : value)
    (route http_method : string) (filter_createonly : bool)
    (schema reference : json) : H value :=
    match depth with
    | O => hraise RecursionError
    | S depth' =>
        filtered <- new_dict ;;
        schema <- (match schema with
                   | JNull => hlift (get_schema route http_method)
                   | _ => hret schema
                   end) ;;
        snapshot <- hread (fun h => Ok (reify (length h) h data)) ;;
        resolved <- hcache (resolve depth' snapshot schema reference) ;;
        let '(schema, reference) := resolved in
        filter_by_properties
          (fun value sub reference' =>
             filter_json_object get_schema resolve sub_schema depth' value
               route http_method filter_createonly sub reference')
          sub_schema data filter_createonly schema reference filtered
    end.

Definition filter_json_object_v2 (raw_spec : json) :=
    filter_json_object (V2._get_schema raw_spec)
      (V2.resolve_discriminator raw_spec) (lookup raw_spec).

Definition filter_json_object_v3 (raw_spec : json) :=
    filter_json_object (V3._get_schema raw_spec)
      (V3.resolve_discriminator raw_spec) (V3.lookup_merged raw_spec).

(** [self.filter_json_object] of the class that [get_spec] picks. *)
Definition filter_json_object_of (v : version) (raw_spec : json) :=
  match v with
  | OpenAPIv2 => filter_json_object_v2 raw_spec
  | OpenAPIv3 => filter_json_object_v3 raw_spec
  end.

End Filter.

(** [v] refers to no object at or beyond [n]. *)
Definition below (n : nat) (v : value) : Prop :=
  match v with
  | VRef l => l < n
  | _ => True
  end.

(** The objects of [h] refer to objects of [h] only. *)
Definition closed (h : store) : Prop :=
  forall l o, h !! l = Some o ->
    match o with
    | OList items => Forall (below (length h)) items
    | ODict kvs => Forall (fun kv => below (length h) (snd kv)) kvs
    end.

(** A computation only adds objects to the store. *)
Definition extends {A} (m : H A) : Prop :=
  forall h c r h' c', m h c = (r, h', c') -> exists ext, h' = h ++ ext.

(** A computation that runs after [filtered = {}] was added to the store
    [h0]: it leaves [h0] as it is, the new object stays a dictionary, and
    what it returns satisfies [Q]. *)
Definition keeps {A} (h0 : store) (Q : A -> Prop) (m : H A) : Prop :=
  forall kvs ext c r h' c',
    m (h0 ++ ODict kvs :: ext) c = (r, h', c') ->
    (exists kvs' ext', h' = h0 ++ ODict kvs' :: ext')
    /\ forall a, r = Ok a -> Q a.

End Store.

(** * A runtime for concrete runs *)

Module Reference.

  (** [s.split('/')] *)
Fixpoint split_slash_aux (s acc : string) : list string :=
    match s with
    | EmptyString => [acc]
    | String c s' =>
        if Ascii.eqb c "/" then acc :: split_slash_aux s' ""
        else split_slash_aux s' (acc +:+ String c "")
    end.

Definition split_slash (s : string) : list string := split_slash_aux s "".

Fixpoint walk (ref : string) (path : list string) (node : json) : result json :=
    match path with
    | [] => Ok node
    | segment :: rest =>
        match node with
        | JObj kvs =>
            match Dict.get kvs segment with
            | Some child => walk ref rest child
            | None => Raise (SchemaError ref)
            end
        | _ => Raise (SchemaError ref)
        end
    end.

  (** Modelled from the spec: [utils.lookup], which is not among the
      sources.  "Looks up a reference path inside the raw specification
      tree; fails with SchemaError if absent."  A reference is
      ['#/segment/.../segment']. *)
Definition lookup_spec (response_ref raw_spec : json) : result json :=
    match response_ref with
    | JStr ref =>
        match split_slash ref with
        | "#" :: path => walk ref path raw_spec
        | _ => Raise (SchemaError ref)
        end
    | _ => Raise (SchemaError "")
    end.

  (** The properties of one branch of an ['allOf'], the branch resolved
      when it is a reference. *)
Definition branch_properties (raw_spec branch : json)
    : result (list (string * json)) :=
    (has_ref <- py_in "$ref" branch ;;
     node <- (if has_ref : bool
              then (ref <- py_getitem branch "$ref" ;; lookup_spec ref raw_spec)
              else Ok branch) ;;
     props <- py_get_default node "properties" (JObj []) ;;
     py_items props)%res.

  (** Modelled from the spec: [utils.merge_all], which is not among the
      sources.  "Flattens an allOf composition into one node whose
      properties are the union of all branch properties (later branches
      shadow earlier ones on key collision)." *)
Definition merge_all_spec (data raw_spec : json) : result json :=
    (all_of <- py_getitem data "allOf" ;;
     branches <- py_iter all_of ;;
     lists <- mapM (branch_properties raw_spec) branches ;;
     Ok (JObj [("properties",
                JObj (fold_left (fun acc kv => Dict.set acc (fst kv) (snd kv))
                        (concat lists) []))]))%res.

  (** [repr] of a list or a dictionary whose strings need no escaping. *)
Fixpoint repr_plain (v : json) : string :=
    match v with
    | JNull => "None"
    | JBool true => "True"
    | JBool false => "False"
    | JNum n => pretty n
    | JStr s => "'" +:+ s +:+ "'"
    | JArr items => "[" +:+ join ", " (map repr_plain items) +:+ "]"
    | JObj kvs =>
        "{" +:+ join ", " (map (fun kv => "'" +:+ fst kv +:+ "': "
                                          +:+ repr_plain (snd kv)) kvs) +:+ "}"
    end.

  (** [re.match] and [re.search] for a pattern without special characters:
      the pattern matches itself. *)
Definition literal_match (pattern value : string) : result (option string) :=
    Ok (if String.prefix pattern value then Some pattern else None).

Definition literal_search (pattern value : string) : result (option string) :=
    Ok (if is_substring pattern value then Some pattern else None).

Definition runtime : Runtime := {|
    py_repr := repr_plain;
    re_match := literal_match;
    re_search_multiline := literal_search;
    utils_lookup := lookup_spec;
    utils_merge_all := merge_all_spec;
    utils_reraise := fun message => ClickException (Msg message);
  |}.

End Reference.

(** * The vocabulary of the statements *)

(** A line of a server error message as the specification words it:
    ["Error <n>: <code>: <message>"], without the index when the response
    carries exactly one error. *)
Definition server_error_line (count n : nat) (code message : string) : string :=
  if Nat.eqb count 1
  then "Error: " +:+ code +:+ ": " +:+ message
  else "Error " +:+ pretty (Z.of_nat n) +:+ ": " +:+ code +:+ ": " +:+ message.

(** [error_data] is an object with a ["code"] and a ["message"]. *)
Definition error_entry (error_data : json) (fields : json * json) : Prop :=
  exists kvs, error_data = JObj kvs
              /\ Dict.get kvs "code" = Some (fst fields)
              /\ Dict.get kvs "message" = Some (snd fields).

(** Nothing was rendered: no [click.echo] among the output. *)
Definition nothing_echoed (out : list output) : Prop :=
  Forall (fun o => match o with Echo _ => False | _ => True end) out.

Definition newline : string := String "010" "".

(** The condition under which the option [--no-envelope] is to take
    effect, as the specification words it: the method is GET, the view is
    raw, json or xml, and the response has a ["data"] key. *)
Definition strip_envelope_applies (self : Action) (settings_view : string)
  (response_json : json) : bool :=
  strip_metadata self
  && String.eqb (upper (http_method self)) "GET"
  && in_tuple settings_view ["raw"; "json"; "xml"]
  && match response_json with
     | JObj kvs => Dict.mem kvs "data"
     | _ => false
     end.

(** [self] with the option switched off. *)
Definition without_strip (self : Action) : Action :=
  {| name := name self; route := route self; http_method := http_method self;
     api_level := api_level self; strip_metadata := false;
     _table_columns := _table_columns self;
     delete_target := delete_target self |}.

(** A response without errors, whose warnings (if any) are an array. *)
Definition successful (kvs : list (string * json)) : Prop :=
  truthy (default JNull (Dict.get kvs "errors")) = false
  /\ (Dict.get kvs "warnings" = None
      \/ exists ws, Dict.get kvs "warnings" = Some (JArr ws)).

(** What [click.echo] prints last. *)
Definition last_echo (out : list output) : option rendered :=
  match last out with
  | Some (Echo r) => Some r
  | _ => None
  end.

(** ** Patterns of route parameters *)

Definition param_pattern (param : json) : option string :=
  match param with
  | JObj p => match Dict.get p "pattern" with Some (JStr s) => Some s | _ => None end
  | _ => None
  end.

Definition param_name (param : json) : option string :=
  match param with
  | JObj p => match Dict.get p "name" with Some (JStr s) => Some s | _ => None end
  | _ => None
  end.

Section Patterns.
Context `{Runtime}.

  (** The regular expression covers the whole of [value]: the match that
      [re.match] finds, or the one that [re.search] with [re.MULTILINE]
      finds when [re.match] finds none, is as long as [value]. *)
Definition covers (pattern value : string) : Prop :=
    (exists group, re_match pattern value = Ok (Some group)
                   /\ str_len group = str_len value)
    \/ (re_match pattern value = Ok None
        /\ exists group, re_search_multiline pattern value = Ok (Some group)
                         /\ str_len group = str_len value).

  (** [param] declares a pattern, was supplied in [kwargs], and its pattern
      does not cover the stripped value. *)
Definition rejects (kwargs : list (string * json)) (param : json) : Prop :=
    exists pattern name v,
      param_pattern param = Some pattern /\ pattern <> ""
      /\ param_name param = Some name /\ name <> ""
      /\ Dict.get kwargs name = Some v
      /\ ~ covers pattern (strip (py_str v)).

  (** A parameter as the specification documents have it: an object whose
      ["pattern"] and ["name"], when present, are strings, the pattern one
      that [re] compiles. *)
Definition well_formed_param (param : json) : Prop :=
    exists p, param = JObj p
      /\ (Dict.get p "pattern" = None
          \/ exists s, Dict.get p "pattern" = Some (JStr s)
                       /\ forall value,
                           (exists r, re_match s value = Ok r)
                           /\ (exists r, re_search_multiline s value = Ok r))
      /\ (Dict.get p "name" = None
          \/ exists s, Dict.get p "name" = Some (JStr s)).

End Patterns.

(** A value that can be the key of a dictionary. *)
Definition hashable (v : json) : bool :=
  match v with
  | JArr _ | JObj _ => false
  | _ => true
  end.

(** [schema] is what [pre] makes of the declared body schema: the schema
    itself, or what its ['$ref'] resolves to. *)
Definition resolves_to `{Runtime} (raw_spec declared schema : json) : Prop :=
  (py_in "$ref" declared = Ok false /\ schema = declared)
  \/ (exists ref, py_in "$ref" declared = Ok true
                  /\ py_getitem declared "$ref" = Ok ref
                  /\ lookup raw_spec ref = Ok schema).

(** ** Iterable responses *)

(** The ["data"] property of [schema] is declared with type array. *)
Definition data_is_array (schema : json) : result bool :=
  (properties <- py_getitem schema "properties" ;;
   data <- py_getitem properties "data" ;;
   ty <- py_get data "type" ;;
   Ok (eq_str ty "array"))%res.

(** The same of the success response body schema of a route and method,
    the schema being the one [result_descr] returns. *)
Definition response_data_is_array `{Runtime} (raw_spec : json)
  (get_response_ref : string -> string -> result json)
  (route http_method : string) : result bool :=
  (schema <- result_descr raw_spec get_response_ref route http_method ;;
   data_is_array schema)%res.

(** ** Generated examples *)

(** The placeholder of each JSON type, as the specification lists them. *)
Definition type_default (t : string) : option json :=
  if String.eqb t "string" then Some (JStr "")
  else if String.eqb t "boolean" then Some (JBool true)
  else if String.eqb t "integer" then Some (JNum 1)
  else if String.eqb t "number" then Some (JNum 1)
  else if String.eqb t "array" then Some (JArr [])
  else None.

(** The declaration [p_value] marks its property read-only. *)
Definition is_read_only (p_value : json) : bool :=
  match p_value with
  | JObj p => truthy (default JNull (Dict.get p "readOnly"))
  | _ => false
  end.

(** [v] is the placeholder of a property declared by [p_value]: the
    generated example of the schema it refers to, else its first enum
    value, else the default of its type. *)
Inductive placeholder `{Runtime} (depth : nat) (spec_data : json)
  : json -> json -> Prop :=
| placeholder_ref p ref sub_item v :
    Dict.get p "$ref" = Some ref ->
    Examples._item_by_ref spec_data ref = Ok sub_item ->
    Examples._generate_params depth spec_data sub_item = Ok v ->
    placeholder depth spec_data (JObj p) v
| placeholder_enum p first rest :
    Dict.get p "$ref" = None ->
    Dict.get p "enum" = Some (JArr (first :: rest)) ->
    placeholder depth spec_data (JObj p) first
| placeholder_type p t v :
    Dict.get p "$ref" = None ->
    Dict.get p "enum" = None ->
    Dict.get p "type" = Some (JStr t) ->
    type_default t = Some v ->
    placeholder depth spec_data (JObj p) v.

(** The properties that [_generate_params] walks: those of [schema], or of
    its merge when it has an ['allOf']. *)
Definition walked_properties `{Runtime} (spec_data : json)
  (schema : list (string * json)) (props : list (string * json)) : Prop :=
  (Dict.get schema "allOf" = None
   /\ Dict.get schema "properties" = Some (JObj props))
  \/ (Dict.mem schema "allOf" = true
      /\ exists merged, utils_merge_all (JObj schema) spec_data = Ok (JObj merged)
                        /\ Dict.get merged "properties" = Some (JObj props)).

(** The properties that are not read-only, in order. *)
Definition writable (props : list (string * json)) : list (string * json) :=
  List.filter (fun kv => negb (is_read_only (snd kv))) props.

(** ** Filtering, as the specification words it *)

(** Equality of Python values where it differs from equality of the
    model: two dictionaries are equal when they have the same keys with
    equal values, in whatever order. *)
Inductive json_eq : json -> json -> Prop :=
| json_eq_refl v : json_eq v v
| json_eq_obj a b :
    (forall k, option_Forall2 json_eq (Dict.get a k) (Dict.get b k)) ->
    json_eq (JObj a) (JObj b).

(** How deep objects are nested in objects. *)
Fixpoint nesting (v : json) : nat :=
  match v with
  | JObj kvs =>
      S ((fix deepest (kvs : list (string * json)) : nat :=
            match kvs with
            | [] => O
            | (_, x) :: rest => Nat.max (nesting x) (deepest rest)
            end) kvs)
  | _ => O
  end.

(** The ['$ref'] of a property declaration. *)
Definition ref_of (p_value : json) : option json :=
  match p_value with
  | JObj p => Dict.get p "$ref"
  | _ => None
  end.

Section Retained.
Variable props_of : json -> list (string * json).

(** What the filter is to return for [value] under the declared
    properties [props]: the pairs of [value] whose key is declared and not
    read-only, a nested object under a property with a ['$ref'] filtered in
    turn under the properties [props_of ref] of the schema referred to. *)
Fixpoint retained (props : list (string * json)) (value : json) {struct value}
  : json :=
  match value with
  | JObj kvs =>
      JObj ((fix pairs (kvs : list (string * json)) : list (string * json) :=
               match kvs with
               | [] => []
               | (k, v) :: rest =>
                   match Dict.get props k with
                   | Some p_value =>
                       if is_read_only p_value then pairs rest
                       else
                         (k, match ref_of p_value with
                             | Some ref =>
                                 if isinstance_dict v
                                 then retained (props_of ref) v
                                 else v
                             | None => v
                             end) :: pairs rest
                   | None => pairs rest
                   end
               end) kvs)
  | _ => value
  end.

(** [value] has only declared keys that are not read-only, and so have
    its nested objects under properties with a ['$ref']. *)
Fixpoint conforms (props : list (string * json)) (value : json) {struct value}
  : bool :=
  match value with
  | JObj kvs =>
      (fix all (kvs : list (string * json)) : bool :=
         match kvs with
         | [] => true
         | (k, v) :: rest =>
             match Dict.get props k with
             | Some p_value =>
                 negb (is_read_only p_value)
                 && match ref_of p_value with
                    | Some ref =>
                        if isinstance_dict v then conforms (props_of ref) v
                        else true
                    | None => true
                    end
                 && all rest
             | None => false
             end
         end) kvs
  | _ => true
  end.

(** What [retained] keeps under a declaration [p_value] of a value [v]. *)
Definition kept_value (p_value v : json) : json :=
  match ref_of p_value with
  | Some ref => if isinstance_dict v then retained (props_of ref) v else v
  | None => v
  end.

(** The entry of [retained props (JObj kvs)] at [k]. *)
Definition kept_entry (props kvs : list (string * json)) (k : string)
  : option json :=
  match Dict.get kvs k with
  | Some v =>
      match Dict.get props k with
      | Some p_value =>
          if is_read_only p_value then None else Some (kept_value p_value v)
      | None => None
      end
  | None => None
  end.

End Retained.

(** The entry of the object [value] at [k]. *)
Definition obj_get (value : json) (k : string) : option json :=
  match value with
  | JObj kvs => Dict.get kvs k
  | _ => None
  end.

(** The argument [reference] of [filter_json_object]: [None] or a string. *)
Definition reference_ok (reference : json) : Prop :=
  reference = JNull \/ exists s, reference = JStr s.

Section Shape.
Variable refs : json -> Prop.

(** A schema without discriminator whose declared properties are [props]
    ([[]] when it declares none): the declarations are objects with
    distinct names, and what they refer to is among [refs]. *)
Definition plain_schema (schema : json) (props : list (string * json)) : Prop :=
  exists s, schema = JObj s
    /\ Dict.get s "discriminator" = None
    /\ (Dict.get s "properties" = Some (JObj props)
        \/ (Dict.get s "properties" = None /\ props = []))
    /\ Dict.nodup_keys props = true
    /\ Forall (fun kv => isinstance_dict (snd kv) = true) props
    /\ (forall kv ref, In kv props -> ref_of (snd kv) = Some ref -> refs ref).

End Shape.

(** Every reference among [refs] is a string that the implementation
    resolves to a schema without discriminator, with properties
    [props_of ref]. *)
Definition plain_references `{Runtime} (v : version) (raw_spec : json)
  (refs : json -> Prop) (props_of : json -> list (string * json)) : Prop :=
  forall ref, refs ref ->
    (exists s, ref = JStr s)
    /\ exists schema, sub_schema v raw_spec ref = Ok schema
                      /\ plain_schema refs schema (props_of ref).

(** What the recursive call is to do for the nested objects that fit in
    its depth of recursion. *)
Definition recur_retains `{Runtime} (v : version) (raw_spec : json)
  (refs : json -> Prop) (props_of : json -> list (string * json))
  (d : nat) (recur : json -> json -> json -> M json) : Prop :=
  forall value ref schema c,
    refs ref -> isinstance_dict value = true -> nesting value <= d ->
    sub_schema v raw_spec ref = Ok schema ->
    exists sub, recur value schema ref c = (Ok sub, c)
                /\ json_eq sub (retained props_of (props_of ref) value).

(** ** Discriminators *)

(** The discriminator property of a schema, as each implementation reads
    it. *)
Definition discriminator_key (v : version) (schema : json) : result json :=
  match v with
  | OpenAPIv2 => py_getitem schema "discriminator"
  | OpenAPIv3 => V3.discriminator_property schema
  end.

(** The key of the cache for a reference and a discriminator property. *)
Definition disc_path `{Runtime} (reference disc_key : json) : string :=
  py_str reference +:+ "/" +:+ py_str disc_key.

(** The reference of the concrete type named [disc_value]. *)
Definition concrete_reference `{Runtime} (v : version) (disc_value : json)
  : json :=
  match v with
  | OpenAPIv2 => JStr ("#/definitions/" +:+ py_str disc_value)
  | OpenAPIv3 => JStr ("#/components/schemas/" +:+ py_str disc_value)
  end.

(** [value in types] for a list of strings *)
Definition among (value : json) (types : list string) : bool :=
  existsb (eq_str value) types.

(** The entries of the cache hold values that are true. *)
Definition holds_true (c : cache) (k : string) : Prop :=
  exists value, c !! k = Some value /\ truthy value = true.

(** A computation keeps the entries of the cache that hold true values. *)
Definition preserves {A} (m : M A) : Prop :=
  forall c r c', m c = (r, c') -> forall k, holds_true c k -> holds_true c' k.

(** [data.get(disc_key) or self._discriminators.get(disc_path)] *)
Definition chosen_value (supplied : json) (c : cache) (path : string) : json :=
  if truthy supplied then supplied else default JNull (c !! path).

(** What is asked of both implementations for a valid discriminator
    value: the filter goes on with the node of the named concrete type,
    merged when it has an ['allOf']. *)
Definition proceeds_with_merged_concrete `{Runtime} (v : version)
  (raw_spec : json) (depth : nat) (data : json) (route http_method : string)
  (schema reference disc_value : json) : Prop :=
  exists merged c',
    V3.lookup_merged raw_spec (concrete_reference v disc_value) = Ok merged
    /\ fst (filter_json_object v raw_spec (S depth) data route http_method
              false schema reference ∅)
       = fst (filter_by_properties
                (fun value sub reference' =>
                   filter_json_object v raw_spec depth value route http_method
                     false sub reference')
                (sub_schema v raw_spec) data false merged
                (concrete_reference v disc_value) c').

(** * Concrete inputs *)

Module Sample.

Definition action (http_method : string) (strip : bool) : Action :=
    {| name := "list"; route := "/roles/"; http_method := http_method;
       api_level := "user"; strip_metadata := strip;
       _table_columns := []; delete_target := None |}.

  (** A [self.spec] whose methods are not reached. *)
Definition no_spec : OpenAPISpec :=
    {| spec_get_column_names := fun _ _ _ => Ok [];
       spec_get_iterable_object := fun _ _ => Ok false |}.

Definition one_error : list (string * json) :=
    [("errors", JArr [JObj [("code", JStr "E1"); ("message", JStr "bad")]])].

Definition two_errors : json :=
    JArr [JObj [("code", JStr "E1"); ("message", JStr "bad")];
          JObj [("code", JStr "E2"); ("message", JStr "worse")]].

Definition envelope : list (string * json) :=
    [("data", JArr [JObj [("id", JNum 1)]]); ("meta", JObj [])].

Definition response (kvs : list (string * json)) : payload :=
    {| body_text := "<the text of the response>"; body_json := Some (JObj kvs) |}.

  (** A route whose parameter must match [abc]. *)
Definition pattern_params : list json :=
    [JObj [("name", JStr "roleId"); ("pattern", JStr "abc")]].

Definition pattern_spec : json :=
    JObj [("paths",
           JObj [("/roles/", JObj [("parameters", JArr pattern_params)])])].

  (** An OpenAPI v3 document whose POST body is one of two types, told
      apart by ["type"]. *)
Definition ref (path : string) : json := JObj [("$ref", JStr path)].

Definition one_of_schema : json :=
    JObj [("oneOf", JArr [ref "#/components/schemas/Cat";
                          ref "#/components/schemas/Dog"]);
          ("discriminator", JObj [("propertyName", JStr "type")])].

Definition one_of_spec : json :=
    JObj [("paths",
           JObj [("/pets/",
                  JObj [("post",
                         JObj [("requestBody",
                                JObj [("content",
                                       JObj [("application/json",
                                              JObj [("schema", one_of_schema)])])])])])])].

Definition dog : json := JObj [("type", JStr "Dog"); ("name", JStr "Rex")].

  (** An OpenAPI v3 document: GET of [/jobs/] answers 200 with one job,
      POST answers 201 with an array of jobs. *)
Definition json_response (schema_ref : string) : json :=
    JObj [("content",
           JObj [("application/json", JObj [("schema", ref schema_ref)])])].

Definition jobs_v3 : json :=
    JObj [("paths",
           JObj [("/jobs/",
                  JObj [("get",
                         JObj [("responses",
                                JObj [("200", json_response
                                                "#/components/schemas/JobDetails")])]);
                        ("post",
                         JObj [("responses",
                                JObj [("201", json_response
                                                "#/components/schemas/JobList")])])])]);
          ("components",
           JObj [("schemas",
                  JObj [("JobDetails",
                         JObj [("properties",
                                JObj [("data", ref "#/components/schemas/Job")])]);
                        ("JobList",
                         JObj [("properties",
                                JObj [("data",
                                       JObj [("type", JStr "array");
                                             ("items",
                                              ref "#/components/schemas/Job")])])]);
                        ("Job", JObj [("properties",
                                       JObj [("id", JObj [("type", JStr "string")])])])])])].

  (** The same responses in an OpenAPI v2 document. *)
Definition jobs_v2 : json :=
    JObj [("paths",
           JObj [("/jobs/",
                  JObj [("get",
                         JObj [("responses",
                                JObj [("200",
                                       JObj [("schema",
                                              ref "#/definitions/JobDetails")])])]);
                        ("post",
                         JObj [("responses",
                                JObj [("201",
                                       JObj [("schema",
                                              ref "#/definitions/JobList")])])])])]);
          ("definitions",
           JObj [("JobDetails",
                  JObj [("properties", JObj [("data", ref "#/definitions/Job")])]);
                 ("JobList",
                  JObj [("properties",
                         JObj [("data",
                                JObj [("type", JStr "array");
                                      ("items", ref "#/definitions/Job")])])]);
                 ("Job", JObj [("properties",
                                JObj [("id", JObj [("type", JStr "string")])])])])].

  (** An OpenAPI v2 document with a role that refers to its operating
      system. *)
Definition os_properties : list (string * json) :=
    [("name", JObj [("type", JStr "string")]);
     ("version", JObj [("type", JStr "string"); ("readOnly", JBool true)])].

Definition role_properties : list (string * json) :=
    [("id", JObj [("type", JStr "integer"); ("readOnly", JBool true)]);
     ("name", JObj [("type", JStr "string")]);
     ("os", ref "#/definitions/Os")].

Definition role_schema : json :=
    JObj [("properties", JObj role_properties)].

Definition roles_v2 : json :=
    JObj [("definitions",
           JObj [("Role", role_schema);
                 ("Os", JObj [("properties", JObj os_properties)])])].

Definition role : list (string * json) :=
    [("os", JObj [("name", JStr "linux")]); ("name", JStr "web")].

  (** A polymorphic schema with one concrete type, in both versions of
      the format. *)
Definition dog_schema : json :=
    JObj [("properties",
           JObj [("type", JObj [("type", JStr "string")]);
                 ("name", JObj [("type", JStr "string")])])].

Definition pet_v2_fields : list (string * json) :=
    [("discriminator", JStr "type");
     ("x-concreteTypes", JArr [ref "#/definitions/Dog"]);
     ("properties", JObj [("type", JObj [("type", JStr "string")])])].

Definition pet_v2 : json := JObj pet_v2_fields.

Definition pets_v2 : json :=
    JObj [("definitions", JObj [("Pet", pet_v2); ("Dog", dog_schema)])].

Definition pet_v3_fields : list (string * json) :=
    [("discriminator", JObj [("propertyName", JStr "type")]);
     ("x-concreteTypes", JArr [ref "#/components/schemas/Dog"]);
     ("properties", JObj [("type", JObj [("type", JStr "string")])])].

Definition pet_v3 : json := JObj pet_v3_fields.

Definition pets_v3 : json :=
    JObj [("components",
           JObj [("schemas", JObj [("Pet", pet_v3); ("Dog", dog_schema)])])].

  (** The OpenAPI v2 document with the concrete type composed by
      ['allOf']. *)
Definition pets_allof_v2 : json :=
    JObj [("definitions",
           JObj [("Pet", pet_v2);
                 ("Dog",
                  JObj [("allOf",
                         JArr [ref "#/definitions/Pet";
                               JObj [("properties",
                                      JObj [("name",
                                             JObj [("type", JStr "string")])])]])])])].

Definition rex : json :=
    JObj [("type", JStr "Dog"); ("name", JStr "Rex"); ("owner", JStr "Ann")].

  (** The schema of the example-generation scenario. *)
Definition size_tag_properties : list (string * json) :=
    [("size", JObj [("type", JStr "integer")]);
     ("tag", JObj [("type", JStr "string"); ("enum", JArr [JStr "x"; JStr "y"])])].

Definition size_tag : list (string * json) :=
    [("type", JStr "object"); ("properties", JObj size_tag_properties)].

  (** The role of the plain filter, as objects of a store. *)
Definition role_in_store : Store.value * Store.store :=
    Store.alloc
      (JObj [("id", JNum 5); ("name", JStr "web");
             ("os", JObj [("version", JStr "9"); ("name", JStr "linux")])]) [].

Definition role_run :=
    @Store.filter_json_object_of Reference.runtime OpenAPIv2 roles_v2 2
      (fst role_in_store) "/roles/" "post" false role_schema JNull
      (snd role_in_store) ∅.

End Sample.

(** * More of [_OpenAPIBaseSpec] and its two subclasses *)

(** ** [handle_oneof] *)

Section HandleOneof.
Local Open Scope result_scope.

  (** The loop [for type_dict in list_typedata] of [handle_oneof]; a loop
      that ends without [return] gives [None]. *)
Fixpoint first_of_type (list_typedata : list json) (obj_type : json)
    : result json :=
    match list_typedata with
    | [] => Ok JNull
    | type_dict :: rest =>
        has_ref <- py_in "$ref" type_dict ;;
        found <- (if has_ref : bool
                  then (ref <- py_getitem type_dict "$ref" ;;
                        short <- py_last_segment ref ;;
                        Ok (eq_str obj_type short))
                  else Ok false) ;;
        if found : bool then py_getitem type_dict "$ref"
        else first_of_type rest obj_type
    end.

  (** [self.handle_oneof(data, obj_type)] *)
Definition handle_oneof (data obj_type : json) : result json :=
    one_of <- py_getitem data "oneOf" ;;
    list_typedata <- py_iter one_of ;;
    first_of_type list_typedata obj_type.

End HandleOneof.

(** [x in ("integer", "string")] *)
Definition integer_or_string (ty : json) : bool :=
  eq_str ty "integer" || eq_str ty "string".

(** ** [get_column_names] *)

(** A local variable that is assigned on some paths only. *)
Inductive binding (A : Type) : Type :=
| Bound (a : A)
| Unbound.
Arguments Bound {A} a.
Arguments Unbound {A}.

(** What code that reads such a variable may raise, besides the
    exceptions of [exn]. *)
Inductive error : Type :=
| Exn (e : exn)
| UnboundLocalError (variable : string)
| ValueError (text : string).

Inductive attempt (A : Type) : Type :=
| Returns (a : A)
| Fails (e : error).
Arguments Returns {A} a.
Arguments Fails {A} e.

Definition try {A} (r : result A) : attempt A :=
  match r with
  | Ok a => Returns a
  | Raise e => Fails (Exn e)
  end.

Definition abind {A B} (r : attempt A) (k : A -> attempt B) : attempt B :=
  match r with
  | Returns a => k a
  | Fails e => Fails e
  end.

Declare Scope attempt_scope.
Delimit Scope attempt_scope with attempt.
Notation "x <- r ;; k" := (abind r (fun x => k))
  (at level 100, r at next level, right associativity) : attempt_scope.

(** [response_ref], read after the branches that may have assigned it. *)
Definition read_local {A} (variable : string) (b : binding A) : attempt A :=
  match b with
  | Bound a => Returns a
  | Unbound => Fails (UnboundLocalError variable)
  end.

Module V2Columns.
Section V2Columns.
Context `{Runtime}.
Variable raw_spec : json.
Local Open Scope result_scope.

  (** The test of the ST-226 branch: ["properties" in f_key] and then
      [len(f_key["properties"]) == 1 and f_key.get("properties",
      {}).get("id", {}).get("type") in ("integer", "string")]. *)
Definition only_id (f_key : json) : result bool :=
    has_properties <- py_in "properties" f_key ;;
    if has_properties : bool then
      properties <- py_getitem f_key "properties" ;;
      count <- py_len properties ;;
      if Nat.eqb count 1 then
        properties <- py_get_default f_key "properties" (JObj []) ;;
        id <- py_get_default properties "id" (JObj []) ;;
        ty <- py_get id "type" ;;
        Ok (integer_or_string ty)
      else Ok false
    else Ok false.

  (** The loop [for k, v in properties.items()]. *)
Fixpoint column_names (properties : list (string * json))
    (column_names_so_far : list string) : result (list string) :=
    match properties with
    | [] => Ok column_names_so_far
    | (k, v) :: rest =>
        has_ref <- py_in "$ref" v ;;
        if negb has_ref then column_names rest (column_names_so_far ++ [k])
        else
          ref <- py_getitem v "$ref" ;;
          f_key <- lookup raw_spec ref ;;
          id_only <- only_id f_key ;;
          if id_only : bool
          then column_names rest (column_names_so_far ++ [k +:+ ".id"])
          else column_names rest column_names_so_far
    end.

Definition get_column_names (route http_method : string) (obj_type : json)
    : result (list string) :=
    descr <- result_descr raw_spec (V2.get_response_ref raw_spec)
               route http_method ;;
    properties <- py_getitem descr "properties" ;;
    data <- py_getitem properties "data" ;;
    has_items <- py_in "items" data ;;
    response_ref <- (if has_items : bool
                     then (items <- py_getitem data "items" ;;
                           py_getitem items "$ref")
                     else py_getitem data "$ref") ;;
    response_descr <- lookup raw_spec response_ref ;;
    properties <- py_getitem response_descr "properties" ;;
    items <- py_items properties ;;
    column_names items [].

End V2Columns.
End V2Columns.

Module V3Columns.
Section V3Columns.
Context `{Runtime}.
Variable raw_spec : json.

Section Pure.
Local Open Scope result_scope.

  (** The test of the ST-226 branch: ["properties" in f_key and
      len(f_key["properties"]) == 1 and "id" in f_key["properties"] and
      "type" in f_key["properties"]["id"]], and then
      [f_key["properties"]["id"]["type"] in ("integer", "string")]. *)
Definition only_id (f_key : json) : result bool :=
    has_properties <- py_in "properties" f_key ;;
    if has_properties : bool then
      properties <- py_getitem f_key "properties" ;;
      count <- py_len properties ;;
      if Nat.eqb count 1 then
        properties <- py_getitem f_key "properties" ;;
        has_id <- py_in "id" properties ;;
        if has_id : bool then
          properties <- py_getitem f_key "properties" ;;
          id <- py_getitem properties "id" ;;
          has_type <- py_in "type" id ;;
          if has_type : bool then
            properties <- py_getitem f_key "properties" ;;
            id <- py_getitem properties "id" ;;
            ty <- py_getitem id "type" ;;
            Ok (integer_or_string ty)
          else Ok false
        else Ok false
      else Ok false
    else Ok false.

Fixpoint column_names (properties : list (string * json))
    (column_names_so_far : list string) : result (list string) :=
    match properties with
    | [] => Ok column_names_so_far
    | (k, v) :: rest =>
        has_ref <- py_in "$ref" v ;;
        if negb has_ref then column_names rest (column_names_so_far ++ [k])
        else
          ref <- py_getitem v "$ref" ;;
          f_key <- lookup raw_spec ref ;;
          id_only <- only_id f_key ;;
          if id_only : bool
          then column_names rest (column_names_so_far ++ [k +:+ ".id"])
          else column_names rest column_names_so_far
    end.

  (** From [response_descr = self.lookup(response_ref)] on. *)
Definition columns_of (response_ref : json) : result (list string) :=
    response_descr <- lookup raw_spec response_ref ;;
    has_all_of <- py_in "allOf" response_descr ;;
    properties <- (if has_all_of : bool
                   then (merged <- V3._merge_all raw_spec response_descr ;;
                         py_get_default merged "properties" (JObj []))
                   else py_get_default response_descr "properties" (JObj [])) ;;
    items <- py_items properties ;;
    column_names items [].

End Pure.

Local Open Scope attempt_scope.

Definition get_column_names (route http_method : string) (obj_type : json)
    : attempt (list string) :=
    data <- try (descr <- result_descr raw_spec (V3.get_response_ref raw_spec)
                            route http_method ;;
                 properties <- py_getitem descr "properties" ;;
                 py_getitem properties "data")%res ;;
    has_items <- try (py_in "items" data) ;;
    if has_items : bool then
      items <- try (py_getitem data "items") ;;
      has_one_of <- try (py_in "oneOf" items) ;;
      if has_one_of : bool then
        response_ref <- try (handle_oneof items obj_type) ;;
        if negb (truthy response_ref) then Returns []
        else try (columns_of response_ref)
      else
        response_ref <- try (py_getitem items "$ref") ;;
        try (columns_of response_ref)
    else
      has_ref <- try (py_in "$ref" data) ;;
      if has_ref : bool then
        response_ref <- try (py_getitem data "$ref") ;;
        try (columns_of response_ref)
      else
        has_one_of <- try (py_in "oneOf" data) ;;
        response_ref <- (if has_one_of : bool
                         then (r <- try (handle_oneof data obj_type) ;;
                               Returns (Bound r))
                         else Returns Unbound) ;;
        response_ref <- read_local "response_ref" response_ref ;;
        try (columns_of response_ref).

End V3Columns.
End V3Columns.

(** The loop of [get_column_names] and its test, of the class that
    [get_spec] picks. *)
Definition only_id `{Runtime} (v : version) : json -> result bool :=
  match v with
  | OpenAPIv2 => V2Columns.only_id
  | OpenAPIv3 => V3Columns.only_id
  end.

Definition column_names `{Runtime} (v : version) (raw_spec : json)
  : list (string * json) -> list string -> result (list string) :=
  match v with
  | OpenAPIv2 => V2Columns.column_names raw_spec
  | OpenAPIv3 => V3Columns.column_names raw_spec
  end.

(** * More of class [Action] *)

(** ** More of dictionaries, lists and strings *)

(** [del d[k]] *)
Fixpoint dict_remove (kvs : list (string * json)) (k : string)
  : list (string * json) :=
  match kvs with
  | [] => []
  | (k', v) :: rest =>
      if String.eqb k' k then dict_remove rest k
      else (k', v) :: dict_remove rest k
  end.

(** [d.pop(k, default)]: the value and what is left of [d]. *)
Definition dict_pop (kvs : list (string * json)) (k : string) (default : json)
  : json * list (string * json) :=
  (match Dict.get kvs k with Some v => v | None => default end,
   dict_remove kvs k).

(** [d.update(other)] *)
Definition dict_update (kvs other : list (string * json))
  : list (string * json) :=
  fold_left (fun acc kv => Dict.set acc (fst kv) (snd kv)) other kvs.

(** [d.get(k)] for a dictionary [d] with string keys. *)
Definition dict_get_or_none (kvs : list (string * json)) (k : string) : json :=
  match Dict.get kvs k with Some v => v | None => JNull end.

(** [s.split(sep)] for a separator of one character. *)
Fixpoint py_split_aux (sep : ascii) (s acc : string) : list string :=
  match s with
  | EmptyString => [acc]
  | String c s' =>
      if Ascii.eqb c sep then acc :: py_split_aux sep s' ""
      else py_split_aux sep s' (acc +:+ String c "")
  end.

Definition py_split (sep : ascii) (s : string) : list string :=
  py_split_aux sep s "".

(** [v.split(sep)] on a JSON value. *)
Definition py_split_value (sep : ascii) (v : json) : result (list string) :=
  match v with
  | JStr s => Ok (py_split sep s)
  | _ => Raise AttributeError
  end.

(** The number that a value is, for [==] and for indexing: [True] is [1]. *)
Definition as_number (v : json) : option Z :=
  match v with
  | JNum n => Some n
  | JBool b => Some (Z.b2z b)
  | _ => None
  end.

(** [a == b] *)
Fixpoint py_eq (a b : json) {struct a} : bool :=
  match a, b with
  | JNull, JNull => true
  | JStr s, JStr t => String.eqb s t
  | JNum n, _ => match as_number b with Some m => Z.eqb n m | None => false end
  | JBool x, _ =>
      match as_number b with Some m => Z.eqb (Z.b2z x) m | None => false end
  | JArr xs, JArr ys =>
      (fix all (xs ys : list json) : bool :=
         match xs, ys with
         | [], [] => true
         | x :: xs', y :: ys' => py_eq x y && all xs' ys'
         | _, _ => false
         end) xs ys
  | JObj xs, JObj ys =>
      Nat.eqb (length xs) (length ys)
      && (fix all (xs : list (string * json)) : bool :=
            match xs with
            | [] => true
            | (k, x) :: xs' =>
                match Dict.get ys k with
                | Some y => py_eq x y
                | None => false
                end && all xs'
            end) xs
  | _, _ => false
  end.

(** [l[n]] for a list and an integer, negative ones counting from the
    end. *)
Definition list_index (l : list json) (n : Z) : result json :=
  let i := if (n <? 0)%Z then (n + Z.of_nat (length l))%Z else n in
  if (i <? 0)%Z then Raise IndexError
  else match nth_error l (Z.to_nat i) with
       | Some x => Ok x
       | None => Raise IndexError
       end.

(** ** The state that the methods of an [Action] change *)

(** The attributes of the module [settings] that are read or written. *)
Record Settings : Type := {
  debug_mode : bool;
  colored_output : bool;
  view : json;
  envId : json;
  accountId : json;
}.

(** An [Action] instance with the attribute [dry_run], and the settings. *)
Record Session : Type := {
  self : Action;
  dry_run : bool;
  settings : Settings;
}.

Definition set_table_columns (columns : list string) (s : Session) : Session :=
  {| self := {| name := name (self s); route := route (self s);
                http_method := http_method (self s);
                api_level := api_level (self s);
                strip_metadata := strip_metadata (self s);
                _table_columns := columns;
                delete_target := delete_target (self s) |};
     dry_run := dry_run s; settings := settings s |}.

Definition set_strip_metadata (s : Session) : Session :=
  {| self := {| name := name (self s); route := route (self s);
                http_method := http_method (self s);
                api_level := api_level (self s);
                strip_metadata := true;
                _table_columns := _table_columns (self s);
                delete_target := delete_target (self s) |};
     dry_run := dry_run s; settings := settings s |}.

Definition set_dry_run (s : Session) : Session :=
  {| self := self s; dry_run := true; settings := settings s |}.

Definition set_debug_mode (s : Session) : Session :=
  {| self := self s; dry_run := dry_run s;
     settings := {| debug_mode := true;
                    colored_output := colored_output (settings s);
                    view := view (settings s);
                    envId := envId (settings s);
                    accountId := accountId (settings s) |} |}.

Definition unset_colored_output (s : Session) : Session :=
  {| self := self s; dry_run := dry_run s;
     settings := {| debug_mode := debug_mode (settings s);
                    colored_output := false;
                    view := view (settings s);
                    envId := envId (settings s);
                    accountId := accountId (settings s) |} |}.

Definition set_view (transformation : json) (s : Session) : Session :=
  {| self := self s; dry_run := dry_run s;
     settings := {| debug_mode := debug_mode (settings s);
                    colored_output := colored_output (settings s);
                    view := transformation;
                    envId := envId (settings s);
                    accountId := accountId (settings s) |} |}.

(** ** [Action._apply_arguments] *)

Section ApplyArguments.
Local Open Scope result_scope.

  (** The body of the loop over the pairs of [filters]. *)
Definition apply_filter (kwargs : list (string * json)) (pair : string)
    : list (string * json) :=
    match py_split "=" pair with
    | [k; v] => Dict.set kwargs k (JStr v)
    | _ => kwargs
    end.

  (** [if kwargs.pop(flag, default): ...] *)
Definition pop_flag (flag : string) (change : Session -> Session)
    (state : Session * list (string * json)) : Session * list (string * json) :=
    let '(s, kwargs) := state in
    let '(value, kwargs) := dict_pop kwargs flag JNull in
    (if truthy value then change s else s, kwargs).

Definition _apply_arguments (s : Session) (kwargs : list (string * json))
    : result (Session * list (string * json)) :=
    kwargs <- (if truthy (dict_get_or_none kwargs "filters") then
                 let '(filters, kwargs) := dict_pop kwargs "filters" JNull in
                 pairs <- py_split_value "," filters ;;
                 Ok (fold_left apply_filter pairs kwargs)
               else Ok kwargs) ;;
    state <- (if truthy (dict_get_or_none kwargs "columns") then
                let '(columns, kwargs) := dict_pop kwargs "columns" JNull in
                columns <- py_split_value "," columns ;;
                Ok (set_table_columns columns s, kwargs)
              else Ok (s, kwargs)) ;;
    let state := pop_flag "strip_metadata" set_strip_metadata state in
    let state := pop_flag "dryrun" set_dry_run state in
    let state := pop_flag "debug" set_debug_mode state in
    let '(s, kwargs) := pop_flag "nocolor" unset_colored_output state in
    if truthy (dict_get_or_none kwargs "transformation") then
      let '(transformation, kwargs) := dict_pop kwargs "transformation" JNull in
      Ok (set_view transformation s, kwargs)
    else Ok (s, kwargs).

End ApplyArguments.

(** ** [Action.pre] *)

(** [self.spec.get_body_type_params] of the class that [get_spec] picks. *)
Definition get_body_type_params `{Runtime} (v : version) (raw_spec : json)
  : string -> string -> result json :=
  match v with
  | OpenAPIv2 => V2.get_body_type_params raw_spec
  | OpenAPIv3 => V3.get_body_type_params raw_spec
  end.

(** The arguments that [pre] returns.  The body is stored under a key
    that the specification or the object decides; [body_item] is that
    entry when its key is not a string, and [arguments] has all others. *)
Record Prepared : Type := {
  arguments : list (string * json);
  body_item : option (json * json);
}.

(** Code that reads and writes the discriminator cache and may raise any
    [error]. *)
Definition P (A : Type) : Type := cache -> attempt A * cache.

Definition p_ret {A} (a : A) : P A := fun c => (Returns a, c).
Definition p_fail {A} (e : error) : P A := fun c => (Fails e, c).
Definition p_lift {A} (r : attempt A) : P A := fun c => (r, c).
Definition p_bind {A B} (m : P A) (k : A -> P B) : P B :=
  fun c =>
    match m c with
    | (Returns a, c') => k a c'
    | (Fails e, c') => (Fails e, c')
    end.
Definition of_M {A} (m : M A) : P A :=
  fun c => let '(r, c') := m c in (try r, c').

Declare Scope P_scope.
Delimit Scope P_scope with P.
Notation "x <- r ;; k" := (p_bind r (fun x => k))
  (at level 100, r at next level, right associativity) : P_scope.

(** What [pre] asks of the terminal, of the server and of the module
    [json].  [_get_object_as_text] runs the ["get"] action of the route and
    filters what the server answers, so it reads and writes the
    discriminator cache; it answers a text, or the dictionary [{}] ([None]
    here) when the server answered nothing. *)
Record World : Type := {
  _read_object : attempt json;
  _edit_example : attempt json;
  _get_object_as_text : list (string * json) -> P (option string);
  json_loads : string -> attempt json;
  json_dumps : json -> string;
  click_edit : string -> option string;
}.

(** [if param_name in import_data: ... import_data[param_name]]: the item,
    or [None] when [param_name] is not in [import_data]. *)
Definition import_item (import_data param_name : json) : result (option json) :=
  match import_data with
  | JObj kvs =>
      match param_name with
      | JStr k => Ok (Dict.get kvs k)
      | JArr _ | JObj _ => Raise TypeError
      | _ => Ok None
      end
  | JArr items =>
      if existsb (py_eq param_name) items then
        match as_number param_name with
        | Some n => rbind (list_index items n) (fun item => Ok (Some item))
        | None => Raise TypeError
        end
      else Ok None
  | JStr text =>
      match param_name with
      | JStr k => if is_substring k text then Raise TypeError else Ok None
      | _ => Raise TypeError
      end
  | _ => Raise TypeError
  end.

(** The end of the [try] block of [pre] when [import_data] had none of
    the parameter names, so that [raw_json_object] and
    [filtered_json_object] were never assigned. *)
Definition pre_body_unbound `{Runtime} (raw_spec param_data : json)
  : attempt (json * json) :=
  (param_names <- try (body_param_names param_data) ;;
   schema <- try (py_getitem param_data "schema") ;;
   has_ref <- try (py_in "$ref" schema) ;;
   schema <- try (if has_ref : bool
                  then rbind (py_getitem schema "$ref") (lookup raw_spec)
                  else Ok schema) ;;
   match param_names with
   | [only] => Fails (UnboundLocalError "filtered_json_object")
   | _ =>
       has_discriminator <- try (py_in "discriminator" schema) ;;
       if has_discriminator : bool then
         disc_key <- try (V3.discriminator_property schema) ;;
         Fails (UnboundLocalError "raw_json_object")
       else Fails (UnboundLocalError "filtered_json_object")
   end)%attempt.

Section Pre.
Context `{Runtime}.
Variable v : version.
Variable raw_spec : json.
(** The depth of recursion that [filter_json_object] is given. *)
Variable depth : nat.
Variable world : World.
(** The exception that [utils.reraise(e)] raises for a [ValueError] with
    the given text. *)
Variable reraise : string -> exn.

Local Open Scope P_scope.

  (** [self.spec.filter_json_object(raw_json_object, self.route,
      self.http_method, filter_createonly=...)] *)
Definition filter_body (s : Session) (raw_json_object : json)
    (filter_createonly : bool) : P json :=
    of_M (filter_json_object v raw_spec depth raw_json_object
            (route (self s)) (http_method (self s)) filter_createonly
            JNull JNull).

  (** The loop [for param_name in param_names] over [import_data]: the
      objects assigned last, and the last [param_name]. *)
Fixpoint import_loop (s : Session) (import_data : json)
    (param_names : list json) (found : binding (json * json))
    (param_name : json) : P (binding (json * json) * json) :=
    match param_names with
    | [] => p_ret (found, param_name)
    | param_name :: rest =>
        item <- p_lift (try (import_item import_data param_name)) ;;
        match item with
        | Some raw_json_object =>
            filtered_json_object <-
              (if String.eqb (upper (http_method (self s))) "PATCH"
               then filter_body s raw_json_object true
               else p_ret raw_json_object) ;;
            import_loop s import_data rest
              (Bound (raw_json_object, filtered_json_object)) param_name
        | None => import_loop s import_data rest found param_name
        end
    end.

  (** The branches [if import_data: ... else: ...] of the [try] block:
      the arguments, the two objects and [param_name] as they leave. *)
Definition acquire (s : Session) (kwargs : list (string * json))
    (import_data stdin : json) (param_names : list json) (param_name : json)
    : P (list (string * json) * binding (json * json) * json) :=
    let method := upper (http_method (self s)) in
    if truthy import_data then
      found <- import_loop s import_data param_names Unbound param_name ;;
      p_ret (kwargs, fst found, snd found)
    else if String.eqb method "PATCH" then
      if truthy stdin then
        let kwargs := Dict.set kwargs "filter_createonly" (JBool true) in
        _ <- _get_object_as_text world kwargs ;;
        raw_json_object <- p_lift (_read_object world) ;;
        filtered_json_object <- filter_body s raw_json_object false ;;
        p_ret (kwargs, Bound (raw_json_object, filtered_json_object), param_name)
      else
        let kwargs := Dict.set kwargs "filter_createonly" (JBool false) in
        raw_text <- _get_object_as_text world kwargs ;;
        raw_json_object <-
          p_lift (match raw_text with
                  | Some text => json_loads world text
                  | None => Fails (Exn TypeError)
                  end) ;;
        filtered_dict <- filter_body s raw_json_object true ;;
        match click_edit world (json_dumps world filtered_dict) with
        | None => p_fail (ValueError "No changes in JSON")
        | Some editor_text =>
            filtered_json_object <- p_lift (json_loads world editor_text) ;;
            p_ret (kwargs, Bound (raw_json_object, filtered_json_object),
                   param_name)
        end
    else if String.eqb method "POST" then
      raw_json_object <-
        p_lift (if truthy stdin then _read_object world
                else _edit_example world) ;;
      filtered_json_object <- filter_body s raw_json_object false ;;
      p_ret (kwargs, Bound (raw_json_object, filtered_json_object), param_name)
    else p_ret (kwargs, Unbound, param_name).

  (** [kwargs[param_name] = filtered_json_object] *)
Definition store_body (kwargs : list (string * json)) (item : json * json)
    : Prepared :=
    match fst item with
    | JStr k => {| arguments := Dict.set kwargs k (snd item);
                   body_item := None |}
    | _ => {| arguments := kwargs; body_item := Some item |}
    end.

  (** The [try] block. *)
Definition pre_try (s : Session) (kwargs : list (string * json))
    (import_data stdin param_data : json) (param_names : list json)
    (param_name : json) : P Prepared :=
    acquired <- acquire s kwargs import_data stdin param_names param_name ;;
    let '(kwargs, found, param_name) := acquired in
    item <- p_lift (match found with
                    | Bound (raw_json_object, filtered_json_object) =>
                        try (pre_body_item raw_spec param_data param_name
                               raw_json_object filtered_json_object)
                    | Unbound => pre_body_unbound raw_spec param_data
                    end) ;;
    p_ret (store_body kwargs item).

  (** [try: ... except ValueError as e: utils.reraise(e)] *)
Definition except_value_error {A} (m : P A) : P A :=
    fun c =>
      match m c with
      | (Fails (ValueError text), c') => (Fails (Exn (reraise text)), c')
      | outcome => outcome
      end.

  (** [pre] after [_apply_arguments] and [_check_arguments]. *)
Definition pre_body (s : Session) (kwargs : list (string * json)) : P Prepared :=
    let '(import_data, kwargs) := dict_pop kwargs "import-data" (JObj []) in
    let '(stdin, kwargs) := dict_pop kwargs "stdin" JNull in
    if negb (in_tuple (upper (http_method (self s))) ["PATCH"; "POST"]) then
      p_ret {| arguments := kwargs; body_item := None |}
    else
      param_data <- p_lift (try (get_body_type_params v raw_spec
                                   (route (self s)) (http_method (self s)))) ;;
      param_name <- p_lift (try (py_get param_data "name")) ;;
      param_names <- p_lift (try (body_param_names param_data)) ;;
      except_value_error
        (pre_try s kwargs import_data stdin param_data param_names param_name).

  (** [self.pre] with the keyword arguments [kwargs]: what it returns or
      raises, the session and the cache it leaves. *)
Definition pre (s : Session) (kwargs : list (string * json)) (c : cache)
    : attempt Prepared * Session * cache :=
    match _apply_arguments s kwargs with
    | Raise e => (Fails (Exn e), s, c)
    | Ok (s, kwargs) =>
        match _check_arguments raw_spec (self s) kwargs with
        | Raise e => (Fails (Exn e), s, c)
        | Ok _ => let '(outcome, c) := pre_body s kwargs c in (outcome, s, c)
        end
    end.

End Pre.

(** ** [Action.run]: the request that is sent *)

(** A dictionary whose keys are any values that can be keys; two keys are
    the same when they are equal. *)
Fixpoint pydict_set (d : list (json * json)) (k v : json) : list (json * json) :=
  match d with
  | [] => [(k, v)]
  | (k', v') :: rest =>
      if py_eq k' k then (k', v) :: rest else (k', v') :: pydict_set rest k v
  end.

(** The text of the [ValueError] of [dict.update] for an element that is
    not a pair. *)
Definition not_a_pair (index length : nat) : string :=
  "dictionary update sequence element #" +:+ pretty (Z.of_nat index)
  +:+ " has length " +:+ pretty (Z.of_nat length) +:+ "; 2 is required".

(** One element of the sequence that [dict.update] is given, as the pair
    it stands for. *)
Definition update_pair (index : nat) (element : json) : attempt (json * json) :=
  match element with
  | JArr [k; x] => Returns (k, x)
  | JArr items => Fails (ValueError (not_a_pair index (length items)))
  | JStr s =>
      match characters s with
      | [a; b] => Returns (JStr a, JStr b)
      | _ => Fails (ValueError (not_a_pair index (str_len s)))
      end
  | JObj [(k1, _); (k2, _)] => Returns (JStr k1, JStr k2)
  | JObj kvs => Fails (ValueError (not_a_pair index (length kvs)))
  | _ => Fails (Exn TypeError)
  end.

Fixpoint update_pairs (data : list (json * json)) (index : nat)
  (elements : list json) : attempt (list (json * json)) :=
  match elements with
  | [] => Returns data
  | element :: rest =>
      (item <- update_pair index element ;;
       if hashable (fst item)
       then update_pairs (pydict_set data (fst item) (snd item)) (S index) rest
       else Fails (Exn TypeError))%attempt
  end.

(** [data.update(value)] *)
Definition py_update (data : list (json * json)) (value : json)
  : attempt (list (json * json)) :=
  match value with
  | JObj kvs =>
      Returns (fold_left (fun acc kv => pydict_set acc (JStr (fst kv)) (snd kv))
                 kvs data)
  | JArr elements => update_pairs data 0 elements
  | JStr s =>
      update_pairs data 0 (map JStr (characters s))
  | _ => Fails (Exn TypeError)
  end.

(** [k in c] for any two values. *)
Definition py_contains (k c : json) : result bool :=
  match c with
  | JObj kvs => kwargs_mem kvs k
  | JArr items => Ok (existsb (py_eq k) items)
  | JStr text =>
      match k with
      | JStr s => Ok (is_substring s text)
      | _ => Raise TypeError
      end
  | _ => Raise TypeError
  end.

(** What [request.request] is given besides the method and the level. *)
Record Request : Type := {
  request_uri : string;
  request_payload : list (string * json);
  request_data : list (json * json);
}.

Section Run.
Context `{Runtime}.
Variable v : version.
Variable raw_spec : json.
(** [self._request_template] *)
Variable _request_template : string.
(** [template.format] with keyword arguments. *)
Variable format : string -> list (string * json) -> result string.

  (** [if '{envId}' in uri and not kwargs.get('envId') and settings.envId:
      kwargs['envId'] = settings.envId] *)
Definition with_default (k : string) (value : json)
    (kwargs : list (string * json)) : list (string * json) :=
    if is_substring ("{" +:+ k +:+ "}") _request_template
       && negb (truthy (dict_get_or_none kwargs k))
       && truthy value
    then Dict.set kwargs k value
    else kwargs.

Local Open Scope attempt_scope.

  (** The loop [for key, value in kwargs.items()] of [run]. *)
Fixpoint collect (s : Session) (items : list (string * json))
    (payload : list (string * json)) (data : list (json * json))
    : attempt (list (string * json) * list (json * json)) :=
    match items with
    | [] => Returns (payload, data)
    | (key, value) :: rest =>
        let param := "{" +:+ key +:+ "}" in
        if truthy value && negb (is_substring param _request_template) then
          body_params <- try (get_body_type_params v raw_spec (route (self s))
                                (http_method (self s))) ;;
          if in_tuple (upper (http_method (self s))) ["GET"; "DELETE"] then
            collect s rest (Dict.set payload key value) data
          else if truthy body_params then
            names <- try (py_getitem body_params "name") ;;
            named <- try (py_contains (JStr key) names) ;;
            if named : bool then
              data <- py_update data value ;;
              collect s rest payload data
            else collect s rest payload data
          else collect s rest payload data
        else collect s rest payload data
    end.

  (** [run] from [uri = self._request_template] to the test of
      [self.dry_run]: the request that the arguments returned by [pre]
      make. *)
Definition request_of (s : Session) (prepared : Prepared) : attempt Request :=
    let kwargs := with_default "envId" (envId (settings s)) (arguments prepared) in
    let kwargs := with_default "accountId" (accountId (settings s)) kwargs in
    match kwargs, body_item prepared with
    | [], None =>
        Returns {| request_uri := _request_template; request_payload := [];
                   request_data := [] |}
    | _, Some _ => Fails (Exn TypeError)
    | _, None =>
        uri <- try (format _request_template kwargs) ;;
        collected <- collect s kwargs [] [] ;;
        Returns {| request_uri := uri; request_payload := fst collected;
                   request_data := snd collected |}
    end.

End Run.

(** ** class [PolledAction] *)

Section PolledAction.
(** [json.loads] of what [action_obj.run] returns for the keyword
    arguments [run_args], at the poll of the given number, counted from
    [0]. *)
Variable poll : nat -> list (string * json) -> attempt json.

  (** [self._get_operation_status(data_json)] *)
Definition _get_operation_status (data_json : json) : result json :=
    (data <- py_getitem data_json "data" ;; py_getitem data "status")%res.

  (** [run_args = {"hide_output": hide_output, "envId":
      kwargs.get('envId')}; run_args.update(poll_dict)] *)
Definition run_args (poll_dict : list (string * json)) (hide_output : json)
    (kwargs : list (string * json)) : list (string * json) :=
    dict_update [("hide_output", hide_output);
                 ("envId", dict_get_or_none kwargs "envId")] poll_dict.

  (** The loop [while status not in states_to_wait_for] with the number of
      polls made so far, for [patience] polls at most: [None] when the loop
      goes on after them.  The result is what the loop returns or raises,
      and the number of polls made.  The spinner and the pause between two
      polls have no part in it. *)
Fixpoint wait_from (patience : nat) (run_args : list (string * json))
    (states_to_wait_for : json) (polls : nat) (status : json)
    : option (attempt json * nat) :=
    match py_contains status states_to_wait_for with
    | Raise e => Some (Fails (Exn e), polls)
    | Ok true => Some (Returns status, polls)
    | Ok false =>
        match patience with
        | O => None
        | S patience' =>
            match poll polls run_args with
            | Fails e => Some (Fails e, S polls)
            | Returns data_json =>
                match _get_operation_status data_json with
                | Raise e => Some (Fails (Exn e), S polls)
                | Ok status =>
                    wait_from patience' run_args states_to_wait_for (S polls)
                      status
                end
            end
        end
    end.

  (** [self._wait_for_status] with [poll_dict], [states_to_wait_for],
      [hide_output] and the keyword arguments [kwargs]. *)
Definition _wait_for_status (patience : nat) (poll_dict : list (string * json))
    (states_to_wait_for hide_output : json) (kwargs : list (string * json))
    : option (attempt json * nat) :=
    wait_from patience (run_args poll_dict hide_output kwargs)
      states_to_wait_for 0 (JStr "").

End PolledAction.

(** * [scalrctl/commands/role.py] and [scalrctl/commands/farmrole.py] *)

(** [d[k] = v] on a JSON value. *)
Definition set_item (d : json) (k : string) (v : json) : result json :=
  match d with
  | JObj kvs => Ok (JObj (Dict.set kvs k v))
  | _ => Raise TypeError
  end.

(** [d[p1]...[pn][k] = v] on a tree that nothing else refers to, as
    [copy.deepcopy] makes one. *)
Fixpoint set_nested (d : json) (path : list string) (k : string) (v : json)
  : result json :=
  match path with
  | [] => set_item d k v
  | segment :: rest =>
      (child <- py_getitem d segment ;;
       child <- set_nested child rest k v ;;
       set_item d segment child)%res
  end.

Section Subclasses.
Context `{Runtime}.
Variable v : version.
Variable raw_spec : json.
Variable depth : nat.
Variable world : World.
Variable reraise : string -> exn.

  (** [kv = {"import-data": post_data}; kv.update(kwargs)] and the call of
      [pre] of the superclass. *)
Definition pre_with_import_data (s : Session) (post_data : result json)
    (kwargs : list (string * json)) (c : cache)
    : attempt Prepared * Session * cache :=
    match post_data with
    | Raise e => (Fails (Exn e), s, c)
    | Ok post_data =>
        pre v raw_spec depth world reraise s
          (dict_update [("import-data", post_data)] kwargs) c
    end.

Definition RoleClone_post_template : json :=
    JObj [("cloneRoleRequest", JObj [("name", JStr "")])].

  (** [RoleClone.pre] *)
Definition RoleClone_pre (s : Session) (kwargs : list (string * json))
    : cache -> attempt Prepared * Session * cache :=
    let '(name, kwargs) := dict_pop kwargs "name" JNull in
    pre_with_import_data s
      (set_nested RoleClone_post_template ["cloneRoleRequest"] "name" name)
      kwargs.

Definition RolePromote_post_template : json := JObj [].

  (** [RolePromote.pre], of the class that the module ends up with. *)
Definition RolePromote_pre (s : Session) (kwargs : list (string * json))
    : cache -> attempt Prepared * Session * cache :=
    pre_with_import_data s (Ok (JObj [])) kwargs.

Definition RoleDeprecate_post_template : json :=
    JObj [("deprecateRoleRequest", JObj [("deprecate", JBool true)])].

  (** [RoleDeprecate.pre] *)
Definition RoleDeprecate_pre (s : Session) (kwargs : list (string * json))
    : cache -> attempt Prepared * Session * cache :=
    let '(replacement, kwargs) := dict_pop kwargs "replacement" JNull in
    let '(revert, kwargs) := dict_pop kwargs "revert" (JBool false) in
    pre_with_import_data s
      (post_data <-
         (if truthy replacement
          then set_nested RoleDeprecate_post_template ["deprecateRoleRequest"]
                 "replacement" (JObj [("id", replacement)])
          else Ok RoleDeprecate_post_template) ;;
       if truthy revert
       then set_nested post_data ["deprecateRoleRequest"] "deprecate"
              (JBool false)
       else Ok post_data)%res
      kwargs.

  (** [LaunchServer.pre] *)
Definition LaunchServer_pre (s : Session) (kwargs : list (string * json))
    : cache -> attempt Prepared * Session * cache :=
    pre_with_import_data s (Ok (JObj [])) kwargs.

Definition FarmRoleClone_post_template : json :=
    JObj [("cloneFarmRoleRequest", JObj [("name", JStr "")])].

  (** [FarmRoleClone.pre] *)
Definition FarmRoleClone_pre (s : Session) (kwargs : list (string * json))
    : cache -> attempt Prepared * Session * cache :=
    let '(name, kwargs) := dict_pop kwargs "alias" JNull in
    let '(farm_id, kwargs) := dict_pop kwargs "farm_id" JNull in
    pre_with_import_data s
      (post_data <- set_nested FarmRoleClone_post_template
                      ["cloneFarmRoleRequest"] "name" name ;;
       if truthy farm_id
       then set_nested post_data ["cloneFarmRoleRequest"; "farm"] "id" farm_id
       else Ok post_data)%res
      kwargs.

End Subclasses.

(** * More of [scalrctl/examples.py] *)

Module PostExamples.

Definition DOCS_HOST : string := "https://api-explorer.scalr.com".

Definition EXCLUDES : list string :=
    ["/{envId}/farm-roles/{farmRoleId}/servers/"; "/{envId}/servers/"].

  (** [s[1:-1]] *)
Definition inner (s : string) : string :=
    String.concat "" (removelast (tl (characters s))).

  (** [s.endswith(t)] *)
Definition endswith (s t : string) : bool :=
    String.eqb
      (String.substring (String.length s - String.length t) (String.length t) s)
      t
    && (String.length t <=? String.length s)%nat.

Section PostExamples.
Context `{Runtime}.
(** The depth of recursion that [_generate_params] is given. *)
Variable depth : nat.
(** [re.findall(r'[{\[].*?}', endpoint)] *)
Variable find_parameters : string -> list string.
(** [json.dumps(post_data, indent=2)] *)
Variable json_dumps_indent : json -> string.
Local Open Scope result_scope.

Definition _generate_post_data_v2 (spec_data : json) (endpoint : string)
    : result json :=
    paths <- py_get_default spec_data "paths" (JObj []) ;;
    known <- py_in endpoint paths ;;
    if negb known then
      Raise (ClickException (Msg ("API endpoint " +:+ endpoint +:+ " not found")))
    else
      paths <- py_getitem spec_data "paths" ;;
      params_spec <- py_get paths endpoint ;;
      has_post <- py_in "post" params_spec ;;
      if has_post : bool then
        post <- py_getitem params_spec "post" ;;
        has_parameters <- py_in "parameters" post ;;
        if has_parameters : bool then
          post <- py_getitem params_spec "post" ;;
          parameters <- py_getitem post "parameters" ;;
          first <- py_first parameters ;;
          schema <- py_getitem first "schema" ;;
          Examples._generate_params depth spec_data schema
        else Ok (JObj [])
      else
        Raise (ClickException
                 (Msg ("POST method for endpoint " +:+ endpoint
                       +:+ " does not exist"))).

  (** A function that ends without [return] gives [None]. *)
Definition _generate_post_data_v3 (spec_data : json) (endpoint : string)
    : result json :=
    paths <- py_getitem spec_data "paths" ;;
    params_spec <- py_get paths endpoint ;;
    has_post <- py_in "post" params_spec ;;
    if has_post : bool then
      route_data <- py_getitem params_spec "post" ;;
      has_body <- py_in "requestBody" route_data ;;
      if has_body : bool then
        schema <- py_getitem route_data "requestBody" ;;
        Examples._generate_params depth spec_data schema
      else Ok (JObj [])
    else Ok JNull.

  (** [generate_post_data], given what [utils.is_openapi_v3] answers. *)
Definition generate_post_data (v : version) (spec_data : json)
    (endpoint : string) : result json :=
    match v with
    | OpenAPIv3 => _generate_post_data_v3 spec_data endpoint
    | OpenAPIv2 => _generate_post_data_v2 spec_data endpoint
    end.

  (** The loop [for param in ...] of [_get_definition_v2]. *)
Fixpoint first_definition (params : list json) : result json :=
    match params with
    | [] => Ok JNull
    | param :: rest =>
        schema <- py_get_default param "schema" (JStr "") ;;
        has_ref <- py_in "$ref" schema ;;
        if has_ref : bool then
          schema <- py_get param "schema" ;;
          ref <- py_getitem schema "$ref" ;;
          result <- py_last_segment ref ;;
          Ok (JStr result)
        else first_definition rest
    end.

Definition _get_definition_v2 (spec_data : json) (endpoint : string)
    : result json :=
    paths <- py_getitem spec_data "paths" ;;
    known <- py_in endpoint paths ;;
    if known : bool then
      paths <- py_getitem spec_data "paths" ;;
      endpoint_spec <- py_get paths endpoint ;;
      post <- py_getitem endpoint_spec "post" ;;
      parameters <- py_get_default post "parameters" (JStr "") ;;
      params <- py_iter parameters ;;
      first_definition params
    else
      Raise (ClickException
               (Msg ("API endpoint " +:+ endpoint +:+ " does not found"))).

Definition _get_definition_v3 (spec_data : json) (endpoint : string)
    : result json :=
    paths <- py_getitem spec_data "paths" ;;
    endpoint_spec <- py_getitem paths endpoint ;;
    route_data <- py_getitem endpoint_spec "post" ;;
    request_body <- py_getitem route_data "requestBody" ;;
    path <- py_get request_body "$ref" ;;
    name <- py_last_segment path ;;
    Ok (JStr name).

Definition get_definition (v : version) (spec_data : json) (endpoint : string)
    : result json :=
    match v with
    | OpenAPIv3 => _get_definition_v3 spec_data endpoint
    | OpenAPIv2 => _get_definition_v2 spec_data endpoint
    end.

Definition get_doc_url (api_level endpoint : string) : string :=
    let endpoint := Examples.strip_slash endpoint in
    let params := find_parameters endpoint in
    let last_param :=
      match last params with
      | Some p => if endswith endpoint p then p else ""
      | None => ""
      end in
    let postfix :=
      if negb (String.eqb last_param "") then "_" +:+ inner last_param else "" in
    let path :=
      join "/" (List.filter (fun l => negb (in_tuple l params))
                  (py_split "/" endpoint)) in
    DOCS_HOST +:+ "/" +:+ api_level +:+ "/" +:+ path +:+ "/post" +:+ postfix
    +:+ ".html".

  (** The text of the example before it is made a comment. *)
Definition example_text (name post_data doc_url : string) : string :=
    "The body must be a valid " +:+ name +:+ " object. Example value:"
    +:+ String "010" "" +:+ post_data +:+ String "010" ""
    +:+ "See more at " +:+ doc_url +:+ String "010" (String "010" "")
    +:+ "Type your " +:+ name +:+ " object below this line. "
    +:+ "The above text will not be sent to the API server.".

  (** ['\n'.join(['# {}'.format(line) for line in example.split('\n')])] *)
Definition commented (example : string) : string :=
    join (String "010" "")
      (map (fun line => "# " +:+ line) (py_split "010" example)).

  (** [create_post_example], given the specification that was read and
      what [utils.is_openapi_v3] answers for it. *)
Definition create_post_example (v : version) (spec_data : json)
    (api_level endpoint : string) : result string :=
    if in_tuple endpoint EXCLUDES then
      Raise (ClickException (Msg "Invalid API endpoint"))
    else
      post_data <- generate_post_data v spec_data endpoint ;;
      object_name <- get_definition v spec_data endpoint ;;
      let doc_url := get_doc_url api_level endpoint in
      Ok (commented (example_text (py_str object_name)
                       (json_dumps_indent post_data) doc_url)).

End PostExamples.
End PostExamples.

(** * Further statement vocabulary *)

(** A key that the property loop may put into its result: a declared
    property that [data] has, not read-only, and not create-only when
    create-only properties are filtered out. *)
Definition let_through (data : json) (filter_createonly : bool)
  (create_only_props : json) (properties : list (string * json))
  (k : string) : Prop :=
  exists p_value read_only,
    In (k, p_value) properties
    /\ py_in k data = Ok true
    /\ py_get p_value "readOnly" = Ok read_only
    /\ truthy read_only = false
    /\ (filter_createonly = true -> py_in k create_only_props = Ok false).

(** [self._get_schema] of the class that [get_spec] picks. *)
Definition _get_schema `{Runtime} (v : version) (raw_spec : json)
  : string -> string -> result json :=
  match v with
  | OpenAPIv2 => V2._get_schema raw_spec
  | OpenAPIv3 => V3._get_schema raw_spec
  end.

(** [used] is the schema whose properties a call of [filter_json_object]
    loops over: the schema passed, or the one of the route when none is
    passed, as the discriminator block resolves it. *)
Definition schema_in_use `{Runtime} (v : version) (raw_spec : json)
  (depth : nat) (data : json) (route http_method : string)
  (schema reference : json) (c : cache) (used : json) : Prop :=
  exists loaded reference' c1,
    match schema with
    | JNull => _get_schema v raw_spec route http_method
    | _ => Ok schema
    end = Ok loaded
    /\ resolve_discriminator v raw_spec depth data loaded reference c
       = (Ok (used, reference'), c1).

(** [name] is the name of a concrete type of the document: the last
    segment of a reference to a schema without ['x-concreteTypes']. *)
Definition concrete_leaf `{Runtime} (raw_spec : json) (name : string) : Prop :=
  exists ref leaf,
    py_last_segment ref = Ok name
    /\ lookup raw_spec ref = Ok leaf
    /\ py_in "x-concreteTypes" leaf = Ok false.

(** The success response of the route is a list whose items are one of
    several types: ['items'] of its [data] property has a ['oneOf']. *)
Definition polymorphic_list `{Runtime} (raw_spec : json)
  (route http_method : string) : Prop :=
  exists descr properties data items,
    result_descr raw_spec (V3.get_response_ref raw_spec) route http_method
    = Ok descr
    /\ py_getitem descr "properties" = Ok properties
    /\ py_getitem properties "data" = Ok data
    /\ py_in "items" data = Ok true
    /\ py_getitem data "items" = Ok items
    /\ py_in "oneOf" items = Ok true.

(** ** The arguments that take effect *)

(** The pairs of the option [filters], when it has a true value. *)
Definition filter_pairs (kwargs : list (string * json)) : list string :=
  match Dict.get kwargs "filters" with
  | Some (JStr text) => if String.eqb text "" then [] else py_split "," text
  | _ => []
  end.

(** The value that the pairs give to [k]: that of the last pair [k=v] with
    exactly one ['=']. *)
Fixpoint filter_value (pairs : list string) (k : string) : option string :=
  match pairs with
  | [] => None
  | entry :: rest =>
      match filter_value rest k with
      | Some v => Some v
      | None =>
          match py_split "=" entry with
          | [k'; v] => if String.eqb k' k then Some v else None
          | _ => None
          end
      end
  end.

(** The value of the argument [k] that takes effect: what a pair of
    [filters] says, and else what was passed; [filters] itself is spent
    when it has a true value. *)
Definition effective (kwargs : list (string * json)) (k : string) : json :=
  match filter_value (filter_pairs kwargs) k with
  | Some v => JStr v
  | None =>
      if truthy (dict_get_or_none kwargs "filters") && String.eqb k "filters"
      then JNull
      else dict_get_or_none kwargs k
  end.

(** The arguments that [_apply_arguments] takes out of [kwargs]. *)
Definition CONSUMED : list string :=
  ["columns"; "strip_metadata"; "dryrun"; "debug"; "nocolor"; "transformation"].

(** ** The body of a request *)

(** The schema of the body parameter is there and, when it is a
    reference, the document resolves it. *)
Definition body_schema_resolves `{Runtime} (raw_spec param_data : json) : Prop :=
  exists schema has_ref,
    py_getitem param_data "schema" = Ok schema
    /\ py_in "$ref" schema = Ok has_ref
    /\ (has_ref = true ->
        exists ref resolved, py_getitem schema "$ref" = Ok ref
                             /\ lookup raw_spec ref = Ok resolved).

(** The route has one body parameter, named [n], with a schema. *)
Definition one_body_parameter `{Runtime} (v : version) (raw_spec : json)
  (s : Session) (n : string) : Prop :=
  exists param_data,
    get_body_type_params v raw_spec (route (self s)) (http_method (self s))
    = Ok param_data
    /\ body_param_names param_data = Ok [JStr n]
    /\ body_schema_resolves raw_spec param_data.

(** The arguments that [pre] passes on: all but [import-data] and
    [stdin]. *)
Definition passed_on (kwargs : list (string * json)) : list (string * json) :=
  dict_remove (dict_remove kwargs "import-data") "stdin".

(** No parameter of the route is named [k]. *)
Definition no_parameter_named (raw_spec : json) (route k : string) : Prop :=
  forall paths route_data parameters params param,
    py_getitem raw_spec "paths" = Ok paths ->
    py_getitem paths route = Ok route_data ->
    py_getitem route_data "parameters" = Ok parameters ->
    py_iter parameters = Ok params ->
    In param params ->
    py_get param "name" <> Ok (JStr k).

(** Arguments as a command line gives them to a subclass: a dictionary
    without [import-data] and without filters. *)
Definition plain_arguments (kwargs : list (string * json)) : Prop :=
  Dict.nodup_keys kwargs = true
  /\ Dict.mem kwargs "import-data" = false
  /\ truthy (dict_get_or_none kwargs "filters") = false.

(** The request of [RoleDeprecate] as its options describe it. *)
Definition deprecation_request (replacement revert : json) : json :=
  JObj (("deprecate", JBool (negb (truthy revert)))
        :: (if truthy replacement
            then [("replacement", JObj [("id", replacement)])]
            else [])).

(** ** What a deletion reports *)

(** The argument [param] may name what was deleted: it is the
    [delete_target] of the action, or its name has ["Id"] and is not that
    of the environment or the account, or its name has ["Name"]. *)
Definition names_deleted (self : Action) (param : string) : Prop :=
  delete_target self = Some param
  \/ (is_substring "Id" param = true
      /\ in_tuple param ["envId"; "accountId"] = false)
  \/ is_substring "Name" param = true.

(** ** The body of the request that is sent *)

(** The entries of a dictionary as [dict.update] adds them to the empty
    body. *)
Definition body_of (d : list (string * json)) : list (json * json) :=
  fold_left (fun acc kv => pydict_set acc (JStr (fst kv)) (snd kv)) d [].

(** The route takes its body under the one name [n]. *)
Definition body_named `{Runtime} (v : version) (raw_spec : json) (s : Session)
  (n : string) : Prop :=
  exists body_params,
    get_body_type_params v raw_spec (route (self s)) (http_method (self s))
    = Ok body_params
    /\ truthy body_params = true
    /\ py_getitem body_params "name" = Ok (JArr [JStr n]).

(** ** Lines *)

(** The character [sep] does not occur in [s]. *)
Fixpoint free_of (sep : ascii) (s : string) : bool :=
  match s with
  | EmptyString => true
  | String c rest => negb (Ascii.eqb c sep) && free_of sep rest
  end.

(** The lines of a text, as [text.split('\n')] gives them. *)
Definition lines_of (text : string) : list string := py_split "010" text.

(** A line that [_edit_example] drops: a comment. *)
Definition is_comment (line : string) : bool := String.prefix "# " line.

(** ** Polling *)

(** The status that the poll of number [i] reports. *)
Definition reported (poll : nat -> list (string * json) -> attempt json)
  (arguments : list (string * json)) (i : nat) (status : json) : Prop :=
  exists data_json, poll i arguments = Returns data_json
                    /\ _get_operation_status data_json = Ok status.

(** ** What the filter returns *)

(** What the recursive call is to return when it returns: an object that
    has only declared keys that are not read-only, nested no deeper than
    the object it was given. *)
Definition recur_conforms `{Runtime} (v : version) (raw_spec : json)
  (refs : json -> Prop) (props_of : json -> list (string * json))
  (recur : json -> json -> json -> M json) : Prop :=
  forall value ref schema c sub c',
    refs ref -> isinstance_dict value = true ->
    sub_schema v raw_spec ref = Ok schema ->
    recur value schema ref c = (Ok sub, c') ->
    conforms props_of (props_of ref) sub = true
    /\ nesting sub <= nesting value.

(** * Further concrete inputs *)

Module Cases.

  (** An OpenAPI v2 document whose concrete type is defined in a group of
      definitions, so that its name alone is not a definition. *)
Definition kennel_pet_fields : list (string * json) :=
    [("discriminator", JStr "type");
     ("x-concreteTypes", JArr [Sample.ref "#/definitions/animals/Dog"]);
     ("properties", JObj [("type", JObj [("type", JStr "string")])])].

Definition kennel_v2 : json :=
    JObj [("definitions",
           JObj [("Pet", JObj kennel_pet_fields);
                 ("animals", JObj [("Dog", Sample.dog_schema)])])].

  (** A schema with a property declared in place, a property that refers
      to a schema with nothing but an [id], and one that refers to a role. *)
Definition server_properties : list (string * json) :=
    [("name", JObj [("type", JStr "string")]);
     ("image", Sample.ref "#/definitions/ImageId");
     ("role", Sample.ref "#/definitions/Role")].

Definition servers_v2 : json :=
    JObj [("definitions",
           JObj [("ImageId",
                  JObj [("properties",
                         JObj [("id", JObj [("type", JStr "string")])])]);
                 ("Role", Sample.role_schema)])].

  (** An OpenAPI v3 document whose GET of [/pets/] answers a list of cats
      and dogs. *)
Definition pet_list_v3 : json :=
    JObj [("paths",
           JObj [("/pets/",
                  JObj [("get",
                         JObj [("responses",
                                JObj [("200", Sample.json_response
                                                "#/components/schemas/PetList")])])])]);
          ("components",
           JObj [("schemas",
                  JObj [("PetList",
                         JObj [("properties",
                                JObj [("data",
                                       JObj [("type", JStr "array");
                                             ("items", Sample.one_of_schema)])])]);
                        ("Dog", Sample.dog_schema);
                        ("Cat", Sample.dog_schema)])])].

  (** A session in its initial state, and arguments with filters. *)
Definition session (http_method : string) : Session :=
    {| self := Sample.action http_method false; dry_run := false;
       settings := {| debug_mode := false; colored_output := true;
                      view := JStr "table"; envId := JNull;
                      accountId := JNull |} |}.

Definition filtered_arguments : list (string * json) :=
    [("envId", JStr "3");
     ("filters", JStr "name=web,dryrun=1,bad,a=b=c,name=db");
     ("debug", JBool true);
     ("transformation", JNull)].

  (** What [_apply_arguments] leaves of them. *)
Definition arguments_left : list (string * json) :=
    [("envId", JStr "3"); ("transformation", JNull); ("name", JStr "db")].

  (** An OpenAPI v2 document with a route that takes a role in its body. *)
Definition role_request_schema : json :=
    JObj [("x-createOnly", JArr [JStr "os"]);
          ("properties", JObj Sample.role_properties)].

Definition role_routes_v2 : json :=
    JObj [("paths",
           JObj [("/roles/",
                  JObj [("post",
                         JObj [("parameters",
                                JArr [JObj [("name", JStr "roleObject");
                                            ("schema", role_request_schema)]])]);
                        ("patch",
                         JObj [("parameters",
                                JArr [JObj [("name", JStr "roleObject");
                                            ("schema", role_request_schema)]])])])]);
          ("definitions",
           JObj [("Os", JObj [("properties", JObj Sample.os_properties)])])].

  (** A role as a caller may pass it. *)
Definition whole_role : json :=
    JObj [("id", JNum 5); ("name", JStr "web"); ("rank", JNum 2);
          ("os", JObj [("name", JStr "linux")])].

  (** A terminal and a server that answer nothing. *)
Definition silence : World :=
    {| _read_object := Fails (Exn (ClickException (Msg "no input")));
       _edit_example := Fails (Exn (ClickException (Msg "no editor")));
       _get_object_as_text :=
         fun _ => p_fail (Exn (ClickException (Msg "no server")));
       json_loads := fun _ => Fails (ValueError "no JSON");
       json_dumps := fun _ => "";
       click_edit := fun _ => None |}.

  (** An OpenAPI v2 document whose POST of [/roles/] takes a body
      parameter of the given name. *)
Definition request_route (parameter : string) : json :=
    JObj [("paths",
           JObj [("/roles/",
                  JObj [("post",
                         JObj [("parameters",
                                JArr [JObj [("name", JStr parameter);
                                            ("schema", JObj [])]])])])])].

  (** A route with the environment in its path, and a formatter that
      is not asked to do its work. *)
Definition roles_template : string := "/api/v1beta0/user/{envId}/roles/".

Definition roles_get_v2 : json :=
    JObj [("paths", JObj [("/roles/", JObj [("get", JObj [])])])].

Definition unformatted (template : string) (kwargs : list (string * json))
    : result string := Ok template.

  (** An OpenAPI v3 document whose POST of [/roles/] refers to its
      request body. *)
Definition role_example_v3 : json :=
    JObj [("paths",
           JObj [("/roles/",
                  JObj [("post",
                         JObj [("requestBody",
                                Sample.ref "#/components/requestBodies/SizeTag")])])]);
          ("components",
           JObj [("schemas", JObj [("SizeTag", JObj Sample.size_tag)])])].

  (** The text of the example for it, with Python's [repr] for
      [json.dumps] and an endpoint without parameters. *)
Definition role_example_text : string :=
    PostExamples.example_text "SizeTag" "{'size': 1, 'tag': 'x'}"
      "https://api-explorer.scalr.com/user/roles/post.html".

  (** A server whose operation is pending, then running. *)
Definition operation (status : string) : json :=
    JObj [("data", JObj [("status", JStr status)])].

Definition starting (i : nat) (arguments : list (string * json)) : attempt json :=
    match i with
    | 0 | 1 => Returns (operation "pending")
    | _ => Returns (operation "running")
    end.

  (** A terminal that is given a role on its standard input, and a server
      that answers the request for the object. *)
Definition piped : World :=
    {| _read_object := Returns whole_role;
       _edit_example := Fails (Exn (ClickException (Msg "no editor")));
       _get_object_as_text := fun _ => p_ret (Some "{}");
       json_loads := fun _ => Fails (ValueError "no JSON");
       json_dumps := fun _ => "";
       click_edit := fun _ => None |}.

  (** An editor that is closed without a change to the object that the
      server answered. *)
Definition unchanged : World :=
    {| _read_object := Fails (Exn (ClickException (Msg "no input")));
       _edit_example := Fails (Exn (ClickException (Msg "no editor")));
       _get_object_as_text := fun _ => p_ret (Some "<the object>");
       json_loads := fun _ => Returns whole_role;
       json_dumps := fun _ => "<the filtered object>";
       click_edit := fun _ => None |}.

End Cases.

(** [column] is the column that [get_column_names] shows for the
    property [k] declared by [v]: the property itself when it is declared
    in place, and [k.id] when it refers to a schema whose one property is
    an [id] of type integer or string. *)
Definition column_of `{Runtime} (raw_spec : json) (k : string) (v : json)
  (column : string) : Prop :=
  (py_in "$ref" v = Ok false /\ column = k)
  \/ (exists ref f_key id ty,
        py_getitem v "$ref" = Ok ref
        /\ lookup raw_spec ref = Ok f_key
        /\ py_getitem f_key "properties" = Ok (JObj [("id", id)])
        /\ py_get id "type" = Ok ty
        /\ integer_or_string ty = true
        /\ column = k +:+ ".id").


#[local] Arguments String.append : simpl nomatch.

(** * The monads *)

Lemma rbind_ok {A B} (a : A) (k : A -> result B) : rbind (Ok a) k = k a.
Proof. reflexivity. Qed.

Lemma rbind_raise {A B} (e : exn) (k : A -> result B) :
  rbind (Raise e) k = Raise e.
Proof. reflexivity. Qed.

Lemma bind_run {A B} (m : M A) (k : A -> M B) c a c' :
  m c = (Ok a, c') -> bind m k c = k a c'.
Proof. intros Hm. unfold bind. now rewrite Hm. Qed.

Lemma bind_fail {A B} (m : M A) (k : A -> M B) c e c' :
  m c = (Raise e, c') -> bind m k c = (Raise e, c').
Proof. intros Hm. unfold bind. now rewrite Hm. Qed.

(** * Server errors *)

Lemma append_assoc (a b c : string) : (a +:+ b) +:+ c = a +:+ (b +:+ c).
Proof. induction a as [|x a IH]; simpl; [reflexivity | now rewrite IH]. Qed.

Section ServerErrors.
Context `{Runtime}.

Lemma err_line_entry count n error_data fields :
    error_entry error_data fields ->
    err_line count (Z.of_nat n) error_data
    = Ok (server_error_line count n (py_str (fst fields)) (py_str (snd fields))).
  Proof.
    intros (kvs & -> & Hcode & Hmsg).
    unfold err_line, server_error_line; simpl.
    unfold Dict.mem. rewrite Hcode, Hmsg. simpl.
    destruct (Nat.eqb count 1); simpl; f_equal.
    - now rewrite !append_assoc.
    - now rewrite !append_assoc.
  Qed.

Lemma err_line_total count num error_data :
  isinstance_dict error_data = true ->
  exists line, err_line count num error_data = Ok line.
Proof.
  destruct error_data as [| | | | |kvs]; try discriminate. intros _.
  unfold err_line. cbn [py_in py_getitem py_get_default rbind]. unfold Dict.mem.
  destruct (Dict.get kvs "code"); destruct (Dict.get kvs "message");
    cbn [rbind]; eauto.
Qed.

Lemma err_lines_objects count errors :
  Forall (fun e => isinstance_dict e = true) errors ->
  forall n,
  exists lines,
    err_lines count (Z.of_nat n) errors = Ok lines
    /\ length lines = length errors
    /\ forall i e fields,
         errors !! i = Some e -> error_entry e fields ->
         lines !! i
         = Some (server_error_line count (n + i)
                   (py_str (fst fields)) (py_str (snd fields))).
Proof.
  induction 1 as [|e errors He _ IH]; intros n.
  - exists []. split; [reflexivity|]. split; [reflexivity|].
    intros i e fields Hi; discriminate.
  - destruct (err_line_total count (Z.of_nat n) e He) as [line Hline].
    destruct (IH (S n)) as (lines & Hlines & Hlen & Hat).
    exists (line :: lines). cbn [err_lines]. rewrite Hline, rbind_ok.
    replace (Z.of_nat n + 1)%Z with (Z.of_nat (S n)) by lia.
    rewrite Hlines, rbind_ok. split; [reflexivity|].
    split; [cbn; now rewrite Hlen|].
    intros [|i] e' fields Hi Hentry.
    + change (Some e = Some e') in Hi. injection Hi as <-.
      rewrite (err_line_entry _ _ _ _ Hentry) in Hline.
      injection Hline as <-. now rewrite Nat.add_0_r.
    + change (errors !! i = Some e') in Hi.
      change ((line :: lines) !! S i) with (lines !! i).
      rewrite (Hat i e' fields Hi Hentry). do 2 f_equal. lia.
Qed.

(** C4. When the parsed response is an object whose ["errors"] is a
    non-empty array of objects (and its ["warnings"], when present, an
    array), [_format_response] renders nothing and raises
    [MultipleClickException] with code 1; its message has one line per
    error, joined by newlines, and the line of an error that has a code and
    a message is ["Error <n>: <code>: <message>"] with [n] counting from 1,
    or ["Error: <code>: <message>"] when there is exactly one error. *)
Theorem format_response_server_errors
  (self : Action) (spec : OpenAPISpec) (settings_view : string)
  (response : payload) (hidden : bool) (kwargs : list (string * json))
  (kvs : list (string * json)) (errors : list json) :
  body_text response <> "" ->
  body_json response = Some (JObj kvs) ->
  Dict.get kvs "errors" = Some (JArr errors) ->
  errors <> [] ->
  Forall (fun e => isinstance_dict e = true) errors ->
  (Dict.get kvs "warnings" = None
   \/ exists ws, Dict.get kvs "warnings" = Some (JArr ws)) ->
  exists out lines,
    _format_response self spec settings_view response hidden kwargs
    = (out, Raise (MultipleClickException (join newline lines) 1))
    /\ nothing_echoed out
    /\ length lines = length errors
    /\ forall i e code message,
         errors !! i = Some e ->
         error_entry e (code, message) ->
         lines !! i
         = Some (server_error_line (length errors) (S i)
                   (py_str code) (py_str message)).
Proof.
  intros Htext Hjson Herrors Hne Hobjects Hwarn.
  destruct (err_lines_objects (length errors) errors Hobjects 1)
    as (lines & Hlines & Hlen & Hat).
  change (Z.of_nat 1) with 1%Z in Hlines.
  assert (Hmsg : _format_errmsg (JArr errors) = Ok (join newline lines)).
  { unfold _format_errmsg; simpl. rewrite Hlines. reflexivity. }
  assert (Htruthy : truthy (JArr errors) = true)
    by (destruct errors; [contradiction | reflexivity]).
  assert (Hspec : forall i e code message,
    errors !! i = Some e -> error_entry e (code, message) ->
    lines !! i = Some (server_error_line (length errors) (S i)
                         (py_str code) (py_str message))).
  { intros i e code message Hi Hentry. exact (Hat i e (code, message) Hi Hentry). }
  unfold _format_response.
  destruct (String.eqb_spec (body_text response) "") as [E|_]; [contradiction|].
  cbn [negb]. rewrite Hjson. unfold py_get, py_get_default.
  rewrite Herrors. cbn [io_bind io_lift].
  destruct Hwarn as [Hw | [ws Hw]]; rewrite Hw.
  - change (truthy JNull) with false. cbn [io_bind io_ret].
    rewrite Htruthy, Hmsg. cbn.
    eexists _, lines. split; [reflexivity|]. split; [constructor | auto].
  - destruct ws as [|w ws].
    + change (truthy (JArr [])) with false. cbn [io_bind io_ret].
      rewrite Htruthy, Hmsg. cbn.
      eexists _, lines. split; [reflexivity|]. split; [constructor | auto].
    + change (truthy (JArr (w :: ws))) with true.
      cbn [io_bind io_lift io_ret io_emit py_iter].
      rewrite Htruthy, Hmsg. cbn.
      eexists _, lines. split; [reflexivity|].
      split; [repeat constructor | auto].
Qed.

End ServerErrors.

(** The message of the scenario with two errors. *)
Example format_errmsg_two_errors :
  @_format_errmsg Reference.runtime Sample.two_errors
  = Ok ("Error 1: E1: bad" +:+ newline +:+ "Error 2: E2: worse").
Proof. reflexivity. Qed.

Lemma format_response_server_errors_witness :
  exists out,
    @_format_response Reference.runtime (Sample.action "get" false)
      Sample.no_spec "json" (Sample.response Sample.one_error) false []
    = (out, Raise (MultipleClickException "Error: E1: bad" 1))
    /\ nothing_echoed out.
Proof.
  destruct (@format_response_server_errors Reference.runtime
              (Sample.action "get" false) Sample.no_spec "json"
              (Sample.response Sample.one_error) false [] Sample.one_error
              [JObj [("code", JStr "E1"); ("message", JStr "bad")]])
    as (out & lines & Hrun & Hout & Hlen & Hat).
  - discriminate.
  - reflexivity.
  - reflexivity.
  - discriminate.
  - repeat constructor.
  - left; reflexivity.
  - exists out. split; [|exact Hout].
    specialize (Hat 0 _ (JStr "E1") (JStr "bad") eq_refl).
    destruct lines as [|line [|line' lines]]; try discriminate.
    cbn in Hat. rewrite Hrun. do 3 f_equal.
    assert (Hline : Some line = Some "Error: E1: bad").
    { apply Hat. eexists; repeat split; reflexivity. }
    now injection Hline as ->.
Defined.

(** * The strip-envelope option *)

Section StripEnvelope.
Context `{Runtime}.

Lemma in_tuple_raw_json_xml view :
    in_tuple view ["raw"; "json"] = true ->
    in_tuple view ["raw"; "json"; "xml"] = true.
  Proof.
    unfold in_tuple; simpl. intros Hv.
    destruct (String.eqb view "raw"), (String.eqb view "json"); simpl in *;
      congruence.
  Qed.

Lemma strip_envelope_not_applied self view response kvs :
    strip_envelope_applies self view (JObj kvs) = false ->
    strip_envelope self view response (JObj kvs)
    = io_ret (Text (body_text response), JObj kvs).
  Proof.
    unfold strip_envelope_applies, strip_envelope. intros Hno.
    destruct (strip_metadata self
              && String.eqb (upper (http_method self)) "GET"
              && in_tuple view ["raw"; "json"; "xml"]); [|reflexivity].
    cbn in Hno |- *. now rewrite Hno.
  Qed.

  (** The option has no effect where it does not apply. *)
Lemma format_response_without_strip self spec view response hidden kwargs :
    match body_json response with
    | Some response_json => strip_envelope_applies self view response_json = false
    | None => True
    end ->
    _format_response self spec view response hidden kwargs
    = _format_response (without_strip self) spec view response hidden kwargs.
  Proof.
    intros Hno. unfold _format_response.
    destruct (negb (String.eqb (body_text response) "")); [|reflexivity].
    destruct (body_json response) as [response_json|]; [|reflexivity].
    destruct response_json as [| | | | |kvs]; try reflexivity.
    rewrite (strip_envelope_not_applied self view response kvs Hno).
    rewrite (strip_envelope_not_applied (without_strip self) view response kvs)
      by (unfold strip_envelope_applies; reflexivity).
    reflexivity.
  Qed.

Lemma last_echo_snoc out r : last_echo (out ++ [Echo r]) = Some r.
  Proof. unfold last_echo. now rewrite last_snoc. Qed.

  (** C7. For a successful response that is rendered, the option
      [strip_metadata] makes [_format_response] print the ["data"] field
      alone exactly when the method is GET, the view is raw, json or xml and
      the response has a ["data"] key; in every other case the call prints
      what it prints without the option, which for the views raw and json is
      the text of the response as received and for xml the whole parsed
      response. *)
Theorem strip_envelope_exactly_when
    (self : Action) (spec : OpenAPISpec) (settings_view : string)
    (response : payload) (kwargs : list (string * json))
    (kvs : list (string * json)) :
    body_text response <> "" ->
    body_json response = Some (JObj kvs) ->
    successful kvs ->
    let run := _format_response self spec settings_view response false kwargs in
    (strip_envelope_applies self settings_view (JObj kvs) = true ->
     exists data,
       Dict.get kvs "data" = Some data
       /\ snd run = Ok None
       /\ last_echo (fst run)
          = Some (if String.eqb settings_view "xml"
                  then DictToXml data else JsonDumps data))
    /\ (strip_envelope_applies self settings_view (JObj kvs) = false ->
        run = _format_response (without_strip self) spec settings_view
                response false kwargs
        /\ (in_tuple settings_view ["raw"; "json"] = true ->
            snd run = Ok None
            /\ last_echo (fst run) = Some (Text (body_text response)))
        /\ (settings_view = "xml" ->
            snd run = Ok None
            /\ last_echo (fst run) = Some (DictToXml (JObj kvs)))).
  Proof.
    intros Htext Hjson [Herrors Hwarn] run.
    assert (Hrun : exists pre,
      forall self',
      _format_response self' spec settings_view response false kwargs
      = io_bind (pre, Ok tt) (fun _ =>
          io_bind (strip_envelope self' settings_view response (JObj kvs))
            (fun stripped =>
               io_bind (render_view self' spec settings_view false
                          (fst stripped) (snd stripped))
                 (fun _ => io_ret None)))).
    { exists (match Dict.get kvs "warnings" with
              | Some (JArr (w :: ws)) => [Warning (JArr (w :: ws))]
              | _ => []
              end
              ++ [Debug (default JNull (Dict.get kvs "meta"))]).
      intros self'. unfold _format_response.
      destruct (String.eqb_spec (body_text response) "") as [E|_]; [contradiction|].
      cbn [negb]. rewrite Hjson. unfold py_get. unfold py_get_default.
      set (errors := match Dict.get kvs "errors" with
                     | Some v => Ok v | None => Ok JNull end).
      assert (He : errors = Ok (default JNull (Dict.get kvs "errors")))
        by (subst errors; now destruct (Dict.get kvs "errors")).
      rewrite He. clear He errors.
      set (meta := match Dict.get kvs "meta" with
                   | Some v => Ok v | None => Ok JNull end).
      assert (Hm : meta = Ok (default JNull (Dict.get kvs "meta")))
        by (subst meta; now destruct (Dict.get kvs "meta")).
      rewrite Hm. clear Hm meta.
      cbn [io_bind io_lift]. rewrite Herrors.
      destruct Hwarn as [Hw | [[|w ws] Hw]]; rewrite Hw;
        cbn [truthy io_bind io_ret io_lift io_emit py_iter app negb];
        destruct (strip_envelope self' settings_view response (JObj kvs))
          as [out1 [[r1 j1]|e1]]; cbn [fst snd io_bind];
        try destruct (render_view self' spec settings_view false r1 j1)
          as [out2 [[]|e2]]; cbn; rewrite <- ?app_assoc; reflexivity. }
    destruct Hrun as [pre Hrun]. subst run. split.
    - intros Happ. unfold strip_envelope_applies in Happ.
      apply andb_prop in Happ as [Happ Hdata].
      unfold Dict.mem in Hdata.
      destruct (Dict.get kvs "data") as [data|] eqn:Hd; [|discriminate].
      exists data. split; [reflexivity|].
      rewrite Hrun. unfold strip_envelope. rewrite Happ.
      cbn [py_in io_bind io_lift]. unfold Dict.mem, py_getitem. rewrite Hd.
      apply andb_prop in Happ as [_ Hview].
      unfold render_view, in_tuple in *. cbn [existsb] in *.
      destruct (String.eqb settings_view "raw") eqn:Hraw;
        destruct (String.eqb settings_view "json") eqn:Hjs;
        destruct (String.eqb settings_view "xml") eqn:Hxml;
        cbn in Hview |- *; try discriminate;
        try (apply String.eqb_eq in Hraw; apply String.eqb_eq in Hxml; congruence);
        try (apply String.eqb_eq in Hjs; apply String.eqb_eq in Hxml; congruence);
        (split; [reflexivity|]).
      all: unfold last_echo; now rewrite ?app_nil_r, last_snoc.
    - intros Hno. split; [|split].
      + apply format_response_without_strip. now rewrite Hjson.
      + intros Hview. rewrite Hrun.
        rewrite (strip_envelope_not_applied _ _ _ _ Hno).
        unfold render_view. rewrite Hview. cbn.
        split; [reflexivity|]. unfold last_echo. now rewrite last_snoc.
      + intros ->. rewrite Hrun.
        rewrite (strip_envelope_not_applied _ _ _ _ Hno).
        cbn. split; [reflexivity|]. unfold last_echo. now rewrite last_snoc.
  Qed.

End StripEnvelope.

Lemma strip_envelope_exactly_when_witness :
  exists data,
    Dict.get Sample.envelope "data" = Some data
    /\ snd (@_format_response Reference.runtime (Sample.action "get" true)
              Sample.no_spec "json" (Sample.response Sample.envelope) false [])
       = Ok None
    /\ last_echo
         (fst (@_format_response Reference.runtime (Sample.action "get" true)
                 Sample.no_spec "json" (Sample.response Sample.envelope) false []))
       = Some (JsonDumps data).
Proof.
  refine (proj1 (@strip_envelope_exactly_when Reference.runtime
                   (Sample.action "get" true) Sample.no_spec "json"
                   (Sample.response Sample.envelope) [] Sample.envelope
                   _ _ _) _).
  - discriminate.
  - reflexivity.
  - split; [reflexivity | left; reflexivity].
  - reflexivity.
Defined.

(** * Text *)

Lemma characters_nonempty c s : characters (String c s) <> [].
Proof.
  cbn [characters]. destruct (characters s); [discriminate|].
  destruct (continued s); discriminate.
Qed.

(** [characters] cuts a text and loses nothing of it. *)
Lemma concat_characters s : String.concat "" (characters s) = s.
Proof.
  induction s as [|c rest IH]; [reflexivity|].
  cbn [characters].
  destruct (characters rest) as [|following others] eqn:Hrest.
  - destruct rest; [reflexivity|]. now apply characters_nonempty in Hrest.
  - destruct (continued rest).
    + rewrite <- IH. destruct others; reflexivity.
    + rewrite <- IH. reflexivity.
Qed.

(** On ASCII text a character is a byte. *)
Lemma characters_ascii s :
  Forall (fun c => continuation c = false) (list_ascii_of_string s) ->
  characters s = map (fun c => String c "") (list_ascii_of_string s).
Proof.
  induction s as [|c rest IH]; [reflexivity|].
  cbn [list_ascii_of_string]. intros Hall.
  apply Forall_cons in Hall as [_ Hall].
  cbn [characters map]. rewrite (IH Hall).
  destruct rest as [|d rest']; [reflexivity|].
  cbn [list_ascii_of_string map continued].
  apply Forall_cons in Hall as [-> _]. reflexivity.
Qed.

Lemma str_len_ascii s :
  Forall (fun c => continuation c = false) (list_ascii_of_string s) ->
  str_len s = String.length s.
Proof.
  intros Hall. unfold str_len. rewrite (characters_ascii s Hall).
  rewrite length_map. clear Hall.
  induction s as [|c rest IH]; [reflexivity|]. cbn. now rewrite IH.
Qed.

(** The white space of one byte: the space, tab to carriage return and the
    four separators. *)
Lemma is_space_byte c :
  is_space (String c "")
  = let n := nat_of_ascii c in
    (n =? 32)%nat || ((9 <=? n)%nat && (n <=? 13)%nat)
    || ((28 <=? n)%nat && (n <=? 31)%nat).
Proof. destruct c as [[] [] [] [] [] [] [] []]; vm_compute; reflexivity. Qed.

(** * Patterns of route parameters *)

Section CheckArgumentsFacts.
Context `{Runtime}.

Lemma covers_dec pattern value :
    (exists r, re_match pattern value = Ok r) ->
    (exists r, re_search_multiline pattern value = Ok r) ->
    {covers pattern value} + {~ covers pattern value}.
  Proof.
    intros Hm Hs. unfold covers.
    destruct (re_match pattern value) as [[g|]|e] eqn:Em.
    - destruct (Nat.eq_dec (str_len g) (str_len value)) as [E|E].
      + left. left. eauto.
      + right. intros [(g' & Hg & Hl) | (Hg & _)]; congruence.
    - destruct (re_search_multiline pattern value) as [[g|]|e] eqn:Es.
      + destruct (Nat.eq_dec (str_len g) (str_len value)) as [E|E].
        * left. right. eauto.
        * right. intros [(g' & Hg & Hl) | (_ & g' & Hg & Hl)]; congruence.
      + right. intros [(g' & Hg & Hl) | (_ & g' & Hg & Hl)]; congruence.
      + right. intros [(g' & Hg & Hl) | (_ & g' & Hg & Hl)]; congruence.
    - right. intros [(g' & Hg & Hl) | (Hg & _)]; congruence.
  Qed.

  (** One turn of the loop: it passes a parameter that does not reject, and
      raises for one that does, naming it. *)
Lemma check_param_spec kwargs param :
    well_formed_param param ->
    (check_param kwargs param = Ok tt /\ ~ rejects kwargs param)
    \/ (exists name, param_name param = Some name
                     /\ check_param kwargs param
                        = Raise (ClickException (Msg ("Invalid value for " +:+ name)))
                     /\ rejects kwargs param).
  Proof.
    intros (p & -> & Hpat & Hname).
    unfold check_param, py_get, py_get_default, rejects, param_pattern, param_name.
    destruct Hpat as [Hp | (pat & Hp & Hvalid)]; rewrite Hp.
    { left. split.
      - destruct Hname as [Hn | (n & Hn)]; rewrite Hn; reflexivity.
      - intros (? & ? & ? & ? & _); discriminate. }
    destruct Hname as [Hn | (n & Hn)]; rewrite Hn.
    { left. split.
      - cbn. now rewrite andb_false_r.
      - intros (? & ? & ? & _ & _ & ? & _); discriminate. }
    cbn [rbind truthy].
    destruct (String.eqb_spec pat "") as [Ep|Ep]; cbn [negb andb].
    { left. split; [reflexivity|].
      intros (? & ? & ? & [= <-] & Hne & _). contradiction. }
    destruct (String.eqb_spec n "") as [En|En]; cbn [negb andb].
    { left. split; [reflexivity|].
      intros (? & ? & ? & _ & _ & [= <-] & Hne & _). contradiction. }
    cbn [kwargs_mem kwargs_get rbind]. unfold Dict.mem.
    destruct (Dict.get kwargs n) as [v|] eqn:Hv.
    2:{ left. split; [reflexivity|].
        intros (? & ? & ? & _ & _ & [= <-] & _ & Hget & _). congruence. }
    cbn [rbind]. unfold find_matches.
    destruct (Hvalid (strip (py_str v))) as [[rm Hrm] [rs Hrs]].
    unfold covers.
    rewrite Hrm. cbn [rbind].
    destruct rm as [g|]; cbn [rbind py_str].
    - destruct (Nat.eqb_spec (str_len g) (str_len (strip (py_str v))))
        as [El|El]; cbn [negb].
      + left. split; [reflexivity|].
        intros (? & ? & ? & [= <-] & _ & [= <-] & _ & Hget & Hnc).
        rewrite Hv in Hget. injection Hget as <-.
        apply Hnc. left. eauto.
      + right. exists n. split; [reflexivity|]. split; [reflexivity|].
        exists pat, n, v. repeat split; auto.
        intros [(g' & Hg & Hl) | (Hg & _)]; congruence.
    - rewrite Hrs. destruct rs as [g|]; cbn [rbind py_str].
      + destruct (Nat.eqb_spec (str_len g) (str_len (strip (py_str v))))
          as [El|El]; cbn [negb].
        * left. split; [reflexivity|].
          intros (? & ? & ? & [= <-] & _ & [= <-] & _ & Hget & Hnc).
          rewrite Hv in Hget. injection Hget as <-.
          apply Hnc. right. eauto.
        * right. exists n. split; [reflexivity|]. split; [reflexivity|].
          exists pat, n, v. repeat split; auto.
          intros [(g' & Hg & Hl) | (_ & g' & Hg & Hl)]; congruence.
      + right. exists n. split; [reflexivity|]. split; [reflexivity|].
        exists pat, n, v. repeat split; auto.
        intros [(g' & Hg & Hl) | (_ & g' & Hg & Hl)]; congruence.
  Qed.

Lemma check_params_spec kwargs params :
    Forall well_formed_param params ->
    (check_params kwargs params = Ok tt
     /\ forall param, In param params -> ~ rejects kwargs param)
    \/ (exists param name,
          In param params /\ param_name param = Some name
          /\ rejects kwargs param
          /\ check_params kwargs params
             = Raise (ClickException (Msg ("Invalid value for " +:+ name)))).
  Proof.
    induction 1 as [|param params Hwf _ IH].
    - left. split; [reflexivity | intros ? []].
    - cbn [check_params].
      destruct (check_param_spec kwargs param Hwf)
        as [[Hok Hnot] | (name & Hname & Hraise & Hrej)].
      + rewrite Hok. cbn [rbind].
        destruct IH as [[Hrest Hnone] | (p' & name & Hin & Hname & Hrej & Hraise)].
        * left. split; [assumption|]. intros q [<-|Hq]; auto.
        * right. exists p', name. repeat split; auto. now right.
      + right. exists param, name. rewrite Hraise.
        repeat split; auto. now left.
  Qed.

  (** C9. For a route whose parameters are well formed, [_check_arguments]
      raises ["Invalid value for <param>"] exactly when some parameter of the
      route declares a pattern, was supplied, and the match found by
      [re.match] (or, when there is none, by [re.search] with
      [re.MULTILINE]) does not span the whole stripped value; the message
      names such a parameter, and when no parameter is in that case the
      check passes. *)
Theorem check_arguments_rejects_exactly
    (raw_spec : json) (self : Action) (kwargs : list (string * json))
    (paths : json) (route_data : list (string * json)) (params : list json) :
    py_getitem raw_spec "paths" = Ok paths ->
    py_getitem paths (route self) = Ok (JObj route_data) ->
    Dict.get route_data "parameters" = Some (JArr params) ->
    Forall well_formed_param params ->
    ((exists param, In param params /\ rejects kwargs param)
     <-> exists name,
           _check_arguments raw_spec self kwargs
           = Raise (ClickException (Msg ("Invalid value for " +:+ name))))
    /\ (forall name,
          _check_arguments raw_spec self kwargs
          = Raise (ClickException (Msg ("Invalid value for " +:+ name))) ->
          exists param, In param params /\ param_name param = Some name
                        /\ rejects kwargs param)
    /\ ((forall param, In param params -> ~ rejects kwargs param)
        <-> _check_arguments raw_spec self kwargs = Ok tt).
  Proof.
    intros Hpaths Hroute Hparams Hwf.
    assert (Hrun : _check_arguments raw_spec self kwargs
                   = check_params kwargs params).
    { unfold _check_arguments. rewrite Hpaths. cbn [rbind]. rewrite Hroute.
      cbn [rbind py_in py_getitem]. unfold Dict.mem. rewrite Hparams.
      reflexivity. }
    rewrite Hrun.
    destruct (check_params_spec kwargs params Hwf)
      as [[Hok Hnone] | (param & name & Hin & Hname & Hrej & Hraise)].
    - rewrite Hok. split; [|split].
      + split.
        * intros (param & Hin & Hrej). destruct (Hnone param Hin Hrej).
        * intros (name & Heq). discriminate.
      + intros name Heq. discriminate.
      + split; [reflexivity | intros _; assumption].
    - rewrite Hraise. split; [|split].
      + split; eauto.
      + intros name' Heq. injection Heq as Heq. subst name'. eauto.
      + split; [|discriminate].
        intros Hnone. destruct (Hnone param Hin Hrej).
  Qed.

  (** A route without ["parameters"] is never rejected. *)
Lemma check_arguments_no_parameters raw_spec self kwargs paths route_data :
    py_getitem raw_spec "paths" = Ok paths ->
    py_getitem paths (route self) = Ok (JObj route_data) ->
    Dict.get route_data "parameters" = None ->
    _check_arguments raw_spec self kwargs = Ok tt.
  Proof.
    intros Hpaths Hroute Hparams. unfold _check_arguments.
    rewrite Hpaths. cbn [rbind]. rewrite Hroute.
    cbn [rbind py_in]. unfold Dict.mem. now rewrite Hparams.
  Qed.

End CheckArgumentsFacts.

(** A no-break space (U+00A0) at the end of a value is stripped, and the
    value passes a pattern that covers what is left. *)
Example strip_no_break_space : strip ("abc" +:+ utf8 160) = "abc".
Proof. reflexivity. Qed.

Example check_arguments_strips_no_break_space :
  @_check_arguments Reference.runtime Sample.pattern_spec
    (Sample.action "get" false) [("roleId", JStr ("abc" +:+ utf8 160))]
  = Ok tt.
Proof. reflexivity. Qed.

Lemma check_arguments_rejects_exactly_witness :
  exists name,
    @_check_arguments Reference.runtime Sample.pattern_spec
      (Sample.action "get" false) [("roleId", JStr "abcd")]
    = Raise (ClickException (Msg ("Invalid value for " +:+ name))).
Proof.
  refine (proj1 (proj1 (@check_arguments_rejects_exactly Reference.runtime
                          Sample.pattern_spec (Sample.action "get" false)
                          [("roleId", JStr "abcd")]
                          (JObj [("/roles/",
                                  JObj [("parameters", JArr Sample.pattern_params)])])
                          [("parameters", JArr Sample.pattern_params)]
                          Sample.pattern_params _ _ _ _)) _).
  - reflexivity.
  - reflexivity.
  - reflexivity.
  - constructor; [|constructor].
    eexists; split; [reflexivity|]. split.
    + right. exists "abc". split; [reflexivity|].
      intros value; split; eexists; reflexivity.
    + right. eexists; reflexivity.
  - eexists; split; [left; reflexivity|].
    exists "abc", "roleId", (JStr "abcd").
    repeat split; try reflexivity; try discriminate.
    intros [(g & Hg & Hl) | (Hg & _)]; vm_compute in Hg.
    + injection Hg as <-. discriminate.
    + discriminate.
Defined.

(** * The key of the request body *)

Section BodyKey.
Context `{Runtime}.

  (** C8. [pre] stores the filtered body under the single parameter name
      when exactly one is defined; when several are (one per [oneOf]
      branch) and the body schema declares a discriminator, under the
      value that the raw JSON object gives to the discriminator property. *)
Theorem pre_chooses_body_key
    (raw_spec param_data param_name raw_json_object filtered_json_object : json)
    (param_names : list json) (declared schema : json) :
    body_param_names param_data = Ok param_names ->
    py_getitem param_data "schema" = Ok declared ->
    resolves_to raw_spec declared schema ->
    (forall only,
        param_names = [only] -> hashable only = true ->
        pre_body_item raw_spec param_data param_name raw_json_object
          filtered_json_object
        = Ok (only, filtered_json_object))
    /\ (forall disc_key disc_value,
           1 < length param_names ->
           py_in "discriminator" schema = Ok true ->
           V3.discriminator_property schema = Ok disc_key ->
           py_get_key raw_json_object disc_key = Ok disc_value ->
           hashable disc_value = true ->
           pre_body_item raw_spec param_data param_name raw_json_object
             filtered_json_object
           = Ok (disc_value, filtered_json_object)).
  Proof.
    intros Hnames Hdeclared Hresolved.
    assert (Hprefix : forall k : json -> result (json * json),
      rbind (py_in "$ref" declared)
        (fun has_ref : bool =>
           rbind (if has_ref
                  then rbind (py_getitem declared "$ref")
                         (fun ref => lookup raw_spec ref)
                  else Ok declared) k)
      = k schema).
    { intros k. destruct Hresolved as [[Hno ->] | (ref & Hyes & Href & Hlook)].
      - now rewrite Hno.
      - now rewrite Hyes, rbind_ok, Href, rbind_ok, Hlook. }
    split.
    - intros only -> Hhash. unfold pre_body_item.
      rewrite Hnames, rbind_ok, Hdeclared, rbind_ok, Hprefix, rbind_ok.
      destruct only; try reflexivity; discriminate.
    - intros disc_key disc_value Hlen Hdisc Hkey Hvalue Hhash.
      unfold pre_body_item.
      rewrite Hnames, rbind_ok, Hdeclared, rbind_ok, Hprefix.
      destruct param_names as [|n1 [|n2 rest]]; cbn in Hlen; try lia.
      rewrite Hdisc, rbind_ok, Hkey, rbind_ok, Hvalue, rbind_ok.
      destruct disc_value; try reflexivity; discriminate.
  Qed.

End BodyKey.

Lemma pre_chooses_body_key_witness :
  exists param_data,
    @V3.get_body_type_params Reference.runtime Sample.one_of_spec "/pets/" "post"
    = Ok param_data
    /\ @pre_body_item Reference.runtime Sample.one_of_spec param_data
         JNull Sample.dog Sample.dog
       = Ok (JStr "Dog", Sample.dog).
Proof.
  eexists. split; [reflexivity|].
  refine (proj2 (@pre_chooses_body_key Reference.runtime Sample.one_of_spec
                   _ JNull Sample.dog Sample.dog
                   [JStr "Cat"; JStr "Dog"] Sample.one_of_schema
                   Sample.one_of_schema _ _ _)
            (JStr "type") (JStr "Dog") _ _ _ _ _).
  - reflexivity.
  - reflexivity.
  - left. split; reflexivity.
  - cbn. lia.
  - reflexivity.
  - reflexivity.
  - reflexivity.
  - reflexivity.
Defined.

(** * Iterable responses *)

(** The v3 implementation reads the operation [get] whatever the method:
    on a route without it, it raises for every method. *)
Lemma get_iterable_object_v3_needs_get `{Runtime} raw_spec paths ops rt meth :
  py_getitem raw_spec "paths" = Ok paths ->
  py_getitem paths rt = Ok (JObj ops) ->
  Dict.get ops "get" = None ->
  V3.get_iterable_object raw_spec rt meth = Raise (KeyError "get").
Proof.
  intros Hpaths Hroute Hget. unfold V3.get_iterable_object.
  rewrite Hpaths, rbind_ok, Hroute, rbind_ok. cbn [py_getitem].
  now rewrite Hget.
Qed.

Section JobsRoute.
#[local] Existing Instance Reference.runtime.

(** C3, at a route whose POST answers with an array.  The success
    response of POST [/jobs/] is 201 and the ["data"] of its schema is an
    array, which the v2 implementation reports; the v3 implementation reads
    the responses of the operation [get], finds no 201 there and answers
    [False]. *)
Theorem get_iterable_object_v3_reads_get :
    response_data_is_array Sample.jobs_v3
      (V3.get_response_ref Sample.jobs_v3) "/jobs/" "post" = Ok true
    /\ V3.get_iterable_object Sample.jobs_v3 "/jobs/" "post" = Ok false
    /\ response_data_is_array Sample.jobs_v2
         (V2.get_response_ref Sample.jobs_v2) "/jobs/" "post" = Ok true
    /\ V2.get_iterable_object Sample.jobs_v2 "/jobs/" "post" = Ok true.
  Proof. repeat split; reflexivity. Qed.

End JobsRoute.

(** * Dictionaries *)

Lemma dict_get_app_fresh acc k k' v :
  Dict.get acc k' = None -> k <> k' -> Dict.get (acc ++ [(k, v)]) k' = None.
Proof.
  induction acc as [|[k0 v0] acc IH]; cbn [Dict.get app]; intros Hget Hne.
  - destruct (String.eqb_spec k k'); [contradiction | reflexivity].
  - destruct (String.eqb k0 k'); [discriminate | auto].
Qed.

Lemma dict_set_fresh acc k v :
  Dict.get acc k = None -> Dict.set acc k v = acc ++ [(k, v)].
Proof.
  induction acc as [|[k0 v0] acc IH]; cbn [Dict.get Dict.set app]; intros Hget.
  - reflexivity.
  - destruct (String.eqb k0 k); [discriminate | now rewrite IH].
Qed.

Lemma dict_mem_false_ne kvs k :
  Dict.mem kvs k = false -> forall kv, In kv kvs -> fst kv <> k.
Proof.
  unfold Dict.mem. induction kvs as [|[k0 v0] kvs IH]; cbn [Dict.get].
  - intros _ ? [].
  - destruct (String.eqb_spec k0 k) as [->|Hne]; [discriminate|].
    intros Hrest kv [<-|Hin]; [exact Hne | now apply IH].
Qed.

(** * Generated examples *)

Section GenerateParams.
Context `{Runtime}.

Lemma generate_properties_spec depth spec_data props :
  forall acc values,
    Forall (fun kv => isinstance_dict (snd kv) = true) props ->
    Dict.nodup_keys props = true ->
    (forall kv, In kv props -> Dict.get acc (fst kv) = None) ->
    Forall2 (fun kv v => placeholder depth spec_data (snd kv) v)
      (writable props) values ->
    Examples.generate_properties (Examples._generate_params depth spec_data)
      spec_data props acc
    = Ok (acc ++ combine (map fst (writable props)) values).
Proof.
  induction props as [|[k pv] props IH]; intros acc values Hdict Hnodup Hfresh Hval.
  - cbn in Hval |- *. now rewrite app_nil_r.
  - apply Forall_cons in Hdict as [Hpv Hdict].
    cbn [Dict.nodup_keys] in Hnodup. apply andb_prop in Hnodup as [Hk Hnodup].
    apply negb_true_iff in Hk.
    destruct pv as [| | | | |p]; try discriminate.
    cbn [Examples.generate_properties].
    unfold py_get, py_get_default.
    unfold writable in Hval |- *. cbn [List.filter snd is_read_only] in Hval |- *.
    replace (match Dict.get p "readOnly" with
             | Some v => Ok v | None => Ok JNull end)
      with (Ok (A:=json) (default JNull (Dict.get p "readOnly")))
      by now destruct (Dict.get p "readOnly").
    rewrite rbind_ok.
    destruct (truthy (default JNull (Dict.get p "readOnly"))); cbn [negb] in Hval |- *.
    + apply IH; auto. intros kv Hin. apply Hfresh. now right.
    + apply Forall2_cons_inv_l in Hval as (v & values' & Hv & Hrest & ->).
      assert (Hvalue : forall k : json -> result (list (string * json)),
        rbind (py_in "$ref" (JObj p))
          (fun has_ref : bool =>
             rbind
               (if has_ref then
                  rbind (py_getitem (JObj p) "$ref") (fun ref =>
                  rbind (Examples._item_by_ref spec_data ref) (fun sub_item =>
                  Examples._generate_params depth spec_data sub_item))
                else
                  rbind (py_in "enum" (JObj p)) (fun has_enum : bool =>
                  if has_enum then
                    rbind (py_getitem (JObj p) "enum") (fun enum => py_first enum)
                  else
                    rbind (py_getitem (JObj p) "type")
                      (fun ty => Examples.DEFAULTS ty)))
               k)
        = k v).
      { intros cont. cbn [snd] in Hv. inversion Hv as [p' ref sub v' Href Hitem Hgen
                                          | p' first rest Href Henum
                                          | p' t v' Href Henum Hty Hdef]; subst.
        - cbn [py_in py_getitem]. unfold Dict.mem. rewrite Href, !rbind_ok.
          now rewrite Hitem, rbind_ok, Hgen, rbind_ok.
        - cbn [py_in py_getitem]. unfold Dict.mem. rewrite Href, Henum, !rbind_ok.
          reflexivity.
        - cbn [py_in py_getitem]. unfold Dict.mem. rewrite Href, Henum, Hty, !rbind_ok.
          replace (Examples.DEFAULTS (JStr t)) with (Ok v); [reflexivity|].
          unfold type_default in Hdef. unfold Examples.DEFAULTS.
          destruct (String.eqb t "string"); [congruence|].
          destruct (String.eqb t "boolean"); [congruence|].
          destruct (String.eqb t "integer"); [congruence|].
          destruct (String.eqb t "number"); [congruence|].
          destruct (String.eqb t "array"); [congruence|discriminate]. }
      rewrite Hvalue.
      rewrite dict_set_fresh by (apply (Hfresh (k, JObj p)); now left).
      rewrite IH with (values := values'); auto.
      * cbn [map fst combine]. now rewrite <- app_assoc.
      * intros kv Hin. apply dict_get_app_fresh.
        -- apply Hfresh. now right.
        -- intros ->. exact (dict_mem_false_ne _ _ Hk kv Hin eq_refl).
Qed.

(** C6. [_generate_params] gives every property of the walked schema
    (its own properties, or those of its ['allOf'] merge) that is not
    read-only its placeholder: the generated example of the referenced
    schema for a ['$ref'], else the first enum value, else the default of
    the declared type, [""] for string, [true] for boolean, [1] for integer
    and number, [[]] for array; read-only properties are left out. *)
Theorem generate_params_placeholders
  (depth : nat) (spec_data : json) (schema props : list (string * json))
  (values : list json) :
  Dict.get schema "$ref" = None ->
  walked_properties spec_data schema props ->
  Dict.nodup_keys props = true ->
  Forall (fun kv => isinstance_dict (snd kv) = true) props ->
  Forall2 (fun kv v => placeholder depth spec_data (snd kv) v)
    (writable props) values ->
  Examples._generate_params (S depth) spec_data (JObj schema)
  = Ok (JObj (combine (map fst (writable props)) values)).
Proof.
  intros Href Hwalked Hnodup Hdict Hval.
  cbn [Examples._generate_params py_in]. unfold Dict.mem at 1.
  rewrite Href, !rbind_ok.
  assert (Hprops :
    rbind (Ok (A:=bool) (Dict.mem schema "allOf"))
      (fun has_all_of : bool =>
         rbind (if has_all_of
                then rbind (utils_merge_all (JObj schema) spec_data)
                       (fun merged => py_get_default merged "properties" (JObj []))
                else py_get_default (JObj schema) "properties" (JObj []))
           (fun properties =>
              if truthy properties
              then rbind (py_items properties) (fun items =>
                   rbind (Examples.generate_properties
                            (Examples._generate_params depth spec_data)
                            spec_data items [])
                     (fun params => Ok (JObj params)))
              else Ok (JObj [])))
    = Ok (JObj (combine (map fst (writable props)) values))).
  { assert (Hloop :
      (if truthy (JObj props)
       then rbind (py_items (JObj props)) (fun items =>
            rbind (Examples.generate_properties
                     (Examples._generate_params depth spec_data)
                     spec_data items [])
              (fun params => Ok (JObj params)))
       else Ok (JObj []))
      = Ok (JObj (combine (map fst (writable props)) values))).
    { destruct props as [|kv props].
      - cbn in Hval |- *. apply Forall2_nil_inv_l in Hval. now subst.
      - cbn [truthy py_items]. rewrite rbind_ok.
        rewrite (generate_properties_spec depth spec_data (kv :: props) [] values);
          auto. }
    destruct Hwalked as [[Hall Hp] | (Hall & merged & Hmerge & Hp)].
    - unfold Dict.mem. rewrite Hall, rbind_ok.
      cbn [py_get_default]. rewrite Hp, rbind_ok. exact Hloop.
    - rewrite Hall, rbind_ok, Hmerge, rbind_ok.
      cbn [py_get_default]. rewrite Hp, rbind_ok. exact Hloop. }
  exact Hprops.
Qed.

End GenerateParams.

Lemma generate_params_placeholders_witness :
  @Examples._generate_params Reference.runtime 1 (JObj []) (JObj Sample.size_tag)
  = Ok (JObj [("size", JNum 1); ("tag", JStr "x")]).
Proof.
  refine (@generate_params_placeholders Reference.runtime 0 (JObj [])
            Sample.size_tag Sample.size_tag_properties [JNum 1; JStr "x"]
            _ _ _ _ _).
  - reflexivity.
  - left. split; reflexivity.
  - reflexivity.
  - repeat constructor.
  - constructor; [|constructor; [|constructor]].
    + eapply placeholder_type; reflexivity.
    + eapply placeholder_enum; reflexivity.
Defined.

(** * Filtering an object under a schema without discriminator *)

Lemma dict_get_set d k v k' :
  Dict.get (Dict.set d k v) k'
  = if String.eqb k k' then Some v else Dict.get d k'.
Proof.
  induction d as [|[k0 v0] d IH]; cbn [Dict.get Dict.set].
  - reflexivity.
  - destruct (String.eqb_spec k0 k) as [->|Hne]; cbn [Dict.get].
    + now destruct (String.eqb k k').
    + rewrite IH. destruct (String.eqb_spec k0 k') as [->|Hne'].
      * destruct (String.eqb_spec k k'); [congruence | reflexivity].
      * reflexivity.
Qed.

Lemma dict_get_in kvs k v : Dict.get kvs k = Some v -> In (k, v) kvs.
Proof.
  induction kvs as [|[k0 v0] kvs IH]; cbn [Dict.get]; [discriminate|].
  destruct (String.eqb_spec k0 k) as [->|Hne].
  - intros [= ->]. now left.
  - intros Hget. right. auto.
Qed.

Lemma dict_nodup_get_rest k pv rest k' :
  Dict.nodup_keys ((k, pv) :: rest) = true ->
  Dict.get rest k' = Dict.get ((k, pv) :: rest) k'
  \/ (k = k' /\ Dict.get rest k' = None).
Proof.
  cbn [Dict.nodup_keys Dict.get]. intros Hn.
  apply andb_prop in Hn as [Hk _]. apply negb_true_iff in Hk.
  destruct (String.eqb_spec k k') as [->|Hne].
  - right. split; [reflexivity|]. unfold Dict.mem in Hk.
    now destruct (Dict.get rest k').
  - now left.
Qed.

Lemma nesting_child kvs k x : In (k, x) kvs -> nesting x < nesting (JObj kvs).
Proof.
  cbn [nesting]. induction kvs as [|[k0 v0] kvs IH]; [intros []|].
  intros [[= -> ->]|Hin].
  - lia.
  - specialize (IH Hin). lia.
Qed.

Section RetainedFacts.
Variable props_of : json -> list (string * json).

Lemma retained_cons props k v rest :
  retained props_of props (JObj ((k, v) :: rest))
  = match Dict.get props k with
    | Some p_value =>
        if is_read_only p_value then retained props_of props (JObj rest)
        else match retained props_of props (JObj rest) with
             | JObj r => JObj ((k, kept_value props_of p_value v) :: r)
             | other => other
             end
    | None => retained props_of props (JObj rest)
    end.
Proof.
  cbn [retained]. destruct (Dict.get props k) as [p_value|]; [|reflexivity].
  destruct (is_read_only p_value); reflexivity.
Qed.

Lemma retained_is_obj props kvs :
  exists r, retained props_of props (JObj kvs) = JObj r.
Proof. cbn [retained]. eauto. Qed.

Lemma retained_get props kvs k :
  obj_get (retained props_of props (JObj kvs)) k = kept_entry props_of props kvs k.
Proof.
  induction kvs as [|[k0 v0] kvs IH].
  - reflexivity.
  - rewrite retained_cons. unfold kept_entry in *. cbn [Dict.get].
    destruct (retained_is_obj props kvs) as [r Hr]. rewrite Hr in *.
    cbn [obj_get] in IH.
    destruct (String.eqb_spec k0 k) as [->|Hne].
    + destruct (Dict.get props k) as [p_value|] eqn:Hp.
      * destruct (is_read_only p_value) eqn:Hro.
        -- cbn [obj_get]. rewrite IH. now destruct (Dict.get kvs k).
        -- cbn [obj_get Dict.get]. now rewrite String.eqb_refl.
      * cbn [obj_get]. rewrite IH. now destruct (Dict.get kvs k).
    + destruct (Dict.get props k0) as [p_value|] eqn:Hp.
      * destruct (is_read_only p_value) eqn:Hro.
        -- cbn [obj_get]. exact IH.
        -- cbn [obj_get Dict.get].
           destruct (String.eqb_spec k0 k); [contradiction | exact IH].
      * exact IH.
Qed.

(** Round trip: filtering keeps a conforming value as it is. *)
Lemma retained_conforms n : forall props value,
  nesting value <= n ->
  conforms props_of props value = true ->
  retained props_of props value = value.
Proof.
  induction n as [|n IH]; intros props value Hn Hc.
  - destruct value; try reflexivity. cbn [nesting] in Hn. lia.
  - destruct value as [| | | | |kvs]; try reflexivity.
    assert (Hchildren : forall k x, In (k, x) kvs -> nesting x <= n).
    { intros k x Hin. pose proof (nesting_child kvs k x Hin). lia. }
    clear Hn. induction kvs as [|[k v] kvs IHk].
    + reflexivity.
    + rewrite retained_cons.
      cbn [conforms] in Hc.
      destruct (Dict.get props k) as [p_value|]; [|discriminate].
      apply andb_prop in Hc as [Hc Hrest].
      apply andb_prop in Hc as [Hro Hsub].
      apply negb_true_iff in Hro. rewrite Hro.
      rewrite IHk; [| exact Hrest | intros k' x Hin; apply (Hchildren k' x); now right].
      f_equal. f_equal. f_equal. unfold kept_value.
      destruct (ref_of p_value) as [ref|]; [|reflexivity].
      destruct (isinstance_dict v); [|reflexivity].
      apply IH; [apply (Hchildren k v); now left | exact Hsub].
Qed.

End RetainedFacts.

Section Unfolding.
Context `{Runtime}.
Variable v : version.
Variable raw_spec : json.

Lemma resolve_discriminator_plain depth data s reference c :
  Dict.get s "discriminator" = None ->
  resolve_discriminator v raw_spec depth data (JObj s) reference c
  = (Ok (JObj s, reference), c).
Proof.
  intros Hdisc. destruct v; cbn [resolve_discriminator];
    unfold V2.resolve_discriminator, V3.resolve_discriminator;
    cbn [bind lift py_in]; unfold Dict.mem; now rewrite Hdisc.
Qed.

Lemma filter_json_object_unfold depth data route http_method filter_createonly
  s reference c :
  filter_json_object v raw_spec (S depth) data route http_method
    filter_createonly (JObj s) reference c
  = bind (resolve_discriminator v raw_spec depth data (JObj s) reference)
      (fun resolved =>
         filter_by_properties
           (fun value sub reference' =>
              filter_json_object v raw_spec depth value route http_method
                filter_createonly sub reference')
           (sub_schema v raw_spec) data filter_createonly
           (fst resolved) (snd resolved)) c.
Proof.
  destruct v; cbn [filter_json_object resolve_discriminator sub_schema
                   V2.filter_json_object V3.filter_json_object];
    unfold bind, ret.
  - destruct (V2.resolve_discriminator raw_spec depth data (JObj s) reference c)
      as [[[schema' reference']|e] c']; reflexivity.
  - destruct (V3.resolve_discriminator raw_spec depth data (JObj s) reference c)
      as [[[schema' reference']|e] c']; reflexivity.
Qed.

End Unfolding.

Section PlainFilter.
Context `{Runtime}.
Variable v : version.
Variable raw_spec : json.
Variable refs : json -> Prop.
Variable props_of : json -> list (string * json).
Hypothesis Hrefs : plain_references v raw_spec refs props_of.

Lemma filter_properties_retains d recur kvs reference create_only_props props :
  recur_retains v raw_spec refs props_of d recur ->
  nesting (JObj kvs) <= S d ->
  reference_ok reference ->
  forall properties filtered (spec_so_far : string -> option json) c,
    Dict.nodup_keys properties = true ->
    Forall (fun kv => isinstance_dict (snd kv) = true) properties ->
    (forall kv ref, In kv properties -> ref_of (snd kv) = Some ref -> refs ref) ->
    (forall kv, In kv properties -> Dict.get props (fst kv) = Some (snd kv)) ->
    (forall kv, In kv properties -> Dict.get filtered (fst kv) = None) ->
    (forall k, option_Forall2 json_eq (Dict.get filtered k) (spec_so_far k)) ->
    exists filtered',
      filter_properties recur (sub_schema v raw_spec) (JObj kvs) false
        reference create_only_props properties filtered c
      = (Ok filtered', c)
      /\ forall k,
           option_Forall2 json_eq (Dict.get filtered' k)
             (match Dict.get properties k with
              | Some _ => kept_entry props_of props kvs k
              | None => spec_so_far k
              end).
Proof.
  intros Hrecur Hnest Hreference.
  assert (Hkey_path : forall (k : unit -> M (list (string * json))) c,
    bind (if truthy reference
          then bind (lift (py_last_segment reference)) (fun _ => ret tt)
          else ret tt) k c = k tt c).
  { intros k c. destruct Hreference as [-> | [s ->]]; [reflexivity|].
    cbn [truthy]. now destruct (negb (String.eqb s "")). }
  induction properties as [|[p_key p_value] rest IH];
    intros filtered spec_so_far c Hnodup Hdict Hin_refs Hdeclared Hfresh Hsofar.
  - exists filtered. split; [reflexivity | exact Hsofar].
  - pose proof Hnodup as Hnodup'.
    cbn [Dict.nodup_keys] in Hnodup. apply andb_prop in Hnodup as [Hk Hnodup].
    apply negb_true_iff in Hk.
    apply Forall_cons in Hdict as [Hpv Hdict].
    destruct p_value as [| | | | |p]; try discriminate.
    assert (Hp_key : Dict.get props p_key = Some (JObj p))
      by (apply (Hdeclared (p_key, JObj p)); now left).
    assert (Hnone : spec_so_far p_key = None).
    { specialize (Hsofar p_key).
      pose proof (Hfresh (p_key, JObj p) (or_introl eq_refl)) as Hf.
      cbn [fst] in Hf. rewrite Hf in Hsofar. now inversion Hsofar. }
    assert (Hrest_get : forall k,
      match Dict.get ((p_key, JObj p) :: rest) k with
      | Some _ => kept_entry props_of props kvs k
      | None => spec_so_far k
      end
      = match Dict.get rest k with
        | Some _ => kept_entry props_of props kvs k
        | None => if String.eqb p_key k
                  then kept_entry props_of props kvs k else spec_so_far k
        end).
    { intros k. cbn [Dict.get].
      destruct (String.eqb_spec p_key k) as [<-|Hne]; [|reflexivity].
      unfold Dict.mem in Hk. now destruct (Dict.get rest p_key). }
    (* the loop goes on with [filtered] unchanged *)
    assert (Hskip : kept_entry props_of props kvs p_key = None ->
      exists filtered',
        filter_properties recur (sub_schema v raw_spec) (JObj kvs) false
          reference create_only_props rest filtered c = (Ok filtered', c)
        /\ forall k,
             option_Forall2 json_eq (Dict.get filtered' k)
               (match Dict.get ((p_key, JObj p) :: rest) k with
                | Some _ => kept_entry props_of props kvs k
                | None => spec_so_far k
                end)).
    { intros Hentry.
      destruct (IH filtered spec_so_far c) as (filtered' & Hrun & Hget); auto.
      - intros kv ref Hin. apply Hin_refs. now right.
      - intros kv Hin. apply Hdeclared. now right.
      - intros kv Hin. apply Hfresh. now right.
      - exists filtered'. split; [exact Hrun|].
        intros k. rewrite Hrest_get. specialize (Hget k).
        destruct (Dict.get rest k); [exact Hget|].
        destruct (String.eqb_spec p_key k) as [<-|Hne]; [|exact Hget].
        now rewrite Hentry, <- Hnone. }
    (* the loop goes on with [filtered[p_key] = value] *)
    assert (Hstore : forall value,
      option_Forall2 json_eq (Some value) (kept_entry props_of props kvs p_key) ->
      exists filtered',
        filter_properties recur (sub_schema v raw_spec) (JObj kvs) false
          reference create_only_props rest (Dict.set filtered p_key value) c
        = (Ok filtered', c)
        /\ forall k,
             option_Forall2 json_eq (Dict.get filtered' k)
               (match Dict.get ((p_key, JObj p) :: rest) k with
                | Some _ => kept_entry props_of props kvs k
                | None => spec_so_far k
                end)).
    { intros value Hvalue.
      destruct (IH (Dict.set filtered p_key value)
                  (fun k => if String.eqb p_key k
                            then kept_entry props_of props kvs k
                            else spec_so_far k) c)
        as (filtered' & Hrun & Hget); auto.
      - intros kv ref Hin. apply Hin_refs. now right.
      - intros kv Hin. apply Hdeclared. now right.
      - intros kv Hin. rewrite dict_get_set.
        destruct (String.eqb_spec p_key (fst kv)) as [E|_].
        + destruct (dict_mem_false_ne _ _ Hk kv Hin). now symmetry.
        + apply Hfresh. now right.
      - intros k. rewrite dict_get_set.
        destruct (String.eqb_spec p_key k) as [<-|_]; [exact Hvalue | apply Hsofar].
      - exists filtered'. split; [exact Hrun|].
        intros k. rewrite Hrest_get. exact (Hget k). }
    assert (Hentry : kept_entry props_of props kvs p_key
      = match Dict.get kvs p_key with
        | Some value =>
            if truthy (default JNull (Dict.get p "readOnly")) then None
            else Some (match Dict.get p "$ref" with
                       | Some ref =>
                           if isinstance_dict value
                           then retained props_of (props_of ref) value
                           else value
                       | None => value
                       end)
        | None => None
        end).
    { unfold kept_entry. now rewrite Hp_key. }
    cbn [filter_properties]. rewrite Hkey_path.
    cbn [bind lift py_in]. unfold Dict.mem at 1.
    destruct (Dict.get kvs p_key) as [value|] eqn:Hvalue; cbn [negb].
    2:{ apply Hskip. exact Hentry. }
    unfold py_get, py_get_default.
    replace (match Dict.get p "readOnly" with
             | Some v => Ok v | None => Ok JNull end)
      with (Ok (A:=json) (default JNull (Dict.get p "readOnly")))
      by now destruct (Dict.get p "readOnly").
    cbn [bind lift].
    destruct (truthy (default JNull (Dict.get p "readOnly"))).
    { apply Hskip. exact Hentry. }
    cbn [bind lift ret py_getitem]. rewrite Hvalue. unfold Dict.mem.
    cbn [bind lift].
    destruct (Dict.get p "$ref") as [ref|] eqn:Href.
    2:{ cbn [andb]. apply Hstore. rewrite Hentry. constructor. constructor. }
    destruct (isinstance_dict value) eqn:Hisdict; cbn [andb].
    2:{ apply Hstore. rewrite Hentry. constructor. constructor. }
    assert (Hin_ref : refs ref).
    { apply (Hin_refs (p_key, JObj p)); [now left | exact Href]. }
    destruct (Hrefs ref Hin_ref) as (_ & schema & Hschema & _).
    cbn [bind lift py_getitem]. rewrite Hschema.
    destruct (Hrecur value ref schema c Hin_ref Hisdict) as (sub & Hsub & Heq);
      [| exact Hschema |].
    { pose proof (nesting_child kvs p_key value (dict_get_in _ _ _ Hvalue)). lia. }
    cbn [bind lift]. rewrite (bind_run _ _ _ _ _ Hsub). apply Hstore. rewrite Hentry.
    constructor. exact Heq.
Qed.

Lemma retained_nil kvs : retained props_of [] (JObj kvs) = JObj [].
Proof.
  induction kvs as [|[k x] kvs IH]; [reflexivity|].
  rewrite retained_cons. exact IH.
Qed.

Lemma filter_by_properties_retains d recur kvs reference schema props c :
  recur_retains v raw_spec refs props_of d recur ->
  nesting (JObj kvs) <= S d ->
  reference_ok reference ->
  plain_schema refs schema props ->
  exists filtered,
    filter_by_properties recur (sub_schema v raw_spec) (JObj kvs) false
      schema reference c
    = (Ok filtered, c)
    /\ json_eq filtered (retained props_of props (JObj kvs)).
Proof.
  intros Hrecur Hnest Hreference
    (s & -> & Hdisc & Hprops & Hnodup & Hdict & Hin_refs).
  unfold filter_by_properties.
  assert (Hempty : props = [] ->
    json_eq (JObj []) (retained props_of props (JObj kvs))).
  { intros ->. rewrite retained_nil. constructor. }
  destruct (truthy (JObj s)) eqn:Htruthy.
  2:{ cbn [bind ret]. exists (JObj []). split; [reflexivity|]. apply Hempty.
      destruct s; [|discriminate]. now destruct Hprops as [Hp | [_ ->]]. }
  cbn [bind lift py_in]. unfold Dict.mem.
  destruct Hprops as [Hp | [Hp ->]]; rewrite Hp.
  2:{ cbn [ret]. exists (JObj []). split; [reflexivity | now apply Hempty]. }
  assert (Hco : exists create_only_props,
             py_get_default (JObj s) "x-createOnly" (JStr "") = Ok create_only_props).
  { cbn [py_get_default]. destruct (Dict.get s "x-createOnly"); eauto. }
  destruct Hco as [create_only_props Hco]. rewrite Hco.
  cbn [bind lift py_getitem]. rewrite Hp. cbn [bind lift py_items].
  destruct (filter_properties_retains d recur kvs reference create_only_props
              props Hrecur Hnest Hreference props [] (fun _ => None) c)
    as (filtered & Hrun & Hget); auto.
  - intros kv Hin. clear - Hnodup Hin.
    induction props as [|[k0 v0] props IH]; [destruct Hin|].
    cbn [Dict.nodup_keys] in Hnodup. apply andb_prop in Hnodup as [Hk Hn].
    apply negb_true_iff in Hk. cbn [Dict.get].
    destruct Hin as [<-|Hin]; cbn [fst snd].
    + now rewrite String.eqb_refl.
    + destruct (String.eqb_spec k0 (fst kv)) as [E|_]; [|auto].
      destruct (dict_mem_false_ne _ _ Hk kv Hin). now symmetry.
  - intros k. constructor.
  - rewrite (bind_run _ _ _ _ _ Hrun). cbn [ret].
    exists (JObj filtered). split; [reflexivity|].
    destruct (retained_is_obj props_of props kvs) as [r Hr]. rewrite Hr.
    apply json_eq_obj. intros k. specialize (Hget k).
    pose proof (retained_get props_of props kvs k) as Hk.
    rewrite Hr in Hk. cbn [obj_get] in Hk. rewrite Hk.
    destruct (Dict.get props k) eqn:Hpk; [exact Hget|].
    unfold kept_entry. rewrite Hpk.
    destruct (Dict.get kvs k); exact Hget.
Qed.

Lemma filter_json_object_retains route http_method depth :
  forall kvs schema props reference c,
    nesting (JObj kvs) <= depth ->
    reference_ok reference ->
    plain_schema refs schema props ->
    exists filtered,
      filter_json_object v raw_spec depth (JObj kvs) route http_method false
        schema reference c
      = (Ok filtered, c)
      /\ json_eq filtered (retained props_of props (JObj kvs)).
Proof.
  induction depth as [|depth IH]; intros kvs schema props reference c
    Hnest Hreference Hschema.
  - cbn [nesting] in Hnest. lia.
  - pose proof Hschema as (s & -> & Hdisc & _).
    rewrite filter_json_object_unfold.
    rewrite (bind_run _ _ _ _ _
               (resolve_discriminator_plain v raw_spec depth (JObj kvs) s
                  reference c Hdisc)).
    cbn [fst snd].
    apply (filter_by_properties_retains depth); auto.
    intros value ref schema' c' Hin Hisdict Hn Hsub.
    destruct value as [| | | | |ckvs]; try discriminate.
    destruct (Hrefs ref Hin) as ((r & ->) & schema'' & Hsub' & Hplain).
    rewrite Hsub in Hsub'. injection Hsub' as <-.
    apply IH; auto. right. eauto.
Qed.

End PlainFilter.



Section FilterRuns.
#[local] Existing Instance Reference.runtime.

(** The filter at work on a role that carries a read-only identifier, an
    undeclared key and a nested object. *)
Example filter_role_v2 :
  fst (filter_json_object OpenAPIv2 Sample.roles_v2 2
         (JObj [("id", JNum 5); ("extra", JNum 1); ("name", JStr "web");
                ("os", JObj [("version", JStr "9"); ("name", JStr "linux")])])
         "/roles/" "post" false Sample.role_schema JNull ∅)
  = Ok (JObj [("name", JStr "web"); ("os", JObj [("name", JStr "linux")])]).
Proof. reflexivity. Qed.

End FilterRuns.

(** * The discriminator cache *)

Lemma preserves_ret {A} (a : A) : preserves (ret a).
Proof. intros c r c' [= _ <-] k Hk. exact Hk. Qed.

Lemma preserves_raise {A} (e : exn) : preserves (raise (A:=A) e).
Proof. intros c r c' [= _ <-] k Hk. exact Hk. Qed.

Lemma preserves_lift {A} (r : result A) : preserves (lift r).
Proof. intros c r' c' [= _ <-] k Hk. exact Hk. Qed.

Lemma preserves_cache_get path : preserves (cache_get path).
Proof. intros c r c' [= _ <-] k Hk. exact Hk. Qed.

Lemma preserves_cache_set path value :
  truthy value = true -> preserves (cache_set path value).
Proof.
  intros Hvalue c r c' [= _ <-] k (old & Hold & Htrue).
  unfold holds_true. destruct (decide (path = k)) as [->|Hne].
  - exists value. now rewrite lookup_insert_eq.
  - exists old. now rewrite lookup_insert_ne.
Qed.

Lemma preserves_bind {A B} (m : M A) (k : A -> M B) :
  preserves m -> (forall a, preserves (k a)) -> preserves (bind m k).
Proof.
  intros Hm Hk c r c' Hrun key Hkey. unfold bind in Hrun.
  destruct (m c) as [[a|e] c1] eqn:Hmc.
  - eapply Hk; [exact Hrun|]. eapply Hm; eauto.
  - injection Hrun as _ <-. eapply Hm; eauto.
Qed.

Ltac preserves_step :=
  first [ apply preserves_ret | apply preserves_raise | apply preserves_lift
        | apply preserves_cache_get
        | apply preserves_bind; [|intros ?] ].

Section DiscriminatorCache.
Context `{Runtime}.
Variable raw_spec : json.

Lemma resolve_discriminator_preserves v depth data schema reference :
  preserves (resolve_discriminator v raw_spec depth data schema reference).
Proof.
  destruct v; cbn [resolve_discriminator];
    unfold V2.resolve_discriminator, V3.resolve_discriminator.
  - preserves_step; [preserves_step|].
    destruct a; [|preserves_step].
    do 3 (preserves_step; [try preserves_step|]).
    { destruct (truthy a0); preserves_step. }
    preserves_step.
    + destruct (truthy a1) eqn:Htrue; cbn [negb]; [|preserves_step].
      preserves_step; [preserves_step|].
      destruct (negb _); [preserves_step|].
      now apply preserves_cache_set.
    + preserves_step; preserves_step.
  - preserves_step; [preserves_step|].
    destruct a; [|preserves_step].
    do 3 (preserves_step; [try preserves_step|]).
    { destruct (truthy a0); preserves_step. }
    destruct (truthy a1) eqn:Htrue; cbn [negb]; [|preserves_step].
    do 2 (preserves_step; [preserves_step|]).
    destruct (negb _); [preserves_step|].
    preserves_step; [now apply preserves_cache_set | preserves_step].
Qed.

Lemma filter_properties_preserves recur sub data filter_createonly reference
  create_only_props properties :
  (forall value schema ref, preserves (recur value schema ref)) ->
  forall filtered,
    preserves (filter_properties recur sub data filter_createonly reference
                 create_only_props properties filtered).
Proof.
  intros Hrecur.
  induction properties as [|[p_key p_value] rest IH]; intros filtered;
    cbn [filter_properties].
  - preserves_step.
  - apply preserves_bind; [|intros _].
    { destruct (truthy reference); repeat preserves_step. }
    apply preserves_bind; [preserves_step | intros known].
    destruct (negb known); [apply IH|].
    apply preserves_bind; [preserves_step | intros read_only].
    destruct (truthy read_only); [apply IH|].
    apply preserves_bind; [|intros create_only].
    { destruct filter_createonly; preserves_step. }
    destruct create_only; [apply IH|].
    apply preserves_bind; [preserves_step | intros has_ref].
    apply preserves_bind; [preserves_step | intros value].
    destruct (has_ref && isinstance_dict value); [|apply IH].
    apply preserves_bind; [preserves_step | intros ref].
    apply preserves_bind; [preserves_step | intros schema].
    apply preserves_bind; [apply Hrecur | intros sub_object; apply IH].
Qed.

Lemma filter_by_properties_preserves recur sub data filter_createonly schema
  reference :
  (forall value schema ref, preserves (recur value schema ref)) ->
  preserves (filter_by_properties recur sub data filter_createonly schema
               reference).
Proof.
  intros Hrecur. unfold filter_by_properties.
  preserves_step.
  { destruct (truthy schema); preserves_step. }
  destruct a; [|preserves_step].
  do 3 (preserves_step; [preserves_step|]).
  preserves_step; [now apply filter_properties_preserves | preserves_step].
Qed.

(** An entry of the cache, once it holds a true value, holds one after
    every call of [filter_json_object]. *)
Lemma filter_json_object_preserves v depth :
  forall data route http_method filter_createonly schema reference,
    preserves (filter_json_object v raw_spec depth data route http_method
                 filter_createonly schema reference).
Proof.
  induction depth as [|depth IH];
    intros data rt meth filter_createonly schema reference.
  - destruct v; apply preserves_raise.
  - assert (Hbody : forall get_schema : string -> string -> result json,
      preserves
        (bind (match schema with
               | JNull => lift (get_schema rt meth)
               | _ => ret schema
               end)
           (fun schema0 =>
              bind (resolve_discriminator v raw_spec depth data schema0 reference)
                (fun resolved =>
                   let '(schema1, reference1) := resolved in
                   filter_by_properties
                     (fun value sub reference' =>
                        filter_json_object v raw_spec depth value rt
                          meth filter_createonly sub reference')
                     (sub_schema v raw_spec) data filter_createonly
                     schema1 reference1)))).
    { intros get_schema. apply preserves_bind; [|intros schema0].
      { destruct schema; preserves_step. }
      apply preserves_bind;
        [apply resolve_discriminator_preserves | intros [schema1 reference1]].
      apply filter_by_properties_preserves. intros. apply IH. }
    destruct v; [exact (Hbody (V2._get_schema raw_spec))
                | exact (Hbody (V3._get_schema raw_spec))].
Qed.

End DiscriminatorCache.

Section ResolveDiscriminator.
Context `{Runtime}.
Variable raw_spec : json.

(** The discriminator block of the v2 implementation, case by case. *)
Lemma resolve_discriminator_v2_run depth data schema reference c disc_key supplied :
  py_in "discriminator" schema = Ok true ->
  py_getitem schema "discriminator" = Ok disc_key ->
  py_get_key data disc_key = Ok supplied ->
  V2.resolve_discriminator raw_spec depth data schema reference c
  = let path := disc_path reference disc_key in
    let value := chosen_value supplied c path in
    if truthy value then
      match list_concrete_types raw_spec depth schema with
      | Ok types =>
          if among value types then
            match lookup raw_spec (concrete_reference OpenAPIv2 value) with
            | Ok concrete =>
                (Ok (concrete, concrete_reference OpenAPIv2 value),
                 <[path := value]> c)
            | Raise e => (Raise e, <[path := value]> c)
            end
          else (Raise (ClickException (InvalidParamValue disc_key value types)), c)
      | Raise e => (Raise e, c)
      end
    else (Raise (ClickException (MissingRequiredParam disc_key)), c).
Proof.
  intros Hdisc Hkey Hsupplied.
  unfold V2.resolve_discriminator, bind, lift, ret, raise, cache_get, cache_set,
    chosen_value, disc_path, among, concrete_reference.
  rewrite Hdisc, Hkey, Hsupplied. cbv beta iota zeta.
  destruct (truthy supplied) eqn:Hs; cbv beta iota; rewrite ?Hs; cbv beta iota.
  - cbn [negb].
    destruct (list_concrete_types raw_spec depth schema) as [types|e];
      [|reflexivity].
    destruct (existsb (eq_str supplied) types); cbn [negb]; [|reflexivity].
    now destruct (lookup raw_spec _).
  - destruct (truthy (default JNull _)); cbn [negb]; [|reflexivity].
    destruct (list_concrete_types raw_spec depth schema) as [types|e];
      [|reflexivity].
    destruct (existsb _ types); cbn [negb]; [|reflexivity].
    now destruct (lookup raw_spec _).
Qed.

(** The discriminator block of the v3 implementation, case by case: the
    value is checked against the concrete types of the schema it names. *)
Lemma resolve_discriminator_v3_run depth data schema reference c disc_key supplied :
  py_in "discriminator" schema = Ok true ->
  V3.discriminator_property schema = Ok disc_key ->
  py_get_key data disc_key = Ok supplied ->
  V3.resolve_discriminator raw_spec depth data schema reference c
  = let path := disc_path reference disc_key in
    let value := chosen_value supplied c path in
    if truthy value then
      match V3.lookup_merged raw_spec (concrete_reference OpenAPIv3 value) with
      | Ok concrete =>
          match list_concrete_types raw_spec depth concrete with
          | Ok types =>
              if among value types then
                (Ok (concrete, concrete_reference OpenAPIv3 value),
                 <[path := value]> c)
              else
                (Raise (ClickException (InvalidParamValue disc_key value types)), c)
          | Raise e => (Raise e, c)
          end
      | Raise e => (Raise e, c)
      end
    else (Raise (ClickException (MissingRequiredParam disc_key)), c).
Proof.
  intros Hdisc Hkey Hsupplied.
  unfold V3.resolve_discriminator, bind, lift, ret, raise, cache_get, cache_set,
    chosen_value, disc_path, among, concrete_reference.
  rewrite Hdisc, Hkey, Hsupplied. cbv beta iota zeta.
  destruct (truthy supplied) eqn:Hs; cbv beta iota; rewrite ?Hs; cbv beta iota.
  - cbn [negb].
    destruct (V3.lookup_merged raw_spec _) as [concrete|e]; [|reflexivity].
    destruct (list_concrete_types raw_spec depth concrete) as [types|e];
      [|reflexivity].
    now destruct (existsb (eq_str supplied) types).
  - destruct (truthy (default JNull _)); cbn [negb]; [|reflexivity].
    destruct (V3.lookup_merged raw_spec _) as [concrete|e]; [|reflexivity].
    destruct (list_concrete_types raw_spec depth concrete) as [types|e];
      [|reflexivity].
    now destruct (existsb _ types).
Qed.

End ResolveDiscriminator.

(** * Discriminated schemas *)

Section Discriminated.
Context `{Runtime}.
Variable raw_spec : json.

(** The v2 implementation checks the value against the concrete types of
    the discriminated schema, and goes on with the schema the value names. *)
Lemma resolve_discriminator_v2_validates depth data schema reference c
  disc_key value types :
  py_in "discriminator" schema = Ok true ->
  py_getitem schema "discriminator" = Ok disc_key ->
  py_get_key data disc_key = Ok value ->
  truthy value = true ->
  list_concrete_types raw_spec depth schema = Ok types ->
  (among value types = false ->
   V2.resolve_discriminator raw_spec depth data schema reference c
   = (Raise (ClickException (InvalidParamValue disc_key value types)), c))
  /\ (among value types = true ->
      forall concrete,
        lookup raw_spec (concrete_reference OpenAPIv2 value) = Ok concrete ->
        V2.resolve_discriminator raw_spec depth data schema reference c
        = (Ok (concrete, concrete_reference OpenAPIv2 value),
           <[disc_path reference disc_key := value]> c)).
Proof.
  intros Hdisc Hkey Hvalue Htrue Htypes.
  rewrite (resolve_discriminator_v2_run raw_spec depth data schema reference c
             disc_key value Hdisc Hkey Hvalue).
  unfold chosen_value. cbv zeta. rewrite Htrue. cbv iota.
  rewrite Htrue, Htypes. split.
  - now intros ->.
  - intros -> concrete Hconcrete. now rewrite Hconcrete.
Qed.

(** The v3 implementation looks the supplied value up first and checks it
    against the concrete types of the schema found, so that a value that is
    among the concrete types of the discriminated schema is refused
    whenever the schema it names lists no concrete types of its own. *)
Lemma filter_json_object_v3_refuses_concrete_type
  (depth : nat) (data : json) (route http_method : string)
  (filter_createonly : bool) (s : list (string * json)) (reference : json)
  (c : cache) (disc_key value : json) (types : list string) (concrete : json) :
  py_in "discriminator" (JObj s) = Ok true ->
  V3.discriminator_property (JObj s) = Ok disc_key ->
  py_get_key data disc_key = Ok value ->
  truthy value = true ->
  list_concrete_types raw_spec depth (JObj s) = Ok types ->
  among value types = true ->
  V3.lookup_merged raw_spec (concrete_reference OpenAPIv3 value) = Ok concrete ->
  py_in "x-concreteTypes" concrete = Ok false ->
  V3.filter_json_object raw_spec (S depth) data route http_method
    filter_createonly (JObj s) reference c
  = (Raise (ClickException (InvalidParamValue disc_key value [])), c).
Proof.
  intros Hdisc Hkey Hvalue Htrue Htypes Hamong Hconcrete Hleaf.
  change (V3.filter_json_object raw_spec)
    with (filter_json_object OpenAPIv3 raw_spec).
  rewrite filter_json_object_unfold.
  apply bind_fail. cbn [resolve_discriminator].
  rewrite (resolve_discriminator_v3_run raw_spec depth data (JObj s) reference c
             disc_key value Hdisc Hkey Hvalue).
  unfold chosen_value. cbv zeta. rewrite Htrue. cbv iota.
  rewrite Htrue, Hconcrete.
  unfold list_concrete_types. rewrite Hleaf. reflexivity.
Qed.

End Discriminated.

(** So it is with the polymorphic schema of the sample document. *)
Lemma filter_pet_v3_refused :
  @list_concrete_types Reference.runtime Sample.pets_v3 1 Sample.pet_v3
  = Ok ["Dog"]
  /\ @V3.filter_json_object Reference.runtime Sample.pets_v3 2 Sample.rex
       "/pets/" "post" false Sample.pet_v3 (JStr "#/components/schemas/Pet") ∅
     = (Raise (ClickException
                 (InvalidParamValue (JStr "type") (JStr "Dog") [])), ∅).
Proof.
  split; [reflexivity|].
  refine (@filter_json_object_v3_refuses_concrete_type Reference.runtime
            Sample.pets_v3 1 Sample.rex "/pets/" "post" false
            Sample.pet_v3_fields
            (JStr "#/components/schemas/Pet") ∅ (JStr "type") (JStr "Dog")
            ["Dog"] Sample.dog_schema _ _ _ _ _ _ _ _); reflexivity.
Qed.

Section PetRuns.
#[local] Existing Instance Reference.runtime.

(** The same object under the same schema in an OpenAPI v2 document: the
    value is accepted, cached, and the properties of [Dog] are kept. *)
Example filter_pet_v2 :
  let run := V2.filter_json_object Sample.pets_v2 2 Sample.rex "/pets/" "post"
               false Sample.pet_v2 (JStr "#/definitions/Pet") ∅ in
  fst run = Ok (JObj [("type", JStr "Dog"); ("name", JStr "Rex")])
  /\ snd run !! "#/definitions/Pet/type" = Some (JStr "Dog").
Proof. split; reflexivity. Qed.

(** A value that is not a concrete type is refused by the v2
    implementation. *)
Example filter_pet_v2_invalid :
  fst (V2.filter_json_object Sample.pets_v2 2
         (JObj [("type", JStr "Cat")]) "/pets/" "post"
         false Sample.pet_v2 (JStr "#/definitions/Pet") ∅)
  = Raise (ClickException (InvalidParamValue (JStr "type") (JStr "Cat") ["Dog"])).
Proof. reflexivity. Qed.

End PetRuns.

(** * Reuse of a cached discriminator *)

Section CacheReuse.
Context `{Runtime}.
Variable raw_spec : json.

Lemma chosen_value_cached c path value :
  c !! path = Some value -> chosen_value JNull c path = value.
Proof. intros Hc. unfold chosen_value. cbn [truthy]. now rewrite Hc. Qed.

(** A successful resolution stored its value, and resolves again to the
    same schema from a cache that holds this value when the object omits
    the discriminator. *)
Lemma resolution_reused v depth schema reference disc_key
  data c schema' reference' c' :
  py_in "discriminator" schema = Ok true ->
  discriminator_key v schema = Ok disc_key ->
  resolve_discriminator v raw_spec depth data schema reference c
  = (Ok (schema', reference'), c') ->
  exists value,
    c' !! disc_path reference disc_key = Some value
    /\ truthy value = true
    /\ reference' = concrete_reference v value
    /\ forall data2 c2,
         c2 !! disc_path reference disc_key = Some value ->
         py_get_key data2 disc_key = Ok JNull ->
         resolve_discriminator v raw_spec depth data2 schema reference c2
         = (Ok (schema', reference'), c2).
Proof.
  intros Hdisc Hkey Hrun.
  destruct (py_get_key data disc_key) as [supplied|e] eqn:Hsupplied.
  2:{ destruct v; cbn [resolve_discriminator discriminator_key] in *;
        unfold V2.resolve_discriminator, V3.resolve_discriminator,
          bind, lift in Hrun;
        rewrite Hdisc, Hkey, Hsupplied in Hrun; discriminate. }
  set (path := disc_path reference disc_key) in *.
  exists (chosen_value supplied c path).
  destruct v; cbn [resolve_discriminator discriminator_key concrete_reference] in *.
  - rewrite (resolve_discriminator_v2_run raw_spec depth data schema reference c
               disc_key supplied Hdisc Hkey Hsupplied) in Hrun.
    fold path in Hrun. cbv zeta in Hrun.
    destruct (truthy (chosen_value supplied c path)) eqn:Htrue; [|discriminate].
    destruct (list_concrete_types raw_spec depth schema) as [types|e] eqn:Htypes;
      [|discriminate].
    destruct (among (chosen_value supplied c path) types) eqn:Hamong;
      [|discriminate].
    destruct (lookup raw_spec _) as [concrete|e] eqn:Hconcrete; [|discriminate].
    injection Hrun as <- <- <-.
    split; [apply lookup_insert_eq|]. split; [reflexivity|].
    split; [reflexivity|].
    intros data2 c2 Hc2 Homitted.
    rewrite (resolve_discriminator_v2_run raw_spec depth data2 schema reference
               c2 disc_key JNull Hdisc Hkey Homitted).
    fold path. cbv zeta. rewrite (chosen_value_cached c2 path _ Hc2).
    rewrite Htrue, Htypes, Hamong, Hconcrete.
    now rewrite (insert_id c2 path _ Hc2).
  - rewrite (resolve_discriminator_v3_run raw_spec depth data schema reference c
               disc_key supplied Hdisc Hkey Hsupplied) in Hrun.
    fold path in Hrun. cbv zeta in Hrun.
    destruct (truthy (chosen_value supplied c path)) eqn:Htrue; [|discriminate].
    destruct (V3.lookup_merged raw_spec _) as [concrete|e] eqn:Hconcrete;
      [|discriminate].
    destruct (list_concrete_types raw_spec depth concrete) as [types|e] eqn:Htypes;
      [|discriminate].
    destruct (among (chosen_value supplied c path) types) eqn:Hamong;
      [|discriminate].
    injection Hrun as <- <- <-.
    split; [apply lookup_insert_eq|]. split; [reflexivity|].
    split; [reflexivity|].
    intros data2 c2 Hc2 Homitted.
    rewrite (resolve_discriminator_v3_run raw_spec depth data2 schema reference
               c2 disc_key JNull Hdisc Hkey Homitted).
    fold path. cbv zeta. rewrite (chosen_value_cached c2 path _ Hc2).
    rewrite Htrue, Hconcrete, Htypes, Hamong.
    now rewrite (insert_id c2 path _ Hc2).
Qed.

(** C5. For a schema with a discriminator, in both implementations: a
    successful resolution for a reference leaves, under the key made of the
    reference and the discriminator property, the value it resolved; an
    entry of the cache that holds a true value holds one after every call
    of [filter_json_object]; and an entry of [filter_json_object] for the
    same schema and reference whose object omits the discriminator, from a
    cache that holds the stored value, resolves to the same concrete schema
    and filters with it, with no missing-discriminator error. *)
Theorem discriminator_cache_reused
  (v : version) (depth : nat) (s : list (string * json))
  (reference disc_key : json)
  (data : json) (c : cache) (schema' reference' : json) (c' : cache) :
  py_in "discriminator" (JObj s) = Ok true ->
  discriminator_key v (JObj s) = Ok disc_key ->
  resolve_discriminator v raw_spec depth data (JObj s) reference c
  = (Ok (schema', reference'), c') ->
  exists value,
    c' !! disc_path reference disc_key = Some value
    /\ truthy value = true
    /\ reference' = concrete_reference v value
    /\ (forall depth2 data2 route http_method filter_createonly schema2
               reference2 c1 r c2,
           filter_json_object v raw_spec depth2 data2 route http_method
             filter_createonly schema2 reference2 c1 = (r, c2) ->
           holds_true c1 (disc_path reference disc_key) ->
           holds_true c2 (disc_path reference disc_key))
    /\ (forall data2 route http_method filter_createonly c2,
           c2 !! disc_path reference disc_key = Some value ->
           py_get_key data2 disc_key = Ok JNull ->
           resolve_discriminator v raw_spec depth data2 (JObj s) reference c2
           = (Ok (schema', reference'), c2)
           /\ filter_json_object v raw_spec (S depth) data2 route http_method
                filter_createonly (JObj s) reference c2
              = filter_by_properties
                  (fun sub_value sub reference2 =>
                     filter_json_object v raw_spec depth sub_value route
                       http_method filter_createonly sub reference2)
                  (sub_schema v raw_spec) data2 filter_createonly
                  schema' reference' c2).
Proof.
  intros Hdisc Hkey Hrun.
  destruct (resolution_reused v depth (JObj s) reference disc_key data c
              schema' reference' c' Hdisc Hkey Hrun)
    as (value & Hstored & Htrue & Hreference & Hagain).
  exists value. split; [exact Hstored|]. split; [exact Htrue|].
  split; [exact Hreference|]. split.
  - intros depth2 data2 rt meth fc schema2 reference2 c1 r c2 Hcall.
    exact (filter_json_object_preserves raw_spec v depth2 data2 rt meth fc
             schema2 reference2 c1 r c2 Hcall _).
  - intros data2 rt meth fc c2 Hc2 Homitted.
    split; [exact (Hagain data2 c2 Hc2 Homitted)|].
    rewrite filter_json_object_unfold.
    now rewrite (bind_run _ _ _ _ _ (Hagain data2 c2 Hc2 Homitted)).
Qed.

End CacheReuse.

Lemma discriminator_cache_reused_witness :
  exists value,
    ({["#/definitions/Pet/type" := JStr "Dog"]} : cache)
      !! @disc_path Reference.runtime (JStr "#/definitions/Pet") (JStr "type")
    = Some value
    /\ fst (@filter_json_object Reference.runtime OpenAPIv2 Sample.pets_v2 2
              (JObj [("name", JStr "Rex"); ("owner", JStr "Ann")])
              "/pets/" "post" false Sample.pet_v2 (JStr "#/definitions/Pet")
              {["#/definitions/Pet/type" := JStr "Dog"]})
       = Ok (JObj [("name", JStr "Rex")]).
Proof.
  destruct (@discriminator_cache_reused Reference.runtime Sample.pets_v2
              OpenAPIv2 1 Sample.pet_v2_fields
              (JStr "#/definitions/Pet") (JStr "type")
              Sample.rex ∅ Sample.dog_schema (JStr "#/definitions/Dog")
              {["#/definitions/Pet/type" := JStr "Dog"]}
              eq_refl eq_refl eq_refl)
    as (value & Hstored & Htrue & Hreference & Hkept & Hlater).
  exists value. split; [exact Hstored|].
  destruct (Hlater (JObj [("name", JStr "Rex"); ("owner", JStr "Ann")])
              "/pets/" "post" false
              {["#/definitions/Pet/type" := JStr "Dog"]} Hstored eq_refl)
    as [_ Hfilter].
  unfold Sample.pet_v2. rewrite Hfilter. reflexivity.
Defined.

(** * The store: [filter_json_object] does not write to its argument *)

Section StoreFrame.
Context `{Runtime}.

Lemma extends_hret {A} (a : A) : Store.extends (Store.hret a).
Proof. intros h c r h' c' [= _ <- _]. exists []. now rewrite app_nil_r. Qed.

Lemma extends_hraise {A} (e : exn) : Store.extends (Store.hraise (A:=A) e).
Proof. intros h c r h' c' [= _ <- _]. exists []. now rewrite app_nil_r. Qed.

Lemma keeps_of_extends {A} h0 (m : Store.H A) :
  Store.extends m -> Store.keeps h0 (fun _ => True) m.
Proof.
  intros Hm kvs ext c r h' c' Hrun.
  destruct (Hm _ _ _ _ _ Hrun) as [e ->]. split; [|trivial].
  exists kvs, (ext ++ e). now rewrite <- app_assoc.
Qed.

Lemma keeps_hret {A} h0 (Q : A -> Prop) (a : A) :
  Q a -> Store.keeps h0 Q (Store.hret a).
Proof.
  intros Ha kvs ext c r h' c' [= <- <- _]. split; [eauto|].
  now intros a' [= <-].
Qed.

Lemma keeps_hraise {A} h0 (Q : A -> Prop) e : Store.keeps h0 Q (Store.hraise e).
Proof. intros kvs ext c r h' c' [= <- <- _]. split; [eauto | discriminate]. Qed.

Lemma keeps_hlift {A} h0 (r : result A) :
  Store.keeps h0 (fun _ => True) (Store.hlift r).
Proof. intros kvs ext c r' h' c' [= _ <- _]. split; [eauto | trivial]. Qed.

Lemma keeps_hread {A} h0 (f : Store.store -> result A) :
  Store.keeps h0 (fun _ => True) (Store.hread f).
Proof. intros kvs ext c r' h' c' [= _ <- _]. split; [eauto | trivial]. Qed.

Lemma keeps_hcache {A} h0 (m : M A) :
  Store.keeps h0 (fun _ => True) (Store.hcache m).
Proof.
  intros kvs ext c r' h' c'. unfold Store.hcache.
  destruct (m c) as [r c1]. intros [= _ <- _]. split; [eauto | trivial].
Qed.

Lemma keeps_hbind {A B} h0 (Q : B -> Prop) (m : Store.H A) (k : A -> Store.H B) :
  Store.keeps h0 (fun _ => True) m ->
  (forall a, Store.keeps h0 Q (k a)) ->
  Store.keeps h0 Q (Store.hbind m k).
Proof.
  intros Hm Hk kvs ext c r h' c' Hrun. unfold Store.hbind in Hrun.
  destruct (m (h0 ++ Store.ODict kvs :: ext) c) as [[[a|e] h1] c1] eqn:Hmc.
  - destruct (Hm _ _ _ _ _ _ Hmc) as [(kvs1 & ext1 & ->) _].
    exact (Hk a _ _ _ _ _ _ Hrun).
  - injection Hrun as <- <- <-.
    destruct (Hm _ _ _ _ _ _ Hmc) as [Hshape _]. split; [exact Hshape | discriminate].
Qed.

Lemma keeps_weaken {A} h0 (Q : A -> Prop) (m : Store.H A) :
  Store.keeps h0 Q m -> Store.keeps h0 (fun _ => True) m.
Proof.
  intros Hm kvs ext c r h' c' Hrun.
  destruct (Hm _ _ _ _ _ _ Hrun) as [Hshape _]. split; [exact Hshape | trivial].
Qed.

(** [filtered[p_key] = value] writes to the new dictionary only. *)
Lemma keeps_dict_store h0 p_key value :
  Store.keeps h0 (fun _ => True) (Store.dict_store (length h0) p_key value).
Proof.
  intros kvs ext c r h' c'. unfold Store.dict_store.
  rewrite (list_lookup_middle h0 ext (Store.ODict kvs) (length h0) eq_refl).
  intros [= _ <- _]. split; [|trivial].
  exists (Store.set kvs p_key value), ext.
  rewrite insert_app_r_alt by lia. now rewrite Nat.sub_diag.
Qed.

Ltac keeps_step :=
  first [ apply keeps_hlift | apply keeps_hread | apply keeps_hcache
        | apply keeps_dict_store | apply keeps_hraise
        | apply keeps_hret; exact I ].

Lemma filter_properties_keeps h0 recur sub data filter_createonly reference
  create_only_props properties :
  (forall value schema ref, Store.extends (recur value schema ref)) ->
  Store.keeps h0 (fun _ => True)
    (Store.filter_properties recur sub data filter_createonly reference
       create_only_props properties (length h0)).
Proof.
  intros Hrecur.
  induction properties as [|[p_key p_value] rest IH];
    cbn [Store.filter_properties].
  - keeps_step.
  - apply keeps_hbind; [|intros _].
    { destruct (truthy reference); [|keeps_step].
      apply keeps_hbind; [keeps_step | intros _; keeps_step]. }
    apply keeps_hbind; [keeps_step | intros known].
    destruct (negb known); [exact IH|].
    apply keeps_hbind; [keeps_step | intros read_only].
    destruct (truthy read_only); [exact IH|].
    apply keeps_hbind; [|intros create_only].
    { destruct filter_createonly; keeps_step. }
    destruct create_only; [exact IH|].
    apply keeps_hbind; [keeps_step | intros has_ref].
    apply keeps_hbind; [keeps_step | intros value].
    apply keeps_hbind; [keeps_step | intros nested].
    destruct (has_ref && nested).
    + apply keeps_hbind; [keeps_step | intros ref].
      apply keeps_hbind; [keeps_step | intros schema].
      apply keeps_hbind; [apply keeps_of_extends, Hrecur | intros sub_object].
      apply keeps_hbind; [keeps_step | intros _; exact IH].
    + apply keeps_hbind; [keeps_step | intros _; exact IH].
Qed.

Lemma filter_by_properties_keeps h0 recur sub data filter_createonly schema
  reference :
  (forall value schema ref, Store.extends (recur value schema ref)) ->
  Store.keeps h0 (fun result => result = Store.VRef (length h0))
    (Store.filter_by_properties recur sub data filter_createonly schema
       reference (length h0)).
Proof.
  intros Hrecur. unfold Store.filter_by_properties.
  apply keeps_hbind; [|intros has_properties].
  { destruct (truthy schema); keeps_step. }
  destruct has_properties; [|now apply keeps_hret].
  apply keeps_hbind; [keeps_step | intros create_only_props].
  apply keeps_hbind; [keeps_step | intros props].
  apply keeps_hbind; [keeps_step | intros properties].
  apply keeps_hbind; [now apply filter_properties_keeps | intros _].
  now apply keeps_hret.
Qed.

(** A call of [filter_json_object] returns the dictionary it has added to
    the store, having written to no object that was there. *)
Lemma filter_json_object_adds get_schema resolve sub depth :
  forall data rt meth filter_createonly schema reference h c r h' c',
    Store.filter_json_object get_schema resolve sub depth data rt meth
      filter_createonly schema reference h c = (r, h', c') ->
    (exists ext, h' = h ++ ext)
    /\ forall result,
         r = Ok result ->
         result = Store.VRef (length h)
         /\ exists kvs ext, h' = h ++ Store.ODict kvs :: ext.
Proof.
  induction depth as [|depth IH];
    intros data rt meth filter_createonly schema reference h c r h' c' Hrun.
  - injection Hrun as <- <- _. split; [|discriminate].
    exists []. now rewrite app_nil_r.
  - cbn [Store.filter_json_object] in Hrun.
    unfold Store.hbind at 1 in Hrun. unfold Store.new_dict in Hrun.
    assert (Hkeeps :
      Store.keeps h (fun result => result = Store.VRef (length h))
        (Store.hbind
           (match schema with
            | JNull => Store.hlift (get_schema rt meth)
            | _ => Store.hret schema
            end)
           (fun schema0 =>
              Store.hbind
                (Store.hread (fun h1 => Ok (Store.reify (length h1) h1 data)))
                (fun snapshot =>
                   Store.hbind
                     (Store.hcache (resolve depth snapshot schema0 reference))
                     (fun resolved =>
                        let '(schema1, reference1) := resolved in
                        Store.filter_by_properties
                          (fun value sub0 reference' =>
                             Store.filter_json_object get_schema resolve sub
                               depth value rt meth filter_createonly sub0
                               reference')
                          sub data filter_createonly schema1 reference1
                          (length h)))))).
    { apply keeps_hbind; [|intros schema0].
      { destruct schema; first [keeps_step | apply keeps_hret; exact I]. }
      apply keeps_hbind; [keeps_step | intros snapshot].
      apply keeps_hbind; [keeps_step | intros [schema1 reference1]].
      apply filter_by_properties_keeps.
      intros value schema2 ref h1 c1 r1 h1' c1' Hcall.
      exact (proj1 (IH _ _ _ _ _ _ _ _ _ _ _ Hcall)). }
    destruct (Hkeeps [] [] c r h' c' Hrun) as [(kvs' & ext' & ->) Hresult].
    split; [eauto|]. intros result ->. split; [now apply Hresult | eauto].
Qed.

End StoreFrame.

Lemma reify_extend h ext :
  Store.closed h ->
  forall n value,
    Store.below (length h) value ->
    Store.reify n (h ++ ext) value = Store.reify n h value.
Proof.
  intros Hclosed. induction n as [|n IH]; intros value Hbelow.
  - now destruct value.
  - destruct value as [| | | |l]; try reflexivity.
    cbn [Store.below] in Hbelow. cbn [Store.reify].
    rewrite lookup_app_l by exact Hbelow.
    destruct (h !! l) as [[items|kvs]|] eqn:Hl; [| |reflexivity].
    + f_equal. pose proof (Hclosed l _ Hl) as Hitems. cbn in Hitems.
      apply map_ext_in. intros x Hin. apply IH.
      rewrite Forall_forall in Hitems. apply Hitems. now apply list_elem_of_In.
    + f_equal. pose proof (Hclosed l _ Hl) as Hkvs. cbn in Hkvs.
      apply map_ext_in. intros kv Hin. f_equal. apply IH.
      rewrite Forall_forall in Hkvs. apply Hkvs. now apply list_elem_of_In.
Qed.

(** C10. A call of [filter_json_object], in either implementation and
    whatever its outcome, leaves every object of the store as it was, so
    that its argument and the objects nested in it denote the same value
    before and after; and when it returns, it returns a dictionary that was
    not in the store before. *)
Theorem filter_json_object_does_not_mutate `{Runtime}
  (v : version) (raw_spec : json) (depth : nat) (data : Store.value)
  (rt meth : string) (filter_createonly : bool) (schema reference : json)
  (h : Store.store) (c : cache)
  (r : result Store.value) (h' : Store.store) (c' : cache) :
  Store.filter_json_object_of v raw_spec depth data rt meth filter_createonly
    schema reference h c = (r, h', c') ->
  (forall l object, h !! l = Some object -> h' !! l = Some object)
  /\ (Store.closed h -> Store.below (length h) data ->
      forall n, Store.reify n h' data = Store.reify n h data)
  /\ (forall result,
         r = Ok result ->
         result = Store.VRef (length h)
         /\ h !! length h = None
         /\ exists kvs, h' !! length h = Some (Store.ODict kvs)).
Proof.
  intros Hrun.
  assert (Hadds :
    (exists ext, h' = h ++ ext)
    /\ forall result,
         r = Ok result ->
         result = Store.VRef (length h)
         /\ exists kvs ext, h' = h ++ Store.ODict kvs :: ext).
  { destruct v; cbn [Store.filter_json_object_of] in Hrun;
      unfold Store.filter_json_object_v2, Store.filter_json_object_v3 in Hrun;
      exact (filter_json_object_adds _ _ _ _ _ _ _ _ _ _ _ _ _ _ _ Hrun). }
  destruct Hadds as [[ext ->] Hresult]. split; [|split].
  - intros l object Hl. now apply lookup_app_l_Some.
  - intros Hclosed Hbelow n. now apply reify_extend.
  - intros result Hr. destruct (Hresult result Hr) as (-> & kvs & ext' & Hext).
    split; [reflexivity|]. split; [now apply lookup_ge_None_2|].
    exists kvs. rewrite Hext.
    now rewrite (list_lookup_middle h ext' (Store.ODict kvs) (length h) eq_refl).
Qed.

Section StoreRuns.
#[local] Existing Instance Reference.runtime.

(** On this input the run on the store returns the value that the run on
    values returns. *)
Example store_run_agrees :
  match fst (fst Sample.role_run) with
  | Ok result => Ok (Store.reify 3 (snd (fst Sample.role_run)) result)
  | Raise e => Raise e
  end
  = fst (filter_json_object OpenAPIv2 Sample.roles_v2 2
           (Store.reify 3 (snd Sample.role_in_store) (fst Sample.role_in_store))
           "/roles/" "post" false Sample.role_schema JNull ∅).
Proof. reflexivity. Qed.

Lemma filter_json_object_does_not_mutate_witness :
  (forall l object,
      snd Sample.role_in_store !! l = Some object ->
      snd (fst Sample.role_run) !! l = Some object)
  /\ fst (fst Sample.role_run) = Ok (Store.VRef 2).
Proof.
  pose proof (@filter_json_object_does_not_mutate Reference.runtime
                OpenAPIv2 Sample.roles_v2 2 (fst Sample.role_in_store)
                "/roles/" "post" false Sample.role_schema JNull
                (snd Sample.role_in_store) ∅
                (fst (fst Sample.role_run)) (snd (fst Sample.role_run)) (snd Sample.role_run))
    as Hframe.
  split.
  - apply Hframe. unfold Sample.role_run. now destruct (Store.filter_json_object_of _ _ _ _ _ _ _ _ _ _ _) as [[? ?] ?].
  - reflexivity.
Defined.

End StoreRuns.

(** * Discriminated schemas, as resolved by each implementation *)

Section PetAllOf.
#[local] Existing Instance Reference.runtime.

(** C1 fails on the v2 implementation when the concrete type is composed
    by ['allOf']: the value ["Dog"] is among the concrete types, yet the
    filter does not go on with the merged schema of [Dog]; it finds no
    ['properties'] in the node and keeps nothing. *)
Lemma v2_does_not_merge_all_of :
  list_concrete_types Sample.pets_allof_v2 1 Sample.pet_v2 = Ok ["Dog"]
  /\ fst (filter_json_object OpenAPIv2 Sample.pets_allof_v2 2 Sample.rex
            "/pets/" "post" false Sample.pet_v2 (JStr "#/definitions/Pet") ∅)
     = Ok (JObj [])
  /\ ~ proceeds_with_merged_concrete OpenAPIv2 Sample.pets_allof_v2 1
         Sample.rex "/pets/" "post" Sample.pet_v2 (JStr "#/definitions/Pet")
         (JStr "Dog").
Proof.
  split; [reflexivity|]. split; [reflexivity|].
  intros (merged & c' & Hmerged & Hrun).
  vm_compute in Hmerged. injection Hmerged as <-.
  vm_compute in Hrun. discriminate.
Qed.

End PetAllOf.

Section Resolution.
Context `{Runtime}.
Variable raw_spec : json.

(** C1 as the code has it.  With a discriminator value supplied: the v2
    implementation refuses a value that is not among the concrete types of
    the discriminated schema, and for one that is goes on with the node
    ['#/definitions/<value>'] as it is; the v3 implementation, when its
    resolution succeeds, goes on with the node
    ['#/components/schemas/<value>'] merged when it has an ['allOf']. *)
Theorem discriminator_resolved
  (depth : nat) (data : json) (rt meth : string) (filter_createonly : bool)
  (s : list (string * json)) (reference : json) (c : cache)
  (disc_key value : json) :
  py_in "discriminator" (JObj s) = Ok true ->
  py_get_key data disc_key = Ok value ->
  truthy value = true ->
  (py_getitem (JObj s) "discriminator" = Ok disc_key ->
   forall types,
     list_concrete_types raw_spec depth (JObj s) = Ok types ->
     (among value types = false ->
      V2.filter_json_object raw_spec (S depth) data rt meth filter_createonly
        (JObj s) reference c
      = (Raise (ClickException (InvalidParamValue disc_key value types)), c))
     /\ (among value types = true ->
         forall concrete,
           lookup raw_spec (concrete_reference OpenAPIv2 value) = Ok concrete ->
           V2.filter_json_object raw_spec (S depth) data rt meth
             filter_createonly (JObj s) reference c
           = filter_by_properties
               (fun sub_value sub reference' =>
                  V2.filter_json_object raw_spec depth sub_value rt meth
                    filter_createonly sub reference')
               (lookup raw_spec) data filter_createonly concrete
               (concrete_reference OpenAPIv2 value)
               (<[disc_path reference disc_key := value]> c)))
  /\ (V3.discriminator_property (JObj s) = Ok disc_key ->
      forall schema' reference' c',
        V3.resolve_discriminator raw_spec depth data (JObj s) reference c
        = (Ok (schema', reference'), c') ->
        V3.lookup_merged raw_spec (concrete_reference OpenAPIv3 value)
        = Ok schema'
        /\ reference' = concrete_reference OpenAPIv3 value
        /\ V3.filter_json_object raw_spec (S depth) data rt meth
             filter_createonly (JObj s) reference c
           = filter_by_properties
               (fun sub_value sub reference' =>
                  V3.filter_json_object raw_spec depth sub_value rt meth
                    filter_createonly sub reference')
               (V3.lookup_merged raw_spec) data filter_createonly schema'
               reference' c').
Proof.
  intros Hdisc Hvalue Htrue. split.
  - intros Hkey types Htypes.
    destruct (resolve_discriminator_v2_validates raw_spec depth data (JObj s)
                reference c disc_key value types Hdisc Hkey Hvalue Htrue Htypes)
      as [Hinvalid Hvalid].
    change (V2.filter_json_object raw_spec)
      with (filter_json_object OpenAPIv2 raw_spec).
    split.
    + intros Hamong. rewrite filter_json_object_unfold.
      apply bind_fail. exact (Hinvalid Hamong).
    + intros Hamong concrete Hconcrete. rewrite filter_json_object_unfold.
      now rewrite (bind_run _ _ _ _ _ (Hvalid Hamong concrete Hconcrete)).
  - intros Hkey schema' reference' c' Hrun.
    pose proof Hrun as Hrun'.
    rewrite (resolve_discriminator_v3_run raw_spec depth data (JObj s) reference
               c disc_key value Hdisc Hkey Hvalue) in Hrun'.
    unfold chosen_value in Hrun'. cbv zeta in Hrun'.
    rewrite Htrue in Hrun'. cbv iota in Hrun'. rewrite Htrue in Hrun'.
    destruct (V3.lookup_merged raw_spec _) as [concrete|e]; [|discriminate].
    destruct (list_concrete_types raw_spec depth concrete) as [types|e];
      [|discriminate].
    destruct (among value types); [|discriminate].
    injection Hrun' as <- <- <-.
    split; [reflexivity|]. split; [reflexivity|].
    change (V3.filter_json_object raw_spec)
      with (filter_json_object OpenAPIv3 raw_spec).
    rewrite filter_json_object_unfold.
    now rewrite (bind_run _ _ _ _ _ Hrun).
Qed.

End Resolution.

Lemma discriminator_resolved_witness :
  fst (@V2.filter_json_object Reference.runtime Sample.pets_v2 2 Sample.rex
         "/pets/" "post" false Sample.pet_v2 (JStr "#/definitions/Pet") ∅)
  = Ok (JObj [("type", JStr "Dog"); ("name", JStr "Rex")]).
Proof.
  pose proof (@discriminator_resolved Reference.runtime Sample.pets_v2 1
                Sample.rex "/pets/" "post" false Sample.pet_v2_fields
                (JStr "#/definitions/Pet") ∅ (JStr "type") (JStr "Dog")
                eq_refl eq_refl eq_refl) as [Hv2 _].
  destruct (Hv2 eq_refl ["Dog"] eq_refl) as [_ Hvalid].
  unfold Sample.pet_v2.
  rewrite (Hvalid eq_refl Sample.dog_schema eq_refl). reflexivity.
Defined.


(** * What the filter never lets through *)

Lemma bind_ok {A B} (m : M A) (k : A -> M B) c b c' :
  bind m k c = (Ok b, c') ->
  exists a c1, m c = (Ok a, c1) /\ k a c1 = (Ok b, c').
Proof.
  unfold bind. destruct (m c) as [[a|e] c1]; [eauto | discriminate].
Qed.

Lemma lift_ok {A} (r : result A) c a c' :
  lift r c = (Ok a, c') -> r = Ok a /\ c' = c.
Proof. unfold lift. now intros [= -> ->]. Qed.

Lemma dict_mem_set d k v k' :
  Dict.mem (Dict.set d k v) k' = String.eqb k k' || Dict.mem d k'.
Proof.
  unfold Dict.mem. rewrite dict_get_set. now destruct (String.eqb k k').
Qed.

Tactic Notation "bind_inv" hyp(H) "as" ident(a) ident(Hs) :=
  apply bind_ok in H; destruct H as (a & ? & Hs & H).

Ltac lift_inv H := apply lift_ok in H; destruct H as [H ->].

Section FilterSafety.
Context `{Runtime}.

Lemma let_through_cons data fc cop kv properties k :
  let_through data fc cop properties k ->
  let_through data fc cop (kv :: properties) k.
Proof.
  intros (p_value & ro & Hin & Hrest). exists p_value, ro.
  split; [now right | exact Hrest].
Qed.

Lemma filter_properties_lets_through recur sub data fc reference cop properties :
  forall filtered c filtered' c',
    filter_properties recur sub data fc reference cop properties filtered c
    = (Ok filtered', c') ->
    forall k, Dict.mem filtered' k = true ->
      Dict.mem filtered k = true \/ let_through data fc cop properties k.
Proof.
  induction properties as [|[p_key p_value] rest IH];
    intros filtered c filtered' c' Hrun k Hk.
  - injection Hrun as <- _. now left.
  - cbn [filter_properties] in Hrun.
    assert (Hrest : forall filtered0 c0,
      filter_properties recur sub data fc reference cop rest filtered0 c0
      = (Ok filtered', c') ->
      Dict.mem filtered0 k = true
      \/ let_through data fc cop ((p_key, p_value) :: rest) k).
    { intros filtered0 c0 Hrun0.
      destruct (IH _ _ _ _ Hrun0 k Hk) as [Hmem|Hadm]; [now left|].
      right. now apply let_through_cons. }
    clear IH.
    bind_inv Hrun as key_path Hpath. clear Hpath.
    bind_inv Hrun as known Hknown. lift_inv Hknown.
    destruct known; cbn [negb] in Hrun; [|exact (Hrest _ _ Hrun)].
    bind_inv Hrun as read_only Hro. lift_inv Hro.
    destruct (truthy read_only) eqn:Htrue; [exact (Hrest _ _ Hrun)|].
    bind_inv Hrun as create_only Hco.
    destruct create_only; [exact (Hrest _ _ Hrun)|].
    assert (Hco' : fc = true -> py_in p_key cop = Ok false).
    { intros ->. now lift_inv Hco. }
    assert (Hstore : forall value c0,
      filter_properties recur sub data fc reference cop rest
        (Dict.set filtered p_key value) c0 = (Ok filtered', c') ->
      Dict.mem filtered k = true
      \/ let_through data fc cop ((p_key, p_value) :: rest) k).
    { intros value c0 Hrun0.
      destruct (Hrest _ _ Hrun0) as [Hmem|Hadm]; [|now right].
      rewrite dict_mem_set in Hmem.
      destruct (String.eqb_spec p_key k) as [<-|_]; [|now left].
      right. exists p_value, read_only. repeat split; auto. now left. }
    bind_inv Hrun as has_ref Href. clear Href.
    bind_inv Hrun as value Hvalue. clear Hvalue.
    destruct (has_ref && isinstance_dict value).
    + bind_inv Hrun as ref Href. bind_inv Hrun as schema Hschema.
      bind_inv Hrun as sub_object Hsub. exact (Hstore _ _ Hrun).
    + exact (Hstore _ _ Hrun).
Qed.

Lemma filter_by_properties_lets_through recur sub data fc schema reference
  c filtered c' :
  filter_by_properties recur sub data fc schema reference c = (Ok filtered, c') ->
  exists kvs, filtered = JObj kvs
    /\ forall k, Dict.mem kvs k = true ->
       exists cop props,
         py_get_default schema "x-createOnly" (JStr "") = Ok cop
         /\ py_getitem schema "properties" = Ok (JObj props)
         /\ let_through data fc cop props k.
Proof.
  unfold filter_by_properties. intros Hrun.
  bind_inv Hrun as has_properties Hhas. clear Hhas. destruct has_properties.
  - bind_inv Hrun as cop Hcop. lift_inv Hcop.
    bind_inv Hrun as props Hprops. lift_inv Hprops.
    bind_inv Hrun as properties Hitems. lift_inv Hitems.
    bind_inv Hrun as kvs Hloop. injection Hrun as <- <-.
    exists kvs. split; [reflexivity|]. intros k Hk.
    destruct props; try discriminate. injection Hitems as ->.
    exists cop, properties. split; [exact Hcop|]. split; [exact Hprops|].
    destruct (filter_properties_lets_through _ _ _ _ _ _ _ _ _ _ _ Hloop k Hk)
      as [Hmem|Hthrough]; [discriminate | exact Hthrough].
  - injection Hrun as <- <-. exists []. split; [reflexivity|].
    intros k Hk. discriminate.
Qed.

Lemma filter_json_object_body v raw_spec depth data rt meth fc schema reference c :
  filter_json_object v raw_spec (S depth) data rt meth fc schema reference c
  = bind (match schema with
          | JNull => lift (_get_schema v raw_spec rt meth)
          | _ => ret schema
          end)
      (fun loaded =>
         bind (resolve_discriminator v raw_spec depth data loaded reference)
           (fun resolved =>
              filter_by_properties
                (fun value sub reference' =>
                   filter_json_object v raw_spec depth value rt meth fc sub
                     reference')
                (sub_schema v raw_spec) data fc (fst resolved) (snd resolved))) c.
Proof.
  destruct v; cbn [filter_json_object V2.filter_json_object
                   V3.filter_json_object resolve_discriminator sub_schema
                   _get_schema];
    unfold bind;
    (match goal with
     | |- match ?m c with _ => _ end = _ =>
         destruct (m c) as [[loaded|e] c0]; [|reflexivity]
     end);
    (match goal with
     | |- match ?r with _ => _ end = _ =>
         destruct r as [[[schema' reference']|e] c']; reflexivity
     end).
Qed.

(** X1.  Whatever the schema, discriminated or not, and whatever the flag:
    when [filter_json_object] returns, it returns a dictionary, and each of
    its keys is a property declared by the schema in use, is a key of
    [data], is not read-only and, when create-only properties are filtered
    out, is not listed in ['x-createOnly']. *)
Theorem filter_json_object_lets_through v raw_spec depth data rt meth fc
  schema reference c filtered c' :
  filter_json_object v raw_spec (S depth) data rt meth fc schema reference c
  = (Ok filtered, c') ->
  exists kvs used,
    filtered = JObj kvs
    /\ schema_in_use v raw_spec depth data rt meth schema reference c used
    /\ forall k, Dict.mem kvs k = true ->
       exists cop props,
         py_get_default used "x-createOnly" (JStr "") = Ok cop
         /\ py_getitem used "properties" = Ok (JObj props)
         /\ let_through data fc cop props k.
Proof.
  rewrite filter_json_object_body. intros Hrun.
  bind_inv Hrun as loaded Hloaded.
  bind_inv Hrun as resolved Hresolved.
  destruct resolved as [used reference']. cbn [fst snd] in Hrun.
  destruct (filter_by_properties_lets_through _ _ _ _ _ _ _ _ _ Hrun)
    as (kvs & -> & Hkeys).
  exists kvs, used. split; [reflexivity|]. split; [|exact Hkeys].
  assert (Hload : match schema with
                  | JNull => _get_schema v raw_spec rt meth
                  | _ => Ok schema
                  end = Ok loaded /\ x = c).
  { destruct schema; now injection Hloaded as <- <-. }
  destruct Hload as [Hload ->].
  exists loaded, reference', x0. split; [exact Hload | exact Hresolved].
Qed.

End FilterSafety.

Lemma filter_json_object_lets_through_witness :
  exists kvs used,
    JObj [("name", JStr "web")] = JObj kvs
    /\ @schema_in_use Reference.runtime OpenAPIv2 Sample.roles_v2 1
         (JObj [("id", JNum 5); ("name", JStr "web"); ("rank", JNum 2);
                ("os", JObj [("name", JStr "linux")])])
         "/roles/" "patch" (JObj (("x-createOnly", JArr [JStr "os"])
                                    :: [("properties", JObj Sample.role_properties)]))
         JNull ∅ used
    /\ forall k, Dict.mem kvs k = true ->
       exists cop props,
         py_get_default used "x-createOnly" (JStr "") = Ok cop
         /\ py_getitem used "properties" = Ok (JObj props)
         /\ let_through
              (JObj [("id", JNum 5); ("name", JStr "web"); ("rank", JNum 2);
                ("os", JObj [("name", JStr "linux")])])
              true cop props k.
Proof.
  apply (@filter_json_object_lets_through Reference.runtime OpenAPIv2
           Sample.roles_v2 1 _ "/roles/" "patch" true _ JNull ∅ _ ∅).
  reflexivity.
Defined.

(** * A discriminator that is missing, and what a failure leaves cached *)

Section DiscriminatorFailures.
Context `{Runtime}.
Variable v : version.
Variable raw_spec : json.

Lemma resolve_discriminator_run depth data schema reference c disc_key supplied :
  py_in "discriminator" schema = Ok true ->
  discriminator_key v schema = Ok disc_key ->
  py_get_key data disc_key = Ok supplied ->
  truthy (chosen_value supplied c (disc_path reference disc_key)) = false ->
  resolve_discriminator v raw_spec depth data schema reference c
  = (Raise (ClickException (MissingRequiredParam disc_key)), c).
Proof.
  intros Hdisc Hkey Hsupplied Hfalse. destruct v; cbn [resolve_discriminator].
  - rewrite (resolve_discriminator_v2_run raw_spec depth data schema reference c
               disc_key supplied Hdisc Hkey Hsupplied).
    cbv zeta. now rewrite Hfalse.
  - rewrite (resolve_discriminator_v3_run raw_spec depth data schema reference c
               disc_key supplied Hdisc Hkey Hsupplied).
    cbv zeta. now rewrite Hfalse.
Qed.

(** X2.  A schema with a discriminator, an object that has no true value
    for the discriminator property, and no true value cached for it:
    [filter_json_object] raises the exception that names the property, in
    both implementations, and leaves the cache as it was. *)
Theorem filter_json_object_missing_discriminator depth data rt meth fc s
  reference c disc_key supplied :
  py_in "discriminator" (JObj s) = Ok true ->
  discriminator_key v (JObj s) = Ok disc_key ->
  py_get_key data disc_key = Ok supplied ->
  truthy (chosen_value supplied c (disc_path reference disc_key)) = false ->
  filter_json_object v raw_spec (S depth) data rt meth fc (JObj s) reference c
  = (Raise (ClickException (MissingRequiredParam disc_key)), c).
Proof.
  intros Hdisc Hkey Hsupplied Hfalse.
  rewrite filter_json_object_unfold. apply bind_fail.
  now apply (resolve_discriminator_run depth data (JObj s) reference c disc_key
               supplied).
Qed.

End DiscriminatorFailures.

Lemma filter_json_object_missing_discriminator_witness :
  fst (@filter_json_object Reference.runtime OpenAPIv3 Sample.pets_v3 2
         (JObj [("type", JStr ""); ("name", JStr "Rex")]) "/pets/" "post" false
         Sample.pet_v3 (JStr "#/components/schemas/Pet")
         {["#/components/schemas/Animal/type" := JStr "Dog"]})
  = Raise (ClickException (MissingRequiredParam (JStr "type"))).
Proof.
  unfold Sample.pet_v3.
  rewrite (@filter_json_object_missing_discriminator Reference.runtime
             OpenAPIv3 Sample.pets_v3 1 _ "/pets/" "post" false
             Sample.pet_v3_fields _ _ (JStr "type") (JStr ""));
    reflexivity.
Defined.

Section FailedResolution.
Context `{Runtime}.
Variable raw_spec : json.

(** X3.  What a failed resolution of the discriminator leaves in the cache.
    The v3 implementation writes nothing.  The v2 implementation stores the
    value as soon as it is among the concrete types, before it looks the
    concrete schema up: the cache is unchanged, or the look-up is what
    failed and the value has been stored. *)
Theorem resolve_discriminator_failure v depth data schema reference c e c' :
  resolve_discriminator v raw_spec depth data schema reference c = (Raise e, c') ->
  c' = c
  \/ (v = OpenAPIv2
      /\ exists disc_key value types,
           py_getitem schema "discriminator" = Ok disc_key
           /\ list_concrete_types raw_spec depth schema = Ok types
           /\ among value types = true
           /\ lookup raw_spec (concrete_reference OpenAPIv2 value) = Raise e
           /\ c' = <[disc_path reference disc_key := value]> c).
Proof.
  intros Hrun.
  destruct (py_in "discriminator" schema) as [[|]|e0] eqn:Hdisc.
  - destruct (discriminator_key v schema) as [disc_key|e0] eqn:Hkey.
    + destruct (py_get_key data disc_key) as [supplied|e0] eqn:Hsupplied.
      * destruct v; cbn [resolve_discriminator discriminator_key] in Hrun, Hkey.
        -- rewrite (resolve_discriminator_v2_run raw_spec depth data schema
                      reference c disc_key supplied Hdisc Hkey Hsupplied) in Hrun.
           cbv zeta in Hrun.
           destruct (truthy (chosen_value supplied c _));
             [|injection Hrun as _ <-; now left].
           destruct (list_concrete_types raw_spec depth schema) as [types|e1]
             eqn:Htypes; [|injection Hrun as _ <-; now left].
           destruct (among _ types) eqn:Hamong;
             [|injection Hrun as _ <-; now left].
           destruct (lookup raw_spec _) as [concrete|e1] eqn:Hlookup;
             [discriminate|].
           injection Hrun as <- <-. right. split; [reflexivity|].
           exists disc_key, (chosen_value supplied c (disc_path reference disc_key)),
             types.
           auto.
        -- rewrite (resolve_discriminator_v3_run raw_spec depth data schema
                      reference c disc_key supplied Hdisc Hkey Hsupplied) in Hrun.
           cbv zeta in Hrun. left.
           destruct (truthy (chosen_value supplied c _));
             [|now injection Hrun as _ <-].
           destruct (V3.lookup_merged raw_spec _) as [concrete|e1];
             [|now injection Hrun as _ <-].
           destruct (list_concrete_types raw_spec depth concrete) as [types|e1];
             [|now injection Hrun as _ <-].
           destruct (among _ types); [discriminate|].
           now injection Hrun as _ <-.
      * left. destruct v; cbn [resolve_discriminator discriminator_key] in Hrun, Hkey;
          unfold V2.resolve_discriminator, V3.resolve_discriminator, bind, lift
            in Hrun;
          rewrite Hdisc, Hkey, Hsupplied in Hrun; now injection Hrun as _ <-.
    + left. destruct v; cbn [resolve_discriminator discriminator_key] in Hrun, Hkey;
        unfold V2.resolve_discriminator, V3.resolve_discriminator, bind, lift
          in Hrun;
        rewrite Hdisc, Hkey in Hrun; now injection Hrun as _ <-.
  - destruct v; cbn [resolve_discriminator] in Hrun;
      unfold V2.resolve_discriminator, V3.resolve_discriminator, bind, lift, ret
        in Hrun;
      rewrite Hdisc in Hrun; discriminate.
  - left. destruct v; cbn [resolve_discriminator] in Hrun;
      unfold V2.resolve_discriminator, V3.resolve_discriminator, bind, lift
        in Hrun;
      rewrite Hdisc in Hrun; now injection Hrun as _ <-.
Qed.

End FailedResolution.

Lemma resolve_discriminator_failure_witness :
  let c' : cache := {["#/definitions/Pet/type" := JStr "Dog"]} in
  c' = ∅
  \/ (OpenAPIv2 = OpenAPIv2
      /\ exists disc_key value types,
           py_getitem (JObj Cases.kennel_pet_fields) "discriminator" = Ok disc_key
           /\ @list_concrete_types Reference.runtime Cases.kennel_v2 1
                (JObj Cases.kennel_pet_fields) = Ok types
           /\ among value types = true
           /\ @lookup Reference.runtime Cases.kennel_v2
                (@concrete_reference Reference.runtime OpenAPIv2 value)
              = Raise (SchemaError "#/definitions/Dog")
           /\ c' = <[@disc_path Reference.runtime (JStr "#/definitions/Pet")
                       disc_key := value]> ∅).
Proof.
  apply (@resolve_discriminator_failure Reference.runtime Cases.kennel_v2
           OpenAPIv2 1 Sample.rex (JObj Cases.kennel_pet_fields)
           (JStr "#/definitions/Pet") ∅ (SchemaError "#/definitions/Dog")).
  reflexivity.
Defined.

(** * The names of the concrete types *)

Lemma mapM_ok {A B} (f : A -> result B) xs ys :
  mapM f xs = Ok ys ->
  forall y, In y ys -> exists x, In x xs /\ f x = Ok y.
Proof.
  revert ys. induction xs as [|x xs IH]; intros ys Hrun y Hy.
  - injection Hrun as <-. destruct Hy.
  - cbn [mapM] in Hrun.
    destruct (f x) as [y0|] eqn:Hx; [|discriminate]. rewrite rbind_ok in Hrun.
    destruct (mapM f xs) as [ys0|]; [|discriminate]. rewrite rbind_ok in Hrun.
    injection Hrun as <-. destruct Hy as [<-|Hy].
    + exists x. split; [now left | exact Hx].
    + destruct (IH ys0 eq_refl y Hy) as (x' & Hin & Hx').
      exists x'. split; [now right | exact Hx'].
Qed.

Lemma mapM_lists_ok {A B} (f : A -> result (list B)) xs lists y :
  mapM f xs = Ok lists -> In y (concat lists) ->
  exists x ys, In x xs /\ f x = Ok ys /\ In y ys.
Proof.
  intros Hrun Hy. apply in_concat in Hy as (ys & Hys & Hy).
  destruct (mapM_ok f xs lists Hrun ys Hys) as (x & Hin & Hx). eauto.
Qed.

Tactic Notation "rbind_inv" hyp(H) ident(a) ident(Ha) :=
  match type of H with
  | rbind ?r _ = Ok _ =>
      destruct r as [a|] eqn:Ha; [rewrite rbind_ok in H | discriminate H]
  end.

Section ConcreteTypes.
Context `{Runtime}.
Variable raw_spec : json.

Lemma list_concrete_types_recursive_leaves depth :
  forall reference links,
    list_concrete_types_recursive raw_spec depth reference = Ok links ->
    forall link, In link links ->
      exists leaf, lookup raw_spec link = Ok leaf
                   /\ py_in "x-concreteTypes" leaf = Ok false.
Proof.
  induction depth as [|depth IH]; intros reference links Hrun link Hlink;
    [discriminate|].
  cbn [list_concrete_types_recursive] in Hrun.
  rbind_inv Hrun schema Hschema. rbind_inv Hrun has Hhas.
  destruct has; cbn [negb] in Hrun.
  - rbind_inv Hrun concrete Hconcrete. rbind_inv Hrun ref_dicts Hdicts.
    rbind_inv Hrun lists Hlists. injection Hrun as <-.
    destruct (mapM_lists_ok _ _ _ _ Hlists Hlink) as (ref_dict & ys & _ & Hys & Hin).
    rbind_inv Hys r Hr. exact (IH r ys Hys link Hin).
  - injection Hrun as <-. destruct Hlink as [<-|[]]. eauto.
Qed.

(** X4.  Every name that [list_concrete_types] returns is the name of a
    concrete type: the last segment of a reference that the document
    resolves to a schema without ['x-concreteTypes'] of its own. *)
Theorem list_concrete_types_leaves depth schema names :
  list_concrete_types raw_spec depth schema = Ok names ->
  forall name, In name names -> concrete_leaf raw_spec name.
Proof.
  unfold list_concrete_types. intros Hrun name Hname.
  rbind_inv Hrun has Hhas. destruct has; [|injection Hrun as <-; destruct Hname].
  rbind_inv Hrun concrete Hconcrete. rbind_inv Hrun ref_dicts Hdicts.
  rbind_inv Hrun lists Hlists. injection Hrun as <-.
  destruct (mapM_lists_ok _ _ _ _ Hlists Hname) as (ref_dict & ys & _ & Hys & Hin).
  rbind_inv Hys ref_link Hlink. rbind_inv Hys links Hlinks.
  destruct (mapM_ok _ _ _ Hys name Hin) as (link & Hlinkin & Hsegment).
  destruct (list_concrete_types_recursive_leaves depth ref_link links Hlinks
              link Hlinkin) as (leaf & Hleaf & Hnone).
  exists link, leaf. auto.
Qed.

End ConcreteTypes.

Lemma list_concrete_types_leaves_witness :
  @concrete_leaf Reference.runtime Cases.kennel_v2 "Dog".
Proof.
  apply (@list_concrete_types_leaves Reference.runtime Cases.kennel_v2 1
           (JObj Cases.kennel_pet_fields) ["Dog"]).
  - reflexivity.
  - now left.
Defined.

(** * Columns of the table view *)

Section OneOf.

Lemma first_of_type_selects list_typedata obj_type ref :
  first_of_type list_typedata obj_type = Ok ref ->
  ref = JNull
  \/ exists type_dict path,
       In type_dict list_typedata
       /\ py_getitem type_dict "$ref" = Ok ref
       /\ ref = JStr path
       /\ obj_type = JStr (last_segment path).
Proof.
  induction list_typedata as [|type_dict rest IH]; intros Hrun.
  - injection Hrun as <-. now left.
  - cbn [first_of_type] in Hrun.
    rbind_inv Hrun has_ref Hhas. rbind_inv Hrun found Hfound.
    destruct found.
    + right. destruct has_ref; [|discriminate].
      rbind_inv Hfound ref0 Href.
      assert (ref0 = ref) as -> by congruence.
      rbind_inv Hfound short Hshort. injection Hfound as Heq.
      destruct ref as [| | |path| |]; try discriminate.
      injection Hshort as <-.
      destruct obj_type as [| | |t| |]; try discriminate.
      apply String.eqb_eq in Heq as ->.
      exists type_dict, path. split; [now left | auto].
    + destruct (IH Hrun) as [->|(type_dict' & path & Hin & Hrest)];
        [now left | right].
      exists type_dict', path. split; [now right | exact Hrest].
Qed.

Lemma handle_oneof_none data obj_type ref :
  handle_oneof data obj_type = Ok ref ->
  (forall s, obj_type <> JStr s) ->
  ref = JNull.
Proof.
  unfold handle_oneof. intros Hrun Htype.
  rbind_inv Hrun one_of Hone. rbind_inv Hrun list_typedata Hlist.
  destruct (first_of_type_selects _ _ _ Hrun)
    as [->|(type_dict & path & _ & _ & _ & Hobj)]; [reflexivity|].
  now destruct (Htype _ Hobj).
Qed.

(** X5.  What [handle_oneof] returns is [None], or the reference of one of
    the entries of ['oneOf'], and then [obj_type] is the last segment of
    that reference; so without an [obj_type] that is a string it returns
    [None]. *)
Theorem handle_oneof_selects data obj_type ref :
  handle_oneof data obj_type = Ok ref ->
  ref = JNull
  \/ exists one_of list_typedata type_dict path,
       py_getitem data "oneOf" = Ok one_of
       /\ py_iter one_of = Ok list_typedata
       /\ In type_dict list_typedata
       /\ py_getitem type_dict "$ref" = Ok (JStr path)
       /\ ref = JStr path
       /\ obj_type = JStr (last_segment path).
Proof.
  unfold handle_oneof. intros Hrun.
  rbind_inv Hrun one_of Hone. rbind_inv Hrun list_typedata Hlist.
  destruct (first_of_type_selects _ _ _ Hrun)
    as [->|(type_dict & path & Hin & Hget & -> & ->)]; [now left | right].
  exists one_of, list_typedata, type_dict, path. auto 10.
Qed.

End OneOf.

Lemma handle_oneof_selects_witness :
  JStr "#/components/schemas/Dog" = JNull
  \/ exists one_of list_typedata type_dict path,
       py_getitem Sample.one_of_schema "oneOf" = Ok one_of
       /\ py_iter one_of = Ok list_typedata
       /\ In type_dict list_typedata
       /\ py_getitem type_dict "$ref" = Ok (JStr path)
       /\ JStr "#/components/schemas/Dog" = JStr path
       /\ JStr "Dog" = JStr (last_segment path).
Proof.
  apply (handle_oneof_selects Sample.one_of_schema (JStr "Dog")). reflexivity.
Defined.

Section Columns.
Context `{Runtime}.
Variable raw_spec : json.

Lemma only_id_true v f_key :
  only_id v f_key = Ok true ->
  exists id ty,
    py_getitem f_key "properties" = Ok (JObj [("id", id)])
    /\ py_get id "type" = Ok ty
    /\ integer_or_string ty = true.
Proof.
  destruct v; cbn [only_id]; unfold V2Columns.only_id, V3Columns.only_id;
    intros Hrun.
  - rbind_inv Hrun has_properties Hhas. destruct has_properties; [|discriminate].
    rbind_inv Hrun properties Hprops. rbind_inv Hrun count Hcount.
    destruct (Nat.eqb_spec count 1) as [->|_]; [|discriminate].
    destruct f_key as [| | | | |fields]; try discriminate.
    cbn [py_getitem py_get_default] in Hprops, Hrun.
    destruct (Dict.get fields "properties") as [p|]; [|discriminate].
    injection Hprops as ->. rewrite rbind_ok in Hrun.
    rbind_inv Hrun id Hid. rbind_inv Hrun ty Hty. injection Hrun as Hty'.
    destruct properties as [| | | | |props]; try discriminate.
    destruct props as [|[k id0] [|]]; try discriminate.
    cbn [py_get_default Dict.get] in Hid.
    destruct (String.eqb_spec k "id") as [->|_].
    + injection Hid as <-. exists id0, ty. auto.
    + injection Hid as <-. cbn in Hty. injection Hty as <-. discriminate.
  - rbind_inv Hrun has_properties Hhas. destruct has_properties; [|discriminate].
    rbind_inv Hrun properties Hprops. rbind_inv Hrun count Hcount.
    destruct (Nat.eqb_spec count 1) as [->|_]; [|discriminate].
    rewrite ?rbind_ok in Hrun.
    rbind_inv Hrun has_id Hhas_id. destruct has_id; [|discriminate].
    rewrite ?rbind_ok in Hrun.
    rbind_inv Hrun id Hid. rewrite ?rbind_ok in Hrun.
    rbind_inv Hrun has_type Hhas_type.
    destruct has_type; [|discriminate].
    rewrite ?rbind_ok in Hrun.
    rbind_inv Hrun ty Hty. injection Hrun as Hty'.
    destruct properties as [| | | | |props]; try discriminate.
    destruct props as [|[k id0] [|]]; try discriminate.
    cbn [py_getitem Dict.get] in Hid.
    destruct (String.eqb_spec k "id") as [->|_]; [|discriminate].
    injection Hid as <-. exists id0, ty. split; [reflexivity|].
    split; [|exact Hty'].
    destruct id0 as [| | | | |fields]; try discriminate.
    cbn [py_getitem] in Hty. unfold py_get, py_get_default.
    now destruct (Dict.get fields "type").
Qed.

(** X6.  The columns of the table view, in both implementations: the loop
    of [get_column_names] adds to the columns it has, and each column it
    adds is the column of a property of the schema; a property that
    refers to any other schema has no column. *)
Theorem column_names_are_columns v properties so_far columns :
  column_names v raw_spec properties so_far = Ok columns ->
  exists added,
    columns = so_far ++ added
    /\ forall column, In column added ->
         exists k p_value, In (k, p_value) properties
                           /\ column_of raw_spec k p_value column.
Proof.
  revert so_far columns.
  induction properties as [|[k p_value] rest IH]; intros so_far columns Hrun.
  - assert (columns = so_far) as -> by (destruct v; now injection Hrun).
    exists []. split; [now rewrite app_nil_r | intros column []].
  - assert (Hstep :
      exists has_ref, py_in "$ref" p_value = Ok has_ref
        /\ if negb has_ref
           then column_names v raw_spec rest (so_far ++ [k]) = Ok columns
           else exists ref f_key id_only,
                  py_getitem p_value "$ref" = Ok ref
                  /\ lookup raw_spec ref = Ok f_key
                  /\ only_id v f_key = Ok id_only
                  /\ column_names v raw_spec rest
                       (if id_only : bool then so_far ++ [k +:+ ".id"] else so_far)
                     = Ok columns).
    { destruct v; cbn [column_names V2Columns.column_names
                       V3Columns.column_names only_id] in Hrun |- *;
        rbind_inv Hrun has_ref Hhas; exists has_ref; (split; [reflexivity|]);
        (destruct has_ref; cbn [negb] in Hrun |- *; [|exact Hrun]);
        rbind_inv Hrun ref Href; rbind_inv Hrun f_key Hf_key;
        rbind_inv Hrun id_only Hid;
        exists ref, f_key, id_only; now destruct id_only. }
    destruct Hstep as (has_ref & Hhas & Hstep). destruct has_ref; cbn [negb] in Hstep.
    + destruct Hstep as (ref & f_key & id_only & Href & Hf_key & Hid & Hrest).
      destruct id_only.
      * destruct (IH _ _ Hrest) as (added & -> & Hadded).
        exists ((k +:+ ".id") :: added). split; [now rewrite <- app_assoc|].
        intros column [<-|Hin].
        -- exists k, p_value. split; [now left|]. right.
           destruct (only_id_true v f_key Hid) as (id & ty & Hprops & Hty & Hint).
           exists ref, f_key, id, ty. auto 10.
        -- destruct (Hadded column Hin) as (k' & p' & Hin' & Hcol).
           exists k', p'. split; [now right | exact Hcol].
      * destruct (IH _ _ Hrest) as (added & -> & Hadded).
        exists added. split; [reflexivity|].
        intros column Hin. destruct (Hadded column Hin) as (k' & p' & Hin' & Hcol).
        exists k', p'. split; [now right | exact Hcol].
    + destruct (IH _ _ Hstep) as (added & -> & Hadded).
      exists (k :: added). split; [now rewrite <- app_assoc|].
      intros column [<-|Hin].
      * exists k, p_value. split; [now left|]. now left.
      * destruct (Hadded column Hin) as (k' & p' & Hin' & Hcol).
        exists k', p'. split; [now right | exact Hcol].
Qed.

End Columns.

Lemma column_names_are_columns_witness :
  exists added,
    ["name"; "image.id"] = [] ++ added
    /\ forall column, In column added ->
         exists k p_value,
           In (k, p_value) Cases.server_properties
           /\ @column_of Reference.runtime Cases.servers_v2 k p_value column.
Proof.
  apply (@column_names_are_columns Reference.runtime Cases.servers_v2 OpenAPIv2
           Cases.server_properties [] ["name"; "image.id"]).
  reflexivity.
Defined.

Section UntypedList.
Context `{Runtime}.
Variable raw_spec : json.

(** X7.  A list of objects of several types has columns only for a type
    that is named: when the items of the response are a ['oneOf'] and
    [obj_type] is not a string (the response told no type), the v3
    [get_column_names] returns no column at all. *)
Theorem get_column_names_v3_untyped rt meth obj_type columns :
  polymorphic_list raw_spec rt meth ->
  (forall s, obj_type <> JStr s) ->
  V3Columns.get_column_names raw_spec rt meth obj_type = Returns columns ->
  columns = [].
Proof.
  intros (descr & properties & data & items & Hdescr & Hprops & Hdata & Hitems
          & Hget & Hone) Htype.
  unfold V3Columns.get_column_names.
  rewrite Hdescr. rewrite rbind_ok. rewrite Hprops. rewrite rbind_ok.
  rewrite Hdata. cbn [try abind]. rewrite Hitems. cbn [try abind].
  rewrite Hget. cbn [try abind]. rewrite Hone. cbn [try abind].
  destruct (handle_oneof items obj_type) as [ref|e] eqn:Hhandle;
    cbn [try abind]; [|discriminate].
  rewrite (handle_oneof_none items obj_type ref Hhandle Htype).
  cbn [truthy negb]. now intros [= <-].
Qed.

End UntypedList.

Lemma get_column_names_v3_untyped_witness :
  @polymorphic_list Reference.runtime Cases.pet_list_v3 "/pets/" "get"
  /\ ([] : list string) = [].
Proof.
  assert (Hlist : @polymorphic_list Reference.runtime Cases.pet_list_v3
                    "/pets/" "get").
  { do 4 eexists. repeat split; reflexivity. }
  split; [exact Hlist|].
  apply (@get_column_names_v3_untyped Reference.runtime Cases.pet_list_v3
           "/pets/" "get" JNull []); [exact Hlist | discriminate | reflexivity].
Defined.

(** * The arguments of a command *)

Lemma dict_get_remove d k k' :
  Dict.get (dict_remove d k) k'
  = if String.eqb k k' then None else Dict.get d k'.
Proof.
  induction d as [|[k0 v0] d IH]; cbn [dict_remove Dict.get].
  - now destruct (String.eqb k k').
  - destruct (String.eqb_spec k0 k) as [->|Hne].
    + rewrite IH. destruct (String.eqb_spec k k') as [->|Hne']; [reflexivity|].
      now destruct (String.eqb_spec k k').
    + cbn [Dict.get]. rewrite IH.
      destruct (String.eqb_spec k0 k') as [->|Hne']; [|reflexivity].
      destruct (String.eqb_spec k k'); congruence.
Qed.

Lemma get_or_none_remove d k k' :
  dict_get_or_none (dict_remove d k) k'
  = if String.eqb k k' then JNull else dict_get_or_none d k'.
Proof.
  unfold dict_get_or_none. rewrite dict_get_remove.
  now destruct (String.eqb k k').
Qed.

Lemma dict_mem_remove d k k' :
  Dict.mem (dict_remove d k) k' = negb (String.eqb k k') && Dict.mem d k'.
Proof.
  unfold Dict.mem. rewrite dict_get_remove. now destruct (String.eqb k k').
Qed.

Lemma get_apply_filters pairs : forall d k,
  Dict.get (fold_left apply_filter pairs d) k
  = match filter_value pairs k with
    | Some v => Some (JStr v)
    | None => Dict.get d k
    end.
Proof.
  induction pairs as [|entry rest IH]; intros d k; cbn [fold_left filter_value].
  - reflexivity.
  - rewrite IH. destruct (filter_value rest k) as [v|]; [reflexivity|].
    unfold apply_filter.
    destruct (py_split "=" entry) as [|k' [|v [|]]]; try reflexivity.
    rewrite dict_get_set. now destruct (String.eqb k' k).
Qed.

Section Arguments.

(** The stage of [_apply_arguments] that applies the filters. *)
Lemma filters_effective kwargs kwargs1 :
  (if truthy (dict_get_or_none kwargs "filters") then
     let '(filters, kwargs) := dict_pop kwargs "filters" JNull in
     rbind (py_split_value "," filters)
       (fun pairs => Ok (fold_left apply_filter pairs kwargs))
   else Ok kwargs) = Ok kwargs1 ->
  forall k, dict_get_or_none kwargs1 k = effective kwargs k.
Proof.
  unfold effective, filter_pairs, dict_get_or_none, dict_pop.
  destruct (Dict.get kwargs "filters") as [filters|] eqn:Hfilters.
  - destruct (truthy filters) eqn:Htrue.
    + destruct filters as [| | |text| |]; try discriminate.
      cbn [py_split_value]. rewrite rbind_ok. intros [= <-] k.
      cbn [truthy] in Htrue. apply negb_true_iff in Htrue. rewrite Htrue.
      rewrite get_apply_filters, dict_get_remove.
      destruct (filter_value (py_split "," text) k); [reflexivity|].
      rewrite String.eqb_sym.
      now destruct (String.eqb k "filters").
    + intros [= <-] k.
      assert (filter_value
                match filters with
                | JStr text => if String.eqb text "" then [] else py_split "," text
                | _ => []
                end k = None) as ->.
      { destruct filters as [| | |text| |]; try reflexivity.
        cbn [truthy] in Htrue. apply negb_false_iff in Htrue. now rewrite Htrue. }
      reflexivity.
  - cbn [truthy]. intros [= <-] k. reflexivity.
Qed.

Lemma pop_flag_get flag change s kwargs s' kwargs' :
  pop_flag flag change (s, kwargs) = (s', kwargs') ->
  s' = (if truthy (dict_get_or_none kwargs flag) then change s else s)
  /\ kwargs' = dict_remove kwargs flag.
Proof. unfold pop_flag, dict_pop, dict_get_or_none. now intros [= <- <-]. Qed.

(** How [_apply_arguments] ends, given the arguments after the filters. *)
Lemma apply_arguments_stages s kwargs s' kwargs' :
  _apply_arguments s kwargs = Ok (s', kwargs') ->
  exists kwargs1 s2 kwargs2,
    (forall k, dict_get_or_none kwargs1 k = effective kwargs k)
    /\ (truthy (dict_get_or_none kwargs "filters") = false -> kwargs1 = kwargs)
    /\ (if truthy (dict_get_or_none kwargs1 "columns")
        then exists text, dict_get_or_none kwargs1 "columns" = JStr text
                          /\ s2 = set_table_columns (py_split "," text) s
                          /\ kwargs2 = dict_remove kwargs1 "columns"
        else s2 = s /\ kwargs2 = kwargs1)
    /\ let s3 := if truthy (dict_get_or_none kwargs1 "strip_metadata")
                 then set_strip_metadata s2 else s2 in
       let s4 := if truthy (dict_get_or_none kwargs1 "dryrun")
                 then set_dry_run s3 else s3 in
       let s5 := if truthy (dict_get_or_none kwargs1 "debug")
                 then set_debug_mode s4 else s4 in
       let s6 := if truthy (dict_get_or_none kwargs1 "nocolor")
                 then unset_colored_output s5 else s5 in
       let kwargs6 :=
         dict_remove
           (dict_remove
              (dict_remove (dict_remove kwargs2 "strip_metadata") "dryrun")
              "debug") "nocolor" in
       if truthy (dict_get_or_none kwargs1 "transformation")
       then s' = set_view (dict_get_or_none kwargs1 "transformation") s6
            /\ kwargs' = dict_remove kwargs6 "transformation"
       else s' = s6 /\ kwargs' = kwargs6.
Proof.
  unfold _apply_arguments. intros Hrun.
  rbind_inv Hrun kwargs1 Hfilters. rbind_inv Hrun state Hcolumns.
  destruct state as [s2 kwargs2].
  exists kwargs1, s2, kwargs2.
  split; [exact (filters_effective kwargs kwargs1 Hfilters)|].
  split.
  { intros Hnone. rewrite Hnone in Hfilters. now injection Hfilters. }
  assert (Hget2 : forall k, k <> "columns" ->
            dict_get_or_none kwargs2 k = dict_get_or_none kwargs1 k).
  { intros k Hk. destruct (truthy (dict_get_or_none kwargs1 "columns")).
    - unfold dict_pop in Hcolumns.
      destruct (py_split_value "," _); [|discriminate].
      rewrite rbind_ok in Hcolumns. injection Hcolumns as _ <-.
      rewrite get_or_none_remove.
      destruct (String.eqb_spec "columns" k) as [<-|_]; [now destruct Hk | reflexivity].
    - now injection Hcolumns as _ <-. }
  split.
  { destruct (truthy (dict_get_or_none kwargs1 "columns")).
    - unfold dict_pop in Hcolumns. fold (dict_get_or_none kwargs1 "columns") in Hcolumns.
      destruct (dict_get_or_none kwargs1 "columns") as [| | |text| |];
        try discriminate.
      cbn [py_split_value] in Hcolumns. rewrite rbind_ok in Hcolumns.
      injection Hcolumns as <- <-. exists text. auto.
    - now injection Hcolumns as <- <-. }
  cbv zeta. clear Hcolumns Hfilters.
  unfold pop_flag, dict_pop in Hrun.
  repeat match type of Hrun with
         | context [match Dict.get ?d ?k with Some v => v | None => JNull end] =>
             fold (dict_get_or_none d k) in Hrun
         end.
  rewrite !get_or_none_remove in Hrun. cbn [String.eqb Ascii.eqb Bool.eqb] in Hrun.
  rewrite !(Hget2 _) in Hrun by discriminate.
  destruct (truthy (dict_get_or_none kwargs1 "transformation"));
    now injection Hrun as <- <-.
Qed.

(** X8.  [_apply_arguments] takes its options out of the arguments: what
    it returns has no [strip_metadata], [dryrun], [debug] or [nocolor], and
    no [columns] or [transformation] with a true value. *)
Theorem apply_arguments_consumes s kwargs s' kwargs' :
  _apply_arguments s kwargs = Ok (s', kwargs') ->
  (forall flag, In flag ["strip_metadata"; "dryrun"; "debug"; "nocolor"] ->
     Dict.mem kwargs' flag = false)
  /\ truthy (dict_get_or_none kwargs' "columns") = false
  /\ truthy (dict_get_or_none kwargs' "transformation") = false.
Proof.
  intros Hrun.
  destruct (apply_arguments_stages s kwargs s' kwargs' Hrun)
    as (kwargs1 & s2 & kwargs2 & _ & _ & Hcolumns & Hrest).
  cbv zeta in Hrest.
  assert (Hcol2 : truthy (dict_get_or_none kwargs2 "columns") = false).
  { destruct (truthy (dict_get_or_none kwargs1 "columns")) eqn:Htrue.
    - destruct Hcolumns as (text & _ & _ & ->).
      now rewrite get_or_none_remove.
    - now destruct Hcolumns as [_ ->]. }
  destruct (truthy (dict_get_or_none kwargs1 "transformation")) eqn:Htrue;
    destruct Hrest as [_ ->].
  - split; [|split].
    + intros flag Hflag. rewrite !dict_mem_remove.
      cbn in Hflag. destruct Hflag as [<-|[<-|[<-|[<-|[]]]]]; reflexivity.
    + now rewrite !get_or_none_remove.
    + now rewrite get_or_none_remove.
  - split; [|split].
    + intros flag Hflag. rewrite !dict_mem_remove.
      cbn in Hflag. destruct Hflag as [<-|[<-|[<-|[<-|[]]]]]; reflexivity.
    + now rewrite !get_or_none_remove.
    + rewrite !get_or_none_remove. cbn [String.eqb Ascii.eqb Bool.eqb].
      destruct (truthy (dict_get_or_none kwargs1 "columns")).
      * destruct Hcolumns as (text & _ & _ & ->).
        rewrite get_or_none_remove. exact Htrue.
      * destruct Hcolumns as [_ ->]. exact Htrue.
Qed.

(** X9.  The arguments that are left are the arguments that take effect:
    every argument but those that [_apply_arguments] takes out has the
    value of the last pair [k=v] of [filters] that names it, and else the
    value that was passed. *)
Theorem apply_arguments_effective s kwargs s' kwargs' :
  _apply_arguments s kwargs = Ok (s', kwargs') ->
  forall k, ~ In k CONSUMED ->
    dict_get_or_none kwargs' k = effective kwargs k.
Proof.
  intros Hrun k Hk.
  destruct (apply_arguments_stages s kwargs s' kwargs' Hrun)
    as (kwargs1 & s2 & kwargs2 & Heff & _ & Hcolumns & Hrest).
  cbv zeta in Hrest. rewrite <- Heff.
  assert (Hne : forall flag, In flag CONSUMED -> String.eqb flag k = false).
  { intros flag Hflag. destruct (String.eqb_spec flag k) as [<-|_];
      [now destruct Hk | reflexivity]. }
  assert (Hget2 : dict_get_or_none kwargs2 k = dict_get_or_none kwargs1 k).
  { destruct (truthy (dict_get_or_none kwargs1 "columns")).
    - destruct Hcolumns as (text & _ & _ & ->). rewrite get_or_none_remove.
      rewrite Hne; [reflexivity | now left].
    - now destruct Hcolumns as [_ ->]. }
  destruct (truthy (dict_get_or_none kwargs1 "transformation"));
    destruct Hrest as [_ ->]; rewrite !get_or_none_remove;
    rewrite !Hne by (cbn; tauto); exact Hget2.
Qed.

(** X10.  The state that [_apply_arguments] leaves is decided by the
    arguments that take effect, filters included: a flag can only be
    switched on, colours only off, and the view and the columns of the
    table are replaced when a true value is given. *)
Theorem apply_arguments_session s kwargs s' kwargs' :
  _apply_arguments s kwargs = Ok (s', kwargs') ->
  dry_run s' = dry_run s || truthy (effective kwargs "dryrun")
  /\ strip_metadata (self s')
     = strip_metadata (self s) || truthy (effective kwargs "strip_metadata")
  /\ debug_mode (settings s')
     = debug_mode (settings s) || truthy (effective kwargs "debug")
  /\ colored_output (settings s')
     = colored_output (settings s) && negb (truthy (effective kwargs "nocolor"))
  /\ view (settings s')
     = (if truthy (effective kwargs "transformation")
        then effective kwargs "transformation" else view (settings s))
  /\ (if truthy (effective kwargs "columns")
      then exists text, effective kwargs "columns" = JStr text
                        /\ _table_columns (self s') = py_split "," text
      else _table_columns (self s') = _table_columns (self s)).
Proof.
  intros Hrun.
  destruct (apply_arguments_stages s kwargs s' kwargs' Hrun)
    as (kwargs1 & s2 & kwargs2 & Heff & _ & Hcolumns & Hrest).
  cbv zeta in Hrest. rewrite <- !Heff.
  assert (Hs2 : s2 = s
                \/ exists text, dict_get_or_none kwargs1 "columns" = JStr text
                                /\ s2 = set_table_columns (py_split "," text) s).
  { destruct (truthy (dict_get_or_none kwargs1 "columns")).
    - destruct Hcolumns as (text & Htext & -> & _). right. eauto.
    - left. now destruct Hcolumns. }
  assert (Hs' : s' =
    let s3 := if truthy (dict_get_or_none kwargs1 "strip_metadata")
              then set_strip_metadata s2 else s2 in
    let s4 := if truthy (dict_get_or_none kwargs1 "dryrun")
              then set_dry_run s3 else s3 in
    let s5 := if truthy (dict_get_or_none kwargs1 "debug")
              then set_debug_mode s4 else s4 in
    let s6 := if truthy (dict_get_or_none kwargs1 "nocolor")
              then unset_colored_output s5 else s5 in
    if truthy (dict_get_or_none kwargs1 "transformation")
    then set_view (dict_get_or_none kwargs1 "transformation") s6 else s6).
  { cbv zeta.
    destruct (truthy (dict_get_or_none kwargs1 "transformation"));
      now destruct Hrest. }
  clear Hrest. cbv zeta in Hs'. subst s'.
  assert (Hfields :
    dry_run s2 = dry_run s
    /\ strip_metadata (self s2) = strip_metadata (self s)
    /\ settings s2 = settings s).
  { destruct Hs2 as [->|(text & _ & ->)]; auto. }
  destruct Hfields as (Hdry & Hstrip & Hsettings).
  split; [|split; [|split; [|split; [|split]]]].
  - destruct (truthy (dict_get_or_none kwargs1 "transformation")),
      (truthy (dict_get_or_none kwargs1 "nocolor")),
      (truthy (dict_get_or_none kwargs1 "debug")),
      (truthy (dict_get_or_none kwargs1 "dryrun")),
      (truthy (dict_get_or_none kwargs1 "strip_metadata"));
      cbn; rewrite ?Hdry; now rewrite ?orb_true_r, ?orb_false_r.
  - destruct (truthy (dict_get_or_none kwargs1 "transformation")),
      (truthy (dict_get_or_none kwargs1 "nocolor")),
      (truthy (dict_get_or_none kwargs1 "debug")),
      (truthy (dict_get_or_none kwargs1 "dryrun")),
      (truthy (dict_get_or_none kwargs1 "strip_metadata"));
      cbn; rewrite ?Hstrip; now rewrite ?orb_true_r, ?orb_false_r.
  - destruct (truthy (dict_get_or_none kwargs1 "transformation")),
      (truthy (dict_get_or_none kwargs1 "nocolor")),
      (truthy (dict_get_or_none kwargs1 "debug")),
      (truthy (dict_get_or_none kwargs1 "dryrun")),
      (truthy (dict_get_or_none kwargs1 "strip_metadata"));
      cbn; rewrite ?Hsettings; now rewrite ?orb_true_r, ?orb_false_r.
  - destruct (truthy (dict_get_or_none kwargs1 "transformation")),
      (truthy (dict_get_or_none kwargs1 "nocolor")),
      (truthy (dict_get_or_none kwargs1 "debug")),
      (truthy (dict_get_or_none kwargs1 "dryrun")),
      (truthy (dict_get_or_none kwargs1 "strip_metadata"));
      cbn; rewrite ?Hsettings; now rewrite ?andb_true_r, ?andb_false_r.
  - destruct (truthy (dict_get_or_none kwargs1 "transformation")),
      (truthy (dict_get_or_none kwargs1 "nocolor")),
      (truthy (dict_get_or_none kwargs1 "debug")),
      (truthy (dict_get_or_none kwargs1 "dryrun")),
      (truthy (dict_get_or_none kwargs1 "strip_metadata"));
      cbn; now rewrite ?Hsettings.
  - assert (Hcols : forall t : Session,
      _table_columns (self
        (let s3 := if truthy (dict_get_or_none kwargs1 "strip_metadata")
                   then set_strip_metadata t else t in
         let s4 := if truthy (dict_get_or_none kwargs1 "dryrun")
                   then set_dry_run s3 else s3 in
         let s5 := if truthy (dict_get_or_none kwargs1 "debug")
                   then set_debug_mode s4 else s4 in
         let s6 := if truthy (dict_get_or_none kwargs1 "nocolor")
                   then unset_colored_output s5 else s5 in
         if truthy (dict_get_or_none kwargs1 "transformation")
         then set_view (dict_get_or_none kwargs1 "transformation") s6 else s6))
      = _table_columns (self t)).
    { intros t. cbv zeta.
      destruct (truthy (dict_get_or_none kwargs1 "transformation")),
        (truthy (dict_get_or_none kwargs1 "nocolor")),
        (truthy (dict_get_or_none kwargs1 "debug")),
        (truthy (dict_get_or_none kwargs1 "dryrun")),
        (truthy (dict_get_or_none kwargs1 "strip_metadata")); reflexivity. }
    cbv zeta in Hcols. rewrite Hcols.
    destruct (truthy (dict_get_or_none kwargs1 "columns")).
    + destruct Hcolumns as (text & Htext & -> & _). exists text. auto.
    + now destruct Hcolumns as [-> _].
Qed.

End Arguments.

Lemma apply_arguments_consumes_witness :
  (forall flag, In flag ["strip_metadata"; "dryrun"; "debug"; "nocolor"] ->
     Dict.mem Cases.arguments_left flag = false)
  /\ truthy (dict_get_or_none Cases.arguments_left "columns") = false
  /\ truthy (dict_get_or_none Cases.arguments_left "transformation") = false.
Proof.
  apply (apply_arguments_consumes (Cases.session "get")
           Cases.filtered_arguments
           (set_debug_mode (set_dry_run (Cases.session "get")))).
  reflexivity.
Defined.

Lemma apply_arguments_effective_witness :
  dict_get_or_none Cases.arguments_left "name"
  = effective Cases.filtered_arguments "name".
Proof.
  apply (apply_arguments_effective (Cases.session "get")
           Cases.filtered_arguments
           (set_debug_mode (set_dry_run (Cases.session "get")))).
  - reflexivity.
  - cbn. intros [H|[H|[H|[H|[H|[H|[]]]]]]]; discriminate H.
Defined.

Lemma apply_arguments_session_witness :
  let s := Cases.session "get" in
  let s' := set_debug_mode (set_dry_run (Cases.session "get")) in
  let kwargs := Cases.filtered_arguments in
  dry_run s' = dry_run s || truthy (effective kwargs "dryrun")
  /\ strip_metadata (self s')
     = strip_metadata (self s) || truthy (effective kwargs "strip_metadata")
  /\ debug_mode (settings s')
     = debug_mode (settings s) || truthy (effective kwargs "debug")
  /\ colored_output (settings s')
     = colored_output (settings s) && negb (truthy (effective kwargs "nocolor"))
  /\ view (settings s')
     = (if truthy (effective kwargs "transformation")
        then effective kwargs "transformation" else view (settings s))
  /\ (if truthy (effective kwargs "columns")
      then exists text, effective kwargs "columns" = JStr text
                        /\ _table_columns (self s') = py_split "," text
      else _table_columns (self s') = _table_columns (self s)).
Proof.
  apply (apply_arguments_session (Cases.session "get")
           Cases.filtered_arguments
           (set_debug_mode (set_dry_run (Cases.session "get")))
           Cases.arguments_left).
  reflexivity.
Defined.

(** * The body that [pre] prepares *)

Lemma try_not_value_error {A} (r : result A) text : try r <> Fails (ValueError text).
Proof. now destruct r. Qed.

Lemma p_bind_run {A B} (m : P A) (k : A -> P B) c a c' :
  m c = (Returns a, c') -> p_bind m k c = k a c'.
Proof. intros Hm. unfold p_bind. now rewrite Hm. Qed.

Lemma p_bind_returns {A B} (a : A) (k : A -> P B) c :
  p_bind (p_lift (Returns a)) k c = k a c.
Proof. reflexivity. Qed.

Section PreFacts.
Context `{Runtime}.
Variable v : version.
Variable raw_spec : json.
Variable depth : nat.
Variable world : World.
Variable reraise : string -> exn.

Lemma pre_body_item_one param_data n param_name raw_json_object body :
  body_param_names param_data = Ok [JStr n] ->
  body_schema_resolves raw_spec param_data ->
  pre_body_item raw_spec param_data param_name raw_json_object body
  = Ok (JStr n, body).
Proof.
  intros Hnames (schema & has_ref & Hschema & Hhas & Href).
  unfold pre_body_item. rewrite Hnames, rbind_ok, Hschema, rbind_ok, Hhas, rbind_ok.
  destruct has_ref.
  - destruct (Href eq_refl) as (ref & resolved & Hget & Hlookup).
    now rewrite Hget, rbind_ok, Hlookup.
  - reflexivity.
Qed.

(** A request that is not PATCH: the one parameter name finds its object
    in [import_data], and the object is taken as it is. *)
Lemma import_loop_one s d n body param_name c :
  String.eqb (upper (http_method (self s))) "PATCH" = false ->
  Dict.get d n = Some body ->
  import_loop v raw_spec depth s (JObj d) [JStr n] Unbound param_name c
  = (Returns (Bound (body, body), JStr n), c).
Proof.
  intros Hmethod Hget. cbn [import_loop import_item try].
  unfold p_bind, p_lift. rewrite Hget. now rewrite Hmethod.
Qed.

Lemma pre_body_import s kwargs d n body c :
  upper (http_method (self s)) = "POST" ->
  Dict.get kwargs "import-data" = Some (JObj d) ->
  d <> [] ->
  one_body_parameter v raw_spec s n ->
  Dict.get d n = Some body ->
  pre_body v raw_spec depth world reraise s kwargs c
  = (Returns {| arguments := Dict.set (passed_on kwargs) n body;
                body_item := None |}, c).
Proof.
  intros Hmethod Himport Hd (param_data & Hparams & Hnames & Hschema) Hbody.
  unfold pre_body, dict_pop. rewrite Himport, Hmethod. cbn [in_tuple existsb negb].
  change (String.eqb "POST" "PATCH") with false.
  change (String.eqb "POST" "POST") with true. cbn [orb negb].
  assert (Hname : exists param_name, py_get param_data "name" = Ok param_name).
  { unfold body_param_names in Hnames.
    destruct (py_get param_data "name") as [param_name|]; [eauto | discriminate]. }
  destruct Hname as (param_name & Hname).
  rewrite Hparams. cbn [try]. rewrite p_bind_returns.
  rewrite Hname. cbn [try]. rewrite p_bind_returns.
  rewrite Hnames. cbn [try]. rewrite p_bind_returns.
  unfold except_value_error, pre_try, acquire.
  assert (Htrue : truthy (JObj d) = true) by (now destruct d).
  rewrite Htrue.
  rewrite (p_bind_run _ _ _ _ _
             (p_bind_run _ _ _ _ _
                (import_loop_one s d n body param_name c
                   ltac:(now rewrite Hmethod) Hbody))).
  cbn [p_ret fst snd].
  rewrite (pre_body_item_one param_data n (JStr n) body body Hnames Hschema).
  reflexivity.
Qed.

(** X11.  A POST request with [import-data]: when the route has one body
    parameter and [import-data] is a dictionary with an object of that
    name, [pre] stores this object under the name, as it is: the object
    is not filtered, nothing is asked of the terminal or the server, and
    the discriminator cache stays as it was. *)
Theorem pre_post_import_data s kwargs s1 kwargs1 d n body c :
  _apply_arguments s kwargs = Ok (s1, kwargs1) ->
  _check_arguments raw_spec (self s1) kwargs1 = Ok tt ->
  upper (http_method (self s1)) = "POST" ->
  Dict.get kwargs1 "import-data" = Some (JObj d) ->
  d <> [] ->
  one_body_parameter v raw_spec s1 n ->
  Dict.get d n = Some body ->
  pre v raw_spec depth world reraise s kwargs c
  = (Returns {| arguments := Dict.set (passed_on kwargs1) n body;
                body_item := None |}, s1, c).
Proof.
  intros Happly Hcheck Hmethod Himport Hd Hparam Hbody.
  unfold pre. rewrite Happly, Hcheck.
  now rewrite (pre_body_import s1 kwargs1 d n body c).
Qed.

(** X12.  Whatever the terminal, the server and the parser of JSON do,
    [pre] does not raise a [ValueError]: within the [try] block it is
    turned into the exception of [utils.reraise], and nothing before the
    block raises one. *)
Theorem pre_never_raises_value_error s kwargs c text :
  fst (fst (pre v raw_spec depth world reraise s kwargs c))
  <> Fails (ValueError text).
Proof.
  unfold pre.
  destruct (_apply_arguments s kwargs) as [[s1 kwargs1]|e]; [|discriminate].
  destruct (_check_arguments raw_spec (self s1) kwargs1) as [[]|e];
    [|discriminate].
  destruct (pre_body v raw_spec depth world reraise s1 kwargs1 c)
    as [outcome c'] eqn:Hbody.
  cbn [fst]. intros ->. revert Hbody.
  unfold pre_body.
  destruct (dict_pop kwargs1 "import-data" (JObj [])) as [import_data kwargs2].
  destruct (dict_pop kwargs2 "stdin" JNull) as [stdin kwargs3].
  destruct (negb _); [discriminate|].
  unfold p_bind at 1, p_lift at 1.
  destruct (get_body_type_params v raw_spec _ _) as [param_data|e];
    [|discriminate].
  cbn [try]. unfold p_bind at 1, p_lift at 1.
  destruct (py_get param_data "name") as [param_name|e]; [|discriminate].
  cbn [try]. unfold p_bind at 1, p_lift at 1.
  destruct (body_param_names param_data) as [param_names|e]; [|discriminate].
  cbn [try]. unfold except_value_error.
  destruct (pre_try _ _ _ _ _ _ _ _ _ _ _ _) as [[prepared|[e|variable|text']] c''];
    discriminate.
Qed.

(** X13.  A PATCH request with [import-data]: the object that [pre]
    stores under the name of the body parameter is the object of
    [import-data] filtered with [filter_createonly=True]: a dictionary
    whose keys are declared properties that the object has, none of them
    read-only or listed in ['x-createOnly']. *)
Theorem pre_patch_import_data s kwargs s1 kwargs1 d n raw_json_object deeper
  prepared c c' :
  depth = S deeper ->
  _apply_arguments s kwargs = Ok (s1, kwargs1) ->
  upper (http_method (self s1)) = "PATCH" ->
  Dict.get kwargs1 "import-data" = Some (JObj d) ->
  d <> [] ->
  one_body_parameter v raw_spec s1 n ->
  Dict.get d n = Some raw_json_object ->
  pre v raw_spec depth world reraise s kwargs c = (Returns prepared, s1, c') ->
  exists kvs used,
    Dict.get (arguments prepared) n = Some (JObj kvs)
    /\ schema_in_use v raw_spec deeper raw_json_object (route (self s1))
         (http_method (self s1)) JNull JNull c used
    /\ forall k, Dict.mem kvs k = true ->
         exists cop props,
           py_get_default used "x-createOnly" (JStr "") = Ok cop
           /\ py_getitem used "properties" = Ok (JObj props)
           /\ let_through raw_json_object true cop props k.
Proof.
  intros -> Happly Hmethod Himport Hd (param_data & Hparams & Hnames & Hschema)
    Hbody.
  unfold pre. rewrite Happly.
  destruct (_check_arguments raw_spec (self s1) kwargs1) as [[]|e];
    [|discriminate].
  unfold pre_body, dict_pop. rewrite Himport, Hmethod.
  cbn [in_tuple existsb negb].
  change (String.eqb "PATCH" "PATCH") with true. cbn [orb negb].
  assert (Hname : exists param_name, py_get param_data "name" = Ok param_name).
  { unfold body_param_names in Hnames.
    destruct (py_get param_data "name") as [param_name|]; [eauto | discriminate]. }
  destruct Hname as (param_name & Hname).
  rewrite Hparams. cbn [try]. rewrite p_bind_returns.
  rewrite Hname. cbn [try]. rewrite p_bind_returns.
  rewrite Hnames. cbn [try]. rewrite p_bind_returns.
  unfold except_value_error, pre_try, acquire.
  assert (Htrue : truthy (JObj d) = true) by (now destruct d).
  rewrite Htrue. cbn [import_loop import_item try].
  rewrite Hbody. unfold p_bind at 3, p_lift at 1. rewrite Hmethod.
  change (String.eqb "PATCH" "PATCH") with true. cbv iota.
  unfold p_bind, filter_body, of_M.
  destruct (filter_json_object v raw_spec (S deeper) raw_json_object _ _ true
              JNull JNull c) as [[filtered|e] c1] eqn:Hfilter;
    cbn [try]; [|discriminate].
  cbn [p_ret fst snd p_lift].
  rewrite (pre_body_item_one param_data n (JStr n) raw_json_object filtered
             Hnames Hschema).
  cbn [try store_body fst snd]. intros [= <- <-].
  rewrite filter_json_object_body in Hfilter.
  bind_inv Hfilter as loaded Hloaded. lift_inv Hloaded.
  bind_inv Hfilter as resolved Hresolved.
  destruct resolved as [used reference']. cbn [fst snd] in Hfilter.
  destruct (filter_by_properties_lets_through _ _ _ _ _ _ _ _ _ Hfilter)
    as (kvs & -> & Hkeys).
  exists kvs, used. split.
  - cbn [arguments]. rewrite dict_get_set. now rewrite String.eqb_refl.
  - split; [|exact Hkeys]. exists loaded, reference', x. auto.
Qed.

(** X14.  [FarmRoleClone.pre] with a [farm_id]: the template of the
    request has no ["farm"], so that storing the identifier under it raises
    [KeyError] before anything else is done. *)
Theorem FarmRoleClone_pre_farm_id s kwargs c :
  truthy (dict_get_or_none kwargs "farm_id") = true ->
  FarmRoleClone_pre v raw_spec depth world reraise s kwargs c
  = (Fails (Exn (KeyError "farm")), s, c).
Proof.
  intros Htrue. unfold FarmRoleClone_pre, dict_pop.
  fold (dict_get_or_none (dict_remove kwargs "alias") "farm_id").
  rewrite get_or_none_remove. change (String.eqb "alias" "farm_id") with false.
  cbv iota. rewrite Htrue. reflexivity.
Qed.

End PreFacts.

Lemma pre_post_import_data_witness :
  @pre Reference.runtime OpenAPIv2 Cases.role_routes_v2 2 Cases.silence
    (fun text => ClickException (Msg text)) (Cases.session "post")
    [("import-data", JObj [("roleObject", Cases.whole_role)]);
     ("debug", JBool true)] ∅
  = (Returns {| arguments := [("roleObject", Cases.whole_role)];
                body_item := None |},
     set_debug_mode (Cases.session "post"), ∅).
Proof.
  apply (@pre_post_import_data Reference.runtime OpenAPIv2 Cases.role_routes_v2
           2 Cases.silence (fun text => ClickException (Msg text))
           (Cases.session "post") _ (set_debug_mode (Cases.session "post"))
           [("import-data", JObj [("roleObject", Cases.whole_role)])]
           [("roleObject", Cases.whole_role)] "roleObject" Cases.whole_role ∅);
    try reflexivity.
  - discriminate.
  - eexists. split; [reflexivity|]. split; [reflexivity|].
    exists Cases.role_request_schema, false. repeat split; try reflexivity.
    discriminate.
Defined.

Lemma pre_patch_import_data_witness :
  exists kvs used,
    Dict.get [("roleObject", JObj [("name", JStr "web")])] "roleObject"
    = Some (JObj kvs)
    /\ @schema_in_use Reference.runtime OpenAPIv2 Cases.role_routes_v2 1
         Cases.whole_role "/roles/" "patch" JNull JNull ∅ used
    /\ forall k, Dict.mem kvs k = true ->
         exists cop props,
           py_get_default used "x-createOnly" (JStr "") = Ok cop
           /\ py_getitem used "properties" = Ok (JObj props)
           /\ let_through Cases.whole_role true cop props k.
Proof.
  apply (@pre_patch_import_data Reference.runtime OpenAPIv2 Cases.role_routes_v2
           2 Cases.silence (fun text => ClickException (Msg text))
           (Cases.session "patch")
           [("import-data", JObj [("roleObject", Cases.whole_role)])]
           (Cases.session "patch")
           [("import-data", JObj [("roleObject", Cases.whole_role)])]
           [("roleObject", Cases.whole_role)] "roleObject" Cases.whole_role 1
           {| arguments := [("roleObject", JObj [("name", JStr "web")])];
              body_item := None |} ∅ ∅);
    try reflexivity.
  - discriminate.
  - eexists. split; [reflexivity|]. split; [reflexivity|].
    exists Cases.role_request_schema, false. repeat split; try reflexivity.
    discriminate.
Defined.

Lemma FarmRoleClone_pre_farm_id_witness :
  @FarmRoleClone_pre Reference.runtime OpenAPIv2 Cases.role_routes_v2 2
    Cases.silence (fun text => ClickException (Msg text)) (Cases.session "post")
    [("alias", JStr "copy"); ("farm_id", JStr "7")] ∅
  = (Fails (Exn (KeyError "farm")), Cases.session "post", ∅).
Proof.
  apply (@FarmRoleClone_pre_farm_id Reference.runtime OpenAPIv2
           Cases.role_routes_v2 2 Cases.silence
           (fun text => ClickException (Msg text))).
  reflexivity.
Defined.

(** * The subclasses that build the body themselves *)

Lemma dict_update_fresh kwargs : forall acc,
  Dict.nodup_keys kwargs = true ->
  (forall kv, In kv kwargs -> Dict.get acc (fst kv) = None) ->
  dict_update acc kwargs = acc ++ kwargs.
Proof.
  unfold dict_update.
  induction kwargs as [|[k x] rest IH]; intros acc Hnodup Hfresh;
    cbn [fold_left fst snd].
  - now rewrite app_nil_r.
  - cbn [Dict.nodup_keys] in Hnodup. apply andb_prop in Hnodup as [Hk Hrest].
    apply negb_true_iff in Hk.
    rewrite (dict_set_fresh acc k x (Hfresh (k, x) (or_introl eq_refl))).
    rewrite IH; [now rewrite <- app_assoc | exact Hrest |].
    intros kv Hin. apply dict_get_app_fresh.
    + apply Hfresh. now right.
    + intros ->. now apply (dict_mem_false_ne rest (fst kv) Hk kv Hin).
Qed.

Lemma dict_update_import_data post_data kwargs :
  Dict.nodup_keys kwargs = true ->
  Dict.mem kwargs "import-data" = false ->
  dict_update [("import-data", post_data)] kwargs
  = ("import-data", post_data) :: kwargs.
Proof.
  intros Hnodup Hmem. apply (dict_update_fresh kwargs [_] Hnodup).
  intros kv Hin. cbn [Dict.get].
  destruct (String.eqb_spec "import-data" (fst kv)) as [Heq|_]; [|reflexivity].
  now destruct (dict_mem_false_ne kwargs "import-data" Hmem kv Hin).
Qed.

Lemma dict_remove_absent kwargs k :
  Dict.mem kwargs k = false -> dict_remove kwargs k = kwargs.
Proof.
  unfold Dict.mem. induction kwargs as [|[k0 x] rest IH];
    cbn [Dict.get dict_remove]; [reflexivity|].
  destruct (String.eqb k0 k); [discriminate|]. intros Hrest. now rewrite IH.
Qed.

Lemma nodup_keys_remove kwargs k :
  Dict.nodup_keys kwargs = true -> Dict.nodup_keys (dict_remove kwargs k) = true.
Proof.
  induction kwargs as [|[k0 x] rest IH]; cbn [Dict.nodup_keys dict_remove];
    [reflexivity|].
  intros Hnodup. apply andb_prop in Hnodup as [Hk Hrest].
  destruct (String.eqb k0 k); [auto|].
  cbn [Dict.nodup_keys]. rewrite (IH Hrest), andb_true_r.
  rewrite dict_mem_remove. apply negb_true_iff in Hk. rewrite Hk.
  now rewrite andb_false_r.
Qed.

(** Without filters, [_apply_arguments] leaves [import-data] where it is. *)
Lemma apply_arguments_import_data s post_data kwargs :
  truthy (dict_get_or_none kwargs "filters") = false ->
  _apply_arguments s (("import-data", post_data) :: kwargs)
  = match _apply_arguments s kwargs with
    | Ok (s1, kwargs1) => Ok (s1, ("import-data", post_data) :: kwargs1)
    | Raise e => Raise e
    end.
Proof.
  intros Hfilters. unfold _apply_arguments, pop_flag, dict_pop, dict_get_or_none in *.
  cbn [Dict.get dict_remove String.eqb Ascii.eqb Bool.eqb].
  rewrite Hfilters. rewrite !rbind_ok.
  cbn [Dict.get dict_remove String.eqb Ascii.eqb Bool.eqb].
  destruct (truthy match Dict.get kwargs "columns" with
                   | Some x => x | None => JNull end).
  - destruct (py_split_value "," _) as [columns|e];
      [|now rewrite !rbind_raise].
    rewrite !rbind_ok.
    cbn [Dict.get dict_remove String.eqb Ascii.eqb Bool.eqb].
    match goal with
    | |- context [truthy match Dict.get ?d "transformation" with
                         | Some x => x | None => JNull end] =>
        destruct (truthy match Dict.get d "transformation" with
                         | Some x => x | None => JNull end)
    end; reflexivity.
  - rewrite !rbind_ok.
    cbn [Dict.get dict_remove String.eqb Ascii.eqb Bool.eqb].
    match goal with
    | |- context [truthy match Dict.get ?d "transformation" with
                         | Some x => x | None => JNull end] =>
        destruct (truthy match Dict.get d "transformation" with
                         | Some x => x | None => JNull end)
    end; reflexivity.
Qed.

Section SubclassFacts.
Context `{Runtime}.
Variable v : version.
Variable raw_spec : json.
Variable depth : nat.
Variable world : World.
Variable reraise : string -> exn.

(** A subclass that passes a dictionary with the object of the body
    parameter: the object is what a POST request sends. *)
Lemma pre_with_import_data_post s kwargs s1 kwargs1 d n body c :
  plain_arguments kwargs ->
  _apply_arguments s kwargs = Ok (s1, kwargs1) ->
  _check_arguments raw_spec (self s1) (("import-data", JObj d) :: kwargs1)
  = Ok tt ->
  upper (http_method (self s1)) = "POST" ->
  one_body_parameter v raw_spec s1 n ->
  Dict.get d n = Some body ->
  pre_with_import_data v raw_spec depth world reraise s (Ok (JObj d)) kwargs c
  = (Returns {| arguments := Dict.set (passed_on kwargs1) n body;
                body_item := None |}, s1, c).
Proof.
  intros (Hnodup & Himport & Hfilters) Happly Hcheck Hmethod Hparam Hbody.
  unfold pre_with_import_data, pre.
  rewrite (dict_update_import_data _ kwargs Hnodup Himport).
  rewrite (apply_arguments_import_data s _ kwargs Hfilters), Happly, Hcheck.
  assert (Hd : d <> []) by (intros ->; discriminate).
  rewrite (pre_body_import v raw_spec depth world reraise s1
             (("import-data", JObj d) :: kwargs1) d n body c
             Hmethod eq_refl Hd Hparam Hbody).
  reflexivity.
Qed.

Lemma plain_arguments_remove kwargs k :
  plain_arguments kwargs -> k <> "filters" ->
  plain_arguments (dict_remove kwargs k).
Proof.
  intros (Hnodup & Himport & Hfilters) Hk. split; [|split].
  - now apply nodup_keys_remove.
  - rewrite dict_mem_remove, Himport. now rewrite andb_false_r.
  - rewrite get_or_none_remove.
    destruct (String.eqb_spec k "filters"); [contradiction | exact Hfilters].
Qed.

(** X15.  [RoleClone.pre] sends the name: for arguments as the command
    line gives them, what a POST request to a route with the body
    parameter [cloneRoleRequest] gets under this name is the object
    [{"name": name}] with the value of the option [name], which is [None]
    when the option is absent. *)
Theorem RoleClone_pre_sends_name s kwargs s1 kwargs1 c :
  plain_arguments kwargs ->
  _apply_arguments s (dict_remove kwargs "name") = Ok (s1, kwargs1) ->
  _check_arguments raw_spec (self s1)
    (("import-data",
      JObj [("cloneRoleRequest",
             JObj [("name", dict_get_or_none kwargs "name")])]) :: kwargs1)
  = Ok tt ->
  upper (http_method (self s1)) = "POST" ->
  one_body_parameter v raw_spec s1 "cloneRoleRequest" ->
  RoleClone_pre v raw_spec depth world reraise s kwargs c
  = (Returns {| arguments :=
                  Dict.set (passed_on kwargs1) "cloneRoleRequest"
                    (JObj [("name", dict_get_or_none kwargs "name")]);
                body_item := None |}, s1, c).
Proof.
  intros Hplain Happly Hcheck Hmethod Hparam.
  unfold RoleClone_pre, dict_pop. fold (dict_get_or_none kwargs "name").
  cbn [set_nested RoleClone_post_template py_getitem Dict.get String.eqb
       Ascii.eqb Bool.eqb rbind set_item Dict.set].
  apply pre_with_import_data_post; auto.
  now apply plain_arguments_remove.
Qed.

(** X16.  [RoleDeprecate.pre] sends the request that its options
    describe: [deprecate] is true unless [revert] is given, and
    [replacement] is there, as [{"id": replacement}], when a replacement
    is given. *)
Theorem RoleDeprecate_pre_sends_request s kwargs s1 kwargs1 c :
  plain_arguments kwargs ->
  let replacement := dict_get_or_none kwargs "replacement" in
  let revert := dict_get_or_none kwargs "revert" in
  let request := deprecation_request replacement revert in
  _apply_arguments s (dict_remove (dict_remove kwargs "replacement") "revert")
  = Ok (s1, kwargs1) ->
  _check_arguments raw_spec (self s1)
    (("import-data", JObj [("deprecateRoleRequest", request)]) :: kwargs1)
  = Ok tt ->
  upper (http_method (self s1)) = "POST" ->
  one_body_parameter v raw_spec s1 "deprecateRoleRequest" ->
  RoleDeprecate_pre v raw_spec depth world reraise s kwargs c
  = (Returns {| arguments :=
                  Dict.set (passed_on kwargs1) "deprecateRoleRequest" request;
                body_item := None |}, s1, c).
Proof.
  intros Hplain replacement revert request Happly Hcheck Hmethod Hparam.
  unfold RoleDeprecate_pre, dict_pop.
  fold (dict_get_or_none kwargs "replacement"). fold replacement.
  assert (Hrevert :
    match Dict.get (dict_remove kwargs "replacement") "revert" with
    | Some x => x
    | None => JBool false
    end = revert
    \/ (match Dict.get (dict_remove kwargs "replacement") "revert" with
        | Some x => x
        | None => JBool false
        end = JBool false /\ revert = JNull)).
  { unfold revert, dict_get_or_none. rewrite dict_get_remove.
    change (String.eqb "replacement" "revert") with false. cbv iota.
    destruct (Dict.get kwargs "revert"); auto. }
  assert (Hdata :
    (post_data <-
       (if truthy replacement
        then set_nested RoleDeprecate_post_template ["deprecateRoleRequest"]
               "replacement" (JObj [("id", replacement)])
        else Ok RoleDeprecate_post_template) ;;
     if truthy match Dict.get (dict_remove kwargs "replacement") "revert" with
               | Some x => x
               | None => JBool false
               end
     then set_nested post_data ["deprecateRoleRequest"] "deprecate" (JBool false)
     else Ok post_data)%res
    = Ok (JObj [("deprecateRoleRequest", request)])).
  { assert (Htruthy :
      truthy match Dict.get (dict_remove kwargs "replacement") "revert" with
             | Some x => x
             | None => JBool false
             end = truthy revert).
    { destruct Hrevert as [->|[-> ->]]; reflexivity. }
    rewrite Htruthy. unfold request, deprecation_request.
    destruct (truthy replacement), (truthy revert); reflexivity. }
  rewrite Hdata.
  apply pre_with_import_data_post; auto.
  apply plain_arguments_remove; [|discriminate].
  apply plain_arguments_remove; [exact Hplain | discriminate].
Qed.

Lemma check_param_import_data x kwargs param :
  py_get param "name" <> Ok (JStr "import-data") ->
  check_param (("import-data", x) :: kwargs) param = check_param kwargs param.
Proof.
  intros Hname. unfold check_param.
  destruct (py_get param "pattern") as [pattern|e]; [|reflexivity].
  rewrite !rbind_ok.
  destruct (py_get param "name") as [param_name|e]; [|reflexivity].
  rewrite !rbind_ok.
  destruct (truthy pattern && truthy param_name); [|reflexivity].
  destruct param_name as [| | |k| |]; try reflexivity.
  assert (Hk : String.eqb "import-data" k = false).
  { destruct (String.eqb_spec "import-data" k) as [<-|_];
      [now destruct Hname | reflexivity]. }
  unfold kwargs_mem, kwargs_get, Dict.mem. cbn [Dict.get]. now rewrite Hk.
Qed.

Lemma check_params_import_data x kwargs params :
  (forall param, In param params ->
     py_get param "name" <> Ok (JStr "import-data")) ->
  check_params (("import-data", x) :: kwargs) params = check_params kwargs params.
Proof.
  induction params as [|param rest IH]; intros Hnames; cbn [check_params];
    [reflexivity|].
  rewrite check_param_import_data by (apply Hnames; now left).
  rewrite IH; [reflexivity|]. intros param' Hin. apply Hnames. now right.
Qed.

Lemma check_arguments_import_data x action kwargs :
  no_parameter_named raw_spec (route action) "import-data" ->
  _check_arguments raw_spec action (("import-data", x) :: kwargs)
  = _check_arguments raw_spec action kwargs.
Proof.
  intros Hnames. unfold _check_arguments.
  destruct (py_getitem raw_spec "paths") as [paths|e] eqn:Hpaths; [|reflexivity].
  rewrite !rbind_ok.
  destruct (py_getitem paths (route action)) as [route_data|e] eqn:Hroute;
    [|reflexivity].
  rewrite !rbind_ok.
  destruct (py_in "parameters" route_data) as [[|]|e]; try reflexivity.
  rewrite !rbind_ok. cbn [negb].
  destruct (py_getitem route_data "parameters") as [parameters|e] eqn:Hparameters;
    [|reflexivity].
  rewrite !rbind_ok.
  destruct (py_iter parameters) as [params|e] eqn:Hparams; [|reflexivity].
  rewrite !rbind_ok. apply check_params_import_data.
  intros param Hin.
  exact (Hnames paths route_data parameters params param Hpaths Hroute
           Hparameters Hparams Hin).
Qed.

Lemma apply_arguments_route s kwargs s1 kwargs1 :
  _apply_arguments s kwargs = Ok (s1, kwargs1) ->
  route (self s1) = route (self s).
Proof.
  intros Hrun.
  destruct (apply_arguments_stages s kwargs s1 kwargs1 Hrun)
    as (kw1 & s2 & kw2 & _ & _ & Hcolumns & Hrest).
  cbv zeta in Hrest.
  assert (Hs2 : route (self s2) = route (self s)).
  { destruct (truthy (dict_get_or_none kw1 "columns")).
    - now destruct Hcolumns as (text & _ & -> & _).
    - now destruct Hcolumns as [-> _]. }
  rewrite <- Hs2.
  destruct (truthy (dict_get_or_none kw1 "transformation")),
    (truthy (dict_get_or_none kw1 "nocolor")),
    (truthy (dict_get_or_none kw1 "debug")),
    (truthy (dict_get_or_none kw1 "dryrun")),
    (truthy (dict_get_or_none kw1 "strip_metadata"));
    destruct Hrest as [-> _]; reflexivity.
Qed.

Lemma apply_arguments_absent s kwargs s1 kwargs1 k :
  truthy (dict_get_or_none kwargs "filters") = false ->
  Dict.mem kwargs k = false ->
  _apply_arguments s kwargs = Ok (s1, kwargs1) ->
  Dict.mem kwargs1 k = false.
Proof.
  intros Hfilters Hmem Hrun.
  destruct (apply_arguments_stages s kwargs s1 kwargs1 Hrun)
    as (kw1 & s2 & kw2 & _ & Hsame & Hcolumns & Hrest).
  cbv zeta in Hrest. rewrite (Hsame Hfilters) in *.
  assert (Hkw2 : Dict.mem kw2 k = false).
  { destruct (truthy (dict_get_or_none kwargs "columns")).
    - destruct Hcolumns as (text & _ & _ & ->).
      rewrite dict_mem_remove, Hmem. now rewrite andb_false_r.
    - now destruct Hcolumns as [_ ->]. }
  destruct (truthy (dict_get_or_none kwargs "transformation"));
    destruct Hrest as [_ ->]; rewrite !dict_mem_remove, Hkw2;
    now rewrite !andb_false_r.
Qed.

(** X17.  [LaunchServer.pre] and [RolePromote.pre] change nothing: the
    empty dictionary that they pass as [import-data] is what [pre] takes
    when there is none, so that for arguments as the command line gives
    them they do what [Action.pre] does. *)
Theorem empty_import_data_is_none s kwargs c :
  plain_arguments kwargs ->
  no_parameter_named raw_spec (route (self s)) "import-data" ->
  LaunchServer_pre v raw_spec depth world reraise s kwargs c
  = pre v raw_spec depth world reraise s kwargs c
  /\ RolePromote_pre v raw_spec depth world reraise s kwargs c
     = pre v raw_spec depth world reraise s kwargs c.
Proof.
  intros (Hnodup & Himport & Hfilters) Hnames.
  assert (Hsame :
    pre_with_import_data v raw_spec depth world reraise s (Ok (JObj [])) kwargs c
    = pre v raw_spec depth world reraise s kwargs c).
  { unfold pre_with_import_data, pre.
    rewrite (dict_update_import_data _ kwargs Hnodup Himport).
    rewrite (apply_arguments_import_data s _ kwargs Hfilters).
    destruct (_apply_arguments s kwargs) as [[s1 kwargs1]|e] eqn:Happly;
      [|reflexivity].
    rewrite check_arguments_import_data
      by (now rewrite (apply_arguments_route s kwargs s1 kwargs1 Happly)).
    destruct (_check_arguments raw_spec (self s1) kwargs1) as [[]|e];
      [|reflexivity].
    pose proof (apply_arguments_absent s kwargs s1 kwargs1 "import-data"
                  Hfilters Himport Happly) as Habsent.
    unfold pre_body, dict_pop. cbn [Dict.get dict_remove String.eqb Ascii.eqb
                                      Bool.eqb].
    unfold Dict.mem in Habsent.
    destruct (Dict.get kwargs1 "import-data"); [discriminate | reflexivity]. }
  split; exact Hsame.
Qed.

End SubclassFacts.

Lemma RoleClone_pre_sends_name_witness :
  @RoleClone_pre Reference.runtime OpenAPIv2
    (Cases.request_route "cloneRoleRequest") 2 Cases.silence
    (fun text => ClickException (Msg text)) (Cases.session "post")
    [("name", JStr "copy"); ("roleId", JStr "9")] ∅
  = (Returns {| arguments := [("roleId", JStr "9");
                              ("cloneRoleRequest", JObj [("name", JStr "copy")])];
                body_item := None |}, Cases.session "post", ∅).
Proof.
  apply (@RoleClone_pre_sends_name Reference.runtime OpenAPIv2
           (Cases.request_route "cloneRoleRequest") 2 Cases.silence
           (fun text => ClickException (Msg text)) (Cases.session "post")
           [("name", JStr "copy"); ("roleId", JStr "9")]
           (Cases.session "post") [("roleId", JStr "9")] ∅);
    try reflexivity.
  - repeat split; reflexivity.
  - eexists. split; [reflexivity|]. split; [reflexivity|].
    exists (JObj []), false. repeat split; try reflexivity. discriminate.
Defined.

Lemma RoleDeprecate_pre_sends_request_witness :
  @RoleDeprecate_pre Reference.runtime OpenAPIv2
    (Cases.request_route "deprecateRoleRequest") 2 Cases.silence
    (fun text => ClickException (Msg text)) (Cases.session "post")
    [("roleId", JStr "9"); ("replacement", JStr "12"); ("revert", JBool false)] ∅
  = (Returns {| arguments :=
                  [("roleId", JStr "9");
                   ("deprecateRoleRequest",
                    JObj [("deprecate", JBool true);
                          ("replacement", JObj [("id", JStr "12")])])];
                body_item := None |}, Cases.session "post", ∅).
Proof.
  apply (@RoleDeprecate_pre_sends_request Reference.runtime OpenAPIv2
           (Cases.request_route "deprecateRoleRequest") 2 Cases.silence
           (fun text => ClickException (Msg text)) (Cases.session "post")
           [("roleId", JStr "9"); ("replacement", JStr "12");
            ("revert", JBool false)]
           (Cases.session "post") [("roleId", JStr "9")] ∅);
    try reflexivity.
  - repeat split; reflexivity.
  - eexists. split; [reflexivity|]. split; [reflexivity|].
    exists (JObj []), false. repeat split; try reflexivity. discriminate.
Defined.

Lemma empty_import_data_is_none_witness :
  @LaunchServer_pre Reference.runtime OpenAPIv2
    (Cases.request_route "launchRequest") 2 Cases.silence
    (fun text => ClickException (Msg text)) (Cases.session "post")
    [("farmRoleId", JStr "4")] ∅
  = @pre Reference.runtime OpenAPIv2
      (Cases.request_route "launchRequest") 2 Cases.silence
      (fun text => ClickException (Msg text)) (Cases.session "post")
      [("farmRoleId", JStr "4")] ∅
  /\ @RolePromote_pre Reference.runtime OpenAPIv2
       (Cases.request_route "launchRequest") 2 Cases.silence
       (fun text => ClickException (Msg text)) (Cases.session "post")
       [("farmRoleId", JStr "4")] ∅
     = @pre Reference.runtime OpenAPIv2
         (Cases.request_route "launchRequest") 2 Cases.silence
         (fun text => ClickException (Msg text)) (Cases.session "post")
         [("farmRoleId", JStr "4")] ∅.
Proof.
  apply (@empty_import_data_is_none Reference.runtime OpenAPIv2
           (Cases.request_route "launchRequest") 2 Cases.silence
           (fun text => ClickException (Msg text))).
  - repeat split; reflexivity.
  - intros paths route_data parameters params param [= <-] [= <-] Hparameters.
    discriminate Hparameters.
Defined.

(** * More of [_format_response] *)

Lemma io_bind_quiet {A B} (m : IO A) (k : A -> IO B) :
  nothing_echoed (fst m) ->
  (forall a, nothing_echoed (fst (k a))) ->
  nothing_echoed (fst (io_bind m k)).
Proof.
  intros Hm Hk. destruct m as [out [a|e]]; cbn [io_bind fst] in *.
  - specialize (Hk a). destruct (k a) as [out' r]. cbn [fst] in *.
    apply Forall_app. split; assumption.
  - exact Hm.
Qed.

Lemma io_lift_quiet {A} (r : result A) : nothing_echoed (fst (io_lift r)).
Proof. constructor. Qed.

Lemma first_matching_from test kwargs deleted_id value :
  first_matching test kwargs deleted_id = value ->
  value = deleted_id
  \/ exists param, In (param, value) kwargs /\ test param = true.
Proof.
  induction kwargs as [|[param x] rest IH]; cbn [first_matching].
  - intros <-. now left.
  - destruct (test param) eqn:Htest.
    + intros <-. right. exists param. split; [now left | exact Htest].
    + intros Hrest. destruct (IH Hrest) as [->|(param' & Hin & Htest')];
        [now left | right].
      exists param'. split; [now right | exact Htest'].
Qed.

Section FormatResponseFacts.
Context `{Runtime}.

(** X18.  With [hidden=True] nothing is rendered, whatever the response,
    the view and the options: [_format_response] gives warnings and debug
    messages only. *)
Theorem format_response_hidden self spec settings_view response kwargs :
  nothing_echoed
    (fst (_format_response self spec settings_view response true kwargs)).
Proof.
  unfold _format_response.
  destruct (negb (String.eqb (body_text response) "")).
  - destruct (body_json response) as [response_json|].
    + apply io_bind_quiet; [apply io_lift_quiet | intros errors].
      apply io_bind_quiet; [apply io_lift_quiet | intros warnings].
      apply io_bind_quiet.
      { destruct (truthy warnings); [|constructor].
        apply io_bind_quiet; [apply io_lift_quiet | intros _].
        repeat constructor. }
      intros _. destruct (truthy errors).
      * apply io_bind_quiet; [apply io_lift_quiet | intros errmsg]. constructor.
      * cbn [negb]. apply io_bind_quiet; [constructor | intros _].
        apply io_bind_quiet.
        { unfold strip_envelope.
          destruct (strip_metadata self && _ && _); [|constructor].
          apply io_bind_quiet; [apply io_lift_quiet | intros has_data].
          destruct has_data; [|constructor].
          apply io_bind_quiet; [apply io_lift_quiet | intros data]. constructor. }
        intros [rendered response_json'].
        apply io_bind_quiet; [constructor | intros _; constructor].
    + apply io_bind_quiet; [repeat constructor | intros _; constructor].
  - destruct (String.eqb (upper (http_method self)) "DELETE"); constructor.
Qed.

(** X19.  What a deletion reports.  For a DELETE request with an empty
    response, [_format_response] renders nothing and returns the text
    ["Deleted <id>"], where the identifier is empty or is the value of an
    argument that may name what was deleted: never that of [envId] or
    [accountId] for their having ["Id"] in their name. *)
Theorem format_response_deleted self spec settings_view response hidden kwargs :
  body_text response = "" ->
  upper (http_method self) = "DELETE" ->
  exists deleted_id,
    _format_response self spec settings_view response hidden kwargs
    = ([], Ok (Some ("Deleted " +:+ py_str deleted_id)))
    /\ (deleted_id = JStr ""
        \/ exists param, In (param, deleted_id) kwargs
                         /\ names_deleted self param).
Proof.
  intros Hempty Hmethod. unfold _format_response.
  rewrite Hempty, Hmethod. cbn [String.eqb negb]. cbv zeta.
  eexists. split; [reflexivity|].
  set (target := match delete_target self with
                 | Some t => match Dict.get kwargs t with
                             | Some x => x
                             | None => JStr ""
                             end
                 | None => JStr ""
                 end).
  assert (Htarget : py_or target (JStr "") = JStr ""
                    \/ exists param, In (param, py_or target (JStr "")) kwargs
                                     /\ names_deleted self param).
  { unfold py_or, target. destruct (delete_target self) as [t|] eqn:Ht;
      [|now left].
    destruct (Dict.get kwargs t) as [x|] eqn:Hget; [|now left].
    destruct (truthy x); [|now left].
    right. exists t. split; [now apply dict_get_in | now left]. }
  set (d0 := py_or target (JStr "")) in *.
  set (by_id := fun param : string =>
                  is_substring "Id" param
                  && negb (in_tuple param ["envId"; "accountId"])).
  set (d1 := if negb (truthy d0) then first_matching by_id kwargs d0 else d0).
  assert (Hd1 : d1 = JStr ""
                \/ exists param, In (param, d1) kwargs
                                 /\ names_deleted self param).
  { unfold d1. destruct (truthy d0); cbn [negb]; [exact Htarget|].
    destruct (first_matching_from by_id kwargs d0 _ eq_refl)
      as [->|(param & Hin & Htest)]; [exact Htarget | right].
    exists param. split; [exact Hin|]. right. left.
    unfold by_id in Htest. apply andb_prop in Htest as [Hid Hnot].
    apply negb_true_iff in Hnot. auto. }
  destruct (truthy d1); cbn [negb]; [exact Hd1|].
  match goal with
  | |- context [first_matching ?test kwargs d1] =>
      destruct (first_matching_from test kwargs d1 _ eq_refl)
        as [->|(param & Hin & Htest)]
  end; [exact Hd1 | right].
  exists param. split; [exact Hin|]. right. now right.
Qed.

End FormatResponseFacts.

Lemma format_response_deleted_witness :
  exists deleted_id,
    @_format_response Reference.runtime (Sample.action "delete" false)
      Sample.no_spec "table" {| body_text := ""; body_json := None |} false
      [("envId", JStr "3"); ("roleId", JNum 9)]
    = ([], Ok (Some ("Deleted " +:+ @py_str Reference.runtime deleted_id)))
    /\ (deleted_id = JStr ""
        \/ exists param,
             In (param, deleted_id) [("envId", JStr "3"); ("roleId", JNum 9)]
             /\ names_deleted (Sample.action "delete" false) param).
Proof.
  apply (@format_response_deleted Reference.runtime); reflexivity.
Defined.

(** * The request *)

Lemma dict_set_in d key value k x :
  In (k, x) (Dict.set d key value) -> (k = key /\ x = value) \/ In (k, x) d.
Proof.
  induction d as [|[k0 x0] d IH]; cbn [Dict.set].
  - intros [[= <- <-]|[]]. now left.
  - destruct (String.eqb_spec k0 key) as [->|Hne].
    + intros [[= <- <-]|Hin]; [now left | right; now right].
    + intros [[= <- <-]|Hin]; [right; now left|].
      destruct (IH Hin) as [Heq|Hin']; [now left | right; now right].
Qed.

Section RequestFacts.
Context `{Runtime}.
Variable v : version.
Variable raw_spec : json.
Variable _request_template : string.
Variable format : string -> list (string * json) -> result string.

Lemma collect_partition s items : forall payload data payload' data',
  collect v raw_spec _request_template s items payload data
  = Returns (payload', data') ->
  (forall k x, In (k, x) payload' ->
     In (k, x) payload
     \/ (in_tuple (upper (http_method (self s))) ["GET"; "DELETE"] = true
         /\ In (k, x) items
         /\ truthy x = true
         /\ is_substring ("{" +:+ k +:+ "}") _request_template = false))
  /\ (in_tuple (upper (http_method (self s))) ["GET"; "DELETE"] = true ->
      data' = data)
  /\ (in_tuple (upper (http_method (self s))) ["GET"; "DELETE"] = false ->
      payload' = payload).
Proof.
  induction items as [|[key value] rest IH]; intros payload data payload' data'.
  - intros [= <- <-]. auto.
  - cbn [collect].
    assert (Hskip :
      collect v raw_spec _request_template s rest payload data
      = Returns (payload', data') ->
      (forall k x, In (k, x) payload' ->
         In (k, x) payload
         \/ (in_tuple (upper (http_method (self s))) ["GET"; "DELETE"] = true
             /\ In (k, x) ((key, value) :: rest)
             /\ truthy x = true
             /\ is_substring ("{" +:+ k +:+ "}") _request_template = false))
      /\ (in_tuple (upper (http_method (self s))) ["GET"; "DELETE"] = true ->
          data' = data)
      /\ (in_tuple (upper (http_method (self s))) ["GET"; "DELETE"] = false ->
          payload' = payload)).
    { intros Hrest. destruct (IH _ _ _ _ Hrest) as (Hpayload & Hdata & Hnone).
      split; [|auto]. intros k x Hin.
      destruct (Hpayload k x Hin) as [Hold|(Hm & Hin' & Hrest')]; [now left|].
      right. split; [exact Hm|]. split; [now right | exact Hrest']. }
    destruct (truthy value) eqn:Htrue; cbn [andb]; [|exact Hskip].
    destruct (is_substring ("{" +:+ key +:+ "}") _request_template) eqn:Hpath;
      cbn [negb]; [exact Hskip|].
    destruct (get_body_type_params v raw_spec _ _) as [body_params|e];
      cbn [try abind]; [|discriminate].
    destruct (in_tuple (upper (http_method (self s))) ["GET"; "DELETE"])
      eqn:Hmethod.
    + intros Hrest. destruct (IH _ _ _ _ Hrest) as (Hpayload & Hdata & Hnone).
      split; [|split; [exact Hdata | discriminate]].
      intros k x Hin.
      destruct (Hpayload k x Hin) as [Hold|(Hm & Hin' & Hrest')].
      * destruct (dict_set_in _ _ _ _ _ Hold) as [[-> ->]|Hold']; [|now left].
        right. split; [reflexivity|]. split; [now left | auto].
      * right. split; [reflexivity|]. split; [now right | exact Hrest'].
    + destruct (truthy body_params); [|exact Hskip].
      destruct (py_getitem body_params "name") as [names|e];
        cbn [try abind]; [|discriminate].
      destruct (py_contains (JStr key) names) as [[|]|e];
        cbn [try abind]; [| exact Hskip | discriminate].
      destruct (py_update data value) as [data1|e]; cbn [abind]; [|discriminate].
      intros Hrest. destruct (IH _ _ _ _ Hrest) as (Hpayload & Hdata & Hnone).
      split; [|split; [discriminate | exact Hnone]].
      intros k x Hin.
      destruct (Hpayload k x Hin) as [Hold|(Hm & _)]; [now left | discriminate].
Qed.

(** X20.  What goes where in a request.  The query of a request has
    arguments only for GET and DELETE: each is an argument with a true
    value whose name is not a parameter of the path, and the body is then
    empty; for every other method the query is empty. *)
Theorem request_of_partition s prepared request :
  request_of v raw_spec _request_template format s prepared = Returns request ->
  let kwargs :=
    with_default _request_template "accountId" (accountId (settings s))
      (with_default _request_template "envId" (envId (settings s))
         (arguments prepared)) in
  let reads := in_tuple (upper (http_method (self s))) ["GET"; "DELETE"] in
  (forall k x, In (k, x) (request_payload request) ->
     reads = true
     /\ In (k, x) kwargs
     /\ truthy x = true
     /\ is_substring ("{" +:+ k +:+ "}") _request_template = false)
  /\ (reads = true -> request_data request = [])
  /\ (reads = false -> request_payload request = []).
Proof.
  intros Hrun kwargs reads. unfold request_of in Hrun. cbv zeta in Hrun.
  fold kwargs in Hrun. clearbody kwargs.
  destruct kwargs as [|kv rest].
  - destruct (body_item prepared); [discriminate|].
    injection Hrun as <-. cbn [request_payload request_data]. split; [intros k x []|auto].
  - destruct (body_item prepared); [discriminate|].
    destruct (format _request_template (kv :: rest)) as [formatted|e];
      cbn [try abind] in Hrun; [|discriminate].
    destruct (collect v raw_spec _request_template s (kv :: rest) [] [])
      as [[payload' data']|e] eqn:Hcollect; cbn [abind] in Hrun; [|discriminate].
    injection Hrun as <-. cbn [request_payload request_data fst snd].
    destruct (collect_partition s _ _ _ _ _ Hcollect) as (Hpayload & Hdata & Hnone).
    split; [|auto]. intros k x Hin.
    destruct (Hpayload k x Hin) as [[]|Hnew]. exact Hnew.
Qed.

Lemma collect_body s n d body_params :
  in_tuple (upper (http_method (self s))) ["GET"; "DELETE"] = false ->
  get_body_type_params v raw_spec (route (self s)) (http_method (self s))
  = Ok body_params ->
  truthy body_params = true ->
  py_getitem body_params "name" = Ok (JArr [JStr n]) ->
  d <> [] ->
  is_substring ("{" +:+ n +:+ "}") _request_template = false ->
  forall items payload data payload' data',
    Dict.nodup_keys items = true ->
    collect v raw_spec _request_template s items payload data
    = Returns (payload', data') ->
    match Dict.get items n with
    | Some body =>
        body = JObj d ->
        data' = fold_left (fun acc kv => pydict_set acc (JStr (fst kv)) (snd kv))
                  d data
    | None => data' = data
    end.
Proof.
  intros Hmethod Hparams Htrue Hnames Hd Hpath.
  induction items as [|[key value] rest IH]; intros payload data payload' data'
    Hnodup Hrun.
  - now injection Hrun as _ <-.
  - cbn [Dict.nodup_keys] in Hnodup. apply andb_prop in Hnodup as [Hkey Hrest].
    apply negb_true_iff in Hkey. unfold Dict.mem in Hkey.
    cbn [collect] in Hrun. cbn [Dict.get].
    assert (Hstep :
      collect v raw_spec _request_template s rest payload
        (if truthy value
            && negb (is_substring ("{" +:+ key +:+ "}") _request_template)
            && String.eqb key n
         then match py_update data value with
              | Returns data1 => data1
              | Fails _ => data
              end
         else data)
      = Returns (payload', data')
      /\ (truthy value
          && negb (is_substring ("{" +:+ key +:+ "}") _request_template)
          && String.eqb key n = true ->
          exists data1, py_update data value = Returns data1)).
    { destruct (truthy value
                && negb (is_substring ("{" +:+ key +:+ "}") _request_template));
        cbn [andb]; [|split; [exact Hrun | discriminate]].
      rewrite Hparams in Hrun. cbn [try abind] in Hrun.
      rewrite Hmethod, Htrue, Hnames in Hrun. cbn [try abind] in Hrun.
      cbn [py_contains existsb py_eq orb] in Hrun. rewrite orb_false_r in Hrun.
      destruct (String.eqb key n); cbn [try abind] in Hrun;
        [|split; [exact Hrun | discriminate]].
      destruct (py_update data value) as [data1|e]; cbn [abind] in Hrun;
        [|discriminate].
      split; [exact Hrun | eauto]. }
    destruct Hstep as [Hrest' Hupdate].
    specialize (IH _ _ _ _ Hrest Hrest').
    destruct (String.eqb_spec key n) as [->|Hne].
    + destruct (Dict.get rest n) eqn:Hget; [discriminate|].
      intros ->. rewrite Hpath in IH.
      assert (Hval : truthy (JObj d) = true) by (now destruct d).
      rewrite Hval in IH. cbn [andb negb py_update] in IH. exact IH.
    + rewrite andb_false_r in IH. exact IH.
Qed.

(** X21.  What is sent as the body.  For a request that is neither GET nor
    DELETE, to a route that takes its body under one name, the body that is
    sent has the entries of the dictionary that the arguments hold under
    this name, and nothing of any other argument; the query is empty. *)
Theorem request_of_body s kwargs n d request :
  in_tuple (upper (http_method (self s))) ["GET"; "DELETE"] = false ->
  body_named v raw_spec s n ->
  is_substring ("{" +:+ n +:+ "}") _request_template = false ->
  let sent :=
    with_default _request_template "accountId" (accountId (settings s))
      (with_default _request_template "envId" (envId (settings s)) kwargs) in
  Dict.nodup_keys sent = true ->
  Dict.get sent n = Some (JObj d) ->
  d <> [] ->
  request_of v raw_spec _request_template format s
    {| arguments := kwargs; body_item := None |} = Returns request ->
  request_data request = body_of d /\ request_payload request = [].
Proof.
  intros Hmethod (body_params & Hparams & Htrue & Hnames) Hpath sent Hnodup
    Hget Hd Hrun.
  unfold request_of in Hrun. cbv zeta in Hrun. cbn [arguments body_item] in Hrun.
  fold sent in Hrun. clearbody sent.
  destruct sent as [|kv rest]; [discriminate|].
  destruct (format _request_template (kv :: rest)) as [formatted|e];
    cbn [try abind] in Hrun; [|discriminate].
  destruct (collect v raw_spec _request_template s (kv :: rest) [] [])
    as [[payload' data']|e] eqn:Hcollect; cbn [abind] in Hrun; [|discriminate].
  injection Hrun as <-. cbn [request_payload request_data fst snd]. split.
  - pose proof (collect_body s n d body_params Hmethod Hparams Htrue Hnames Hd
                  Hpath _ _ _ _ _ Hnodup Hcollect) as Hbody.
    rewrite Hget in Hbody. exact (Hbody eq_refl).
  - destruct (collect_partition s _ _ _ _ _ Hcollect) as (_ & _ & Hnone).
    exact (Hnone Hmethod).
Qed.

End RequestFacts.

Lemma request_of_partition_witness :
  let request := {| request_uri := Cases.roles_template;
                    request_payload := [("maxResults", JNum 5)];
                    request_data := [] |} in
  let kwargs :=
    with_default Cases.roles_template "accountId" JNull
      (with_default Cases.roles_template "envId" (JStr "3")
         [("envId", JNull); ("maxResults", JNum 5); ("pageNum", JNull)]) in
  (forall k x, In (k, x) (request_payload request) ->
     true = true
     /\ In (k, x) kwargs
     /\ truthy x = true
     /\ is_substring ("{" +:+ k +:+ "}") Cases.roles_template = false)
  /\ (true = true -> request_data request = [])
  /\ (true = false -> request_payload request = []).
Proof.
  apply (@request_of_partition Reference.runtime OpenAPIv2 Cases.roles_get_v2
           Cases.roles_template Cases.unformatted
           {| self := Sample.action "get" false; dry_run := false;
              settings := {| debug_mode := false; colored_output := true;
                             view := JStr "table"; envId := JStr "3";
                             accountId := JNull |} |}
           {| arguments := [("envId", JNull); ("maxResults", JNum 5);
                            ("pageNum", JNull)];
              body_item := None |}).
  reflexivity.
Defined.

Lemma request_of_body_witness :
  request_data {| request_uri := Cases.roles_template; request_payload := [];
                  request_data := [(JStr "name", JStr "web")] |}
  = body_of [("name", JStr "web")]
  /\ request_payload {| request_uri := Cases.roles_template;
                        request_payload := [];
                        request_data := [(JStr "name", JStr "web")] |} = [].
Proof.
  apply (@request_of_body Reference.runtime OpenAPIv2 Cases.role_routes_v2
           Cases.roles_template Cases.unformatted
           {| self := Sample.action "post" false; dry_run := false;
              settings := {| debug_mode := false; colored_output := true;
                             view := JStr "table"; envId := JStr "3";
                             accountId := JNull |} |}
           [("roleObject", JObj [("name", JStr "web")]); ("tag", JStr "x")]
           "roleObject" [("name", JStr "web")]);
    try reflexivity.
  - eexists. split; [reflexivity|]. split; reflexivity.
  - discriminate.
Defined.

(** * The example that the editor is opened with *)

Lemma append_nil_r (s : string) : s +:+ "" = s.
Proof. induction s as [|c s IH]; cbn; [reflexivity | now rewrite IH]. Qed.

Lemma free_of_append sep a b :
  free_of sep (a +:+ b) = free_of sep a && free_of sep b.
Proof.
  induction a as [|c a IH]; cbn [String.append free_of]; [reflexivity|].
  rewrite IH. now rewrite andb_assoc.
Qed.

Lemma split_aux_free sep l : forall rest acc,
  free_of sep l = true ->
  py_split_aux sep (l +:+ rest) acc = py_split_aux sep rest (acc +:+ l).
Proof.
  induction l as [|c l IH]; intros rest acc Hfree; cbn [String.append].
  - now rewrite append_nil_r.
  - cbn [free_of] in Hfree. apply andb_prop in Hfree as [Hc Hl].
    apply negb_true_iff in Hc. cbn [py_split_aux]. rewrite Hc.
    rewrite (IH rest _ Hl). now rewrite append_assoc.
Qed.

Lemma split_aux_free_all sep s : forall acc,
  free_of sep acc = true ->
  Forall (fun line => free_of sep line = true) (py_split_aux sep s acc).
Proof.
  induction s as [|c s IH]; intros acc Hacc; cbn [py_split_aux].
  - now constructor.
  - destruct (Ascii.eqb c sep) eqn:Hc.
    + constructor; [exact Hacc | now apply IH].
    + apply IH. rewrite free_of_append, Hacc. cbn [free_of]. now rewrite Hc.
Qed.

Lemma split_join sep ls : forall l acc,
  Forall (fun line => free_of sep line = true) (l :: ls) ->
  py_split_aux sep (join (String sep "") (l :: ls)) acc = (acc +:+ l) :: ls.
Proof.
  induction ls as [|l' ls IH]; intros l acc Hfree.
  - cbn [join]. rewrite <- (append_nil_r l) at 1.
    rewrite split_aux_free by (now inversion Hfree). reflexivity.
  - inversion Hfree as [|? ? Hl Hrest]; subst.
    change (join (String sep "") (l :: l' :: ls))
      with (l +:+ String sep "" +:+ join (String sep "") (l' :: ls)).
    rewrite split_aux_free by exact Hl.
    cbn [String.append py_split_aux]. rewrite Ascii.eqb_refl.
    now rewrite (IH l' "" Hrest).
Qed.

Lemma split_aux_cons sep s acc :
  exists l ls, py_split_aux sep s acc = l :: ls.
Proof.
  revert acc. induction s as [|c s IH]; intros acc; cbn [py_split_aux]; [eauto|].
  destruct (Ascii.eqb c sep); [eauto | apply IH].
Qed.

Lemma prefix_append a b : String.prefix a (a +:+ b) = true.
Proof.
  induction a as [|c a IH]; cbn [String.append String.prefix];
    [now destruct b|].
  destruct (ascii_dec c c); [exact IH | contradiction].
Qed.

(** The lines of a text that was made a comment are comments. *)
Lemma commented_lines example :
  Forall (fun line => is_comment line = true)
    (lines_of (PostExamples.commented example)).
Proof.
  unfold lines_of, PostExamples.commented, py_split.
  pose proof (split_aux_free_all "010" example "" eq_refl) as Hfree.
  destruct (split_aux_cons "010" example "") as (l & ls & Hsplit).
  fold (py_split "010" example). unfold py_split at 1. rewrite Hsplit in *.
  cbn [map]. rewrite split_join.
  - constructor.
    + change ("" +:+ ("# " +:+ l)) with ("# " +:+ l). apply prefix_append.
    + apply Stdlib.Lists.List.Forall_forall. intros line Hin.
      apply in_map_iff in Hin as (x & <- & _). apply prefix_append.
  - change (("# " +:+ l) :: map (fun line => "# " +:+ line) ls)
      with (map (fun line => "# " +:+ line) (l :: ls)).
    apply Stdlib.Lists.List.Forall_forall. intros line Hin.
    apply in_map_iff in Hin as (x & <- & Hx).
    rewrite free_of_append.
    rewrite Stdlib.Lists.List.Forall_forall in Hfree.
    now rewrite (Hfree x Hx).
Qed.

Section ExampleFacts.
Context `{Runtime}.
Variable depth : nat.
Variable find_parameters : string -> list string.
Variable json_dumps_indent : json -> string.

(** X22.  Whatever the specification and the endpoint, every line of the
    example that [create_post_example] returns is a comment: the lines
    that [_edit_example] leaves out of the object. *)
Theorem create_post_example_is_comment v spec_data api_level endpoint example :
  PostExamples.create_post_example depth find_parameters json_dumps_indent v
    spec_data api_level endpoint = Ok example ->
  Forall (fun line => is_comment line = true) (lines_of example).
Proof.
  unfold PostExamples.create_post_example.
  destruct (in_tuple endpoint PostExamples.EXCLUDES); [discriminate|].
  intros Hrun. rbind_inv Hrun post_data Hdata. rbind_inv Hrun object_name Hname.
  injection Hrun as <-. apply commented_lines.
Qed.

(** X23.  With an OpenAPI v3 specification [create_post_example] returns
    only for an endpoint whose ['requestBody'] is a reference: a request
    body that is described in place has no name, and the example fails on
    it. *)
Theorem create_post_example_v3_needs_reference spec_data api_level endpoint
  example :
  PostExamples.create_post_example depth find_parameters json_dumps_indent
    OpenAPIv3 spec_data api_level endpoint = Ok example ->
  exists paths endpoint_spec route_data request_body path,
    py_getitem spec_data "paths" = Ok paths
    /\ py_getitem paths endpoint = Ok endpoint_spec
    /\ py_getitem endpoint_spec "post" = Ok route_data
    /\ py_getitem route_data "requestBody" = Ok request_body
    /\ py_get request_body "$ref" = Ok (JStr path).
Proof.
  unfold PostExamples.create_post_example.
  destruct (in_tuple endpoint PostExamples.EXCLUDES); [discriminate|].
  intros Hrun. rbind_inv Hrun post_data Hdata. rbind_inv Hrun object_name Hname.
  clear Hrun Hdata. cbn [PostExamples.get_definition] in Hname.
  unfold PostExamples._get_definition_v3 in Hname.
  rbind_inv Hname paths Hpaths. rbind_inv Hname endpoint_spec Hendpoint.
  rbind_inv Hname route_data Hroute. rbind_inv Hname request_body Hbody.
  rbind_inv Hname path Hpath. rbind_inv Hname name Hlast.
  destruct path as [| | |path| |]; try discriminate.
  exists paths, endpoint_spec, route_data, request_body, path. auto.
Qed.

End ExampleFacts.

Lemma create_post_example_is_comment_witness :
  Forall (fun line => is_comment line = true)
    (lines_of (PostExamples.commented Cases.role_example_text)).
Proof.
  apply (@create_post_example_is_comment Reference.runtime 3 (fun _ => [])
           Reference.repr_plain OpenAPIv3 Cases.role_example_v3 "user" "/roles/").
  reflexivity.
Defined.

Lemma create_post_example_v3_needs_reference_witness :
  exists paths endpoint_spec route_data request_body path,
    py_getitem Cases.role_example_v3 "paths" = Ok paths
    /\ py_getitem paths "/roles/" = Ok endpoint_spec
    /\ py_getitem endpoint_spec "post" = Ok route_data
    /\ py_getitem route_data "requestBody" = Ok request_body
    /\ py_get request_body "$ref" = Ok (JStr path).
Proof.
  apply (@create_post_example_v3_needs_reference Reference.runtime 3
           (fun _ => []) Reference.repr_plain Cases.role_example_v3 "user"
           "/roles/" (PostExamples.commented Cases.role_example_text)).
  reflexivity.
Defined.

(** * Polling *)

Section Polling.
Variable poll : nat -> list (string * json) -> attempt json.

Lemma wait_from_returns patience arguments states :
  forall polls status final total,
    wait_from poll patience arguments states polls status
    = Some (Returns final, total) ->
    py_contains final states = Ok true
    /\ polls <= total
    /\ (total = polls -> final = status)
    /\ forall i, polls <= i < total ->
         exists reported_status,
           reported poll arguments i reported_status
           /\ (if Nat.eqb (S i) total then reported_status = final
               else py_contains reported_status states = Ok false).
Proof.
  induction patience as [|patience IH]; intros polls status final total;
    cbn [wait_from].
  - destruct (py_contains status states) as [[|]|e] eqn:Hin; try discriminate.
    intros [= <- <-]. repeat split; auto. intros i Hi. lia.
  - destruct (py_contains status states) as [[|]|e] eqn:Hin; try discriminate.
    + intros [= <- <-]. repeat split; auto. intros i Hi. lia.
    + destruct (poll polls arguments) as [data_json|e] eqn:Hpoll; [|discriminate].
      destruct (_get_operation_status data_json) as [status'|e] eqn:Hstatus;
        [|discriminate].
      intros Hrest.
      destruct (IH _ _ _ _ Hrest) as (Hfinal & Hle & Hsame & Hpolls).
      split; [exact Hfinal|]. split; [lia|]. split; [lia|].
      intros i Hi. destruct (Nat.eq_dec i polls) as [->|Hne].
      * exists status'. split; [exists data_json; auto|].
        destruct (Nat.eqb_spec (S polls) total) as [Heq|Hneq].
        -- symmetry. now apply Hsame.
        -- assert (Hnext : S polls <= S polls < total) by lia.
           destruct (Hpolls (S polls) Hnext) as (later & _ & _).
           clear Hpolls.
           (* the status of this poll was tested by the next turn of the loop *)
           destruct patience as [|patience']; cbn [wait_from] in Hrest.
           ++ destruct (py_contains status' states) as [[|]|e];
                try discriminate.
              injection Hrest as _ Heq. lia.
           ++ destruct (py_contains status' states) as [[|]|e];
                try discriminate; [|reflexivity].
              injection Hrest as _ Heq. lia.
      * apply Hpolls. lia.
Qed.

(** X24.  What [_wait_for_status] returns.  When the loop ends with a
    status, the status is one of those waited for, and it is the status
    that the last poll reported, every poll before it having reported a
    status that is not waited for; without any poll it is the empty
    string, which then is among the states waited for. *)
Theorem wait_for_status_returns patience poll_dict states hide_output kwargs
  final total :
  _wait_for_status poll patience poll_dict states hide_output kwargs
  = Some (Returns final, total) ->
  py_contains final states = Ok true
  /\ (total = 0 -> final = JStr "")
  /\ forall i, i < total ->
       exists status,
         reported poll (run_args poll_dict hide_output kwargs) i status
         /\ (if Nat.eqb (S i) total then status = final
             else py_contains status states = Ok false).
Proof.
  unfold _wait_for_status. intros Hrun.
  destruct (wait_from_returns _ _ _ _ _ _ _ Hrun) as (Hfinal & _ & Hsame & Hpolls).
  split; [exact Hfinal|]. split; [exact Hsame|].
  intros i Hi. apply Hpolls. lia.
Qed.

End Polling.

Lemma wait_for_status_returns_witness :
  py_contains (JStr "running") (JArr [JStr "running"; JStr "failed"]) = Ok true
  /\ (3 = 0 -> JStr "running" = JStr "")
  /\ forall i, i < 3 ->
       exists status,
         reported Cases.starting
           (run_args [("serverId", JStr "b039")] (JBool true)
              [("envId", JStr "3")]) i status
         /\ (if Nat.eqb (S i) 3 then status = JStr "running"
             else py_contains status (JArr [JStr "running"; JStr "failed"])
                  = Ok false).
Proof.
  apply (wait_for_status_returns Cases.starting 5 [("serverId", JStr "b039")]
           (JArr [JStr "running"; JStr "failed"]) (JBool true)
           [("envId", JStr "3")] (JStr "running") 3).
  reflexivity.
Defined.

(** * Filtering twice *)

Lemma nesting_obj_le kvs n :
  (forall k x, In (k, x) kvs -> nesting x < n) -> 0 < n ->
  nesting (JObj kvs) <= n.
Proof.
  intros Hall Hn. cbn [nesting].
  induction kvs as [|[k x] rest IH]; [lia|].
  assert (Hx : nesting x < n) by (apply (Hall k x); now left).
  assert (Hrest : S ((fix deepest (kvs : list (string * json)) : nat :=
                        match kvs with
                        | [] => 0
                        | (_, x) :: rest => Nat.max (nesting x) (deepest rest)
                        end) rest) <= n).
  { apply IH. intros k' x' Hin. apply (Hall k' x'). now right. }
  lia.
Qed.

Section FilterTwice.
Context `{Runtime}.
Variable v : version.
Variable raw_spec : json.
Variable refs : json -> Prop.
Variable props_of : json -> list (string * json).
Hypothesis Hrefs : plain_references v raw_spec refs props_of.

Lemma conforms_cons props k x rest :
  conforms props_of props (JObj ((k, x) :: rest))
  = match Dict.get props k with
    | Some p_value =>
        negb (is_read_only p_value)
        && match ref_of p_value with
           | Some ref =>
               if isinstance_dict x then conforms props_of (props_of ref) x
               else true
           | None => true
           end
        && conforms props_of props (JObj rest)
    | None => false
    end.
Proof. reflexivity. Qed.

Lemma conforms_set props acc k x p_value :
  conforms props_of props (JObj acc) = true ->
  Dict.get props k = Some p_value ->
  is_read_only p_value = false ->
  match ref_of p_value with
  | Some ref =>
      if isinstance_dict x then conforms props_of (props_of ref) x else true
  | None => true
  end = true ->
  conforms props_of props (JObj (Dict.set acc k x)) = true.
Proof.
  intros Hacc Hget Hro Hx.
  induction acc as [|[k0 x0] acc IH]; cbn [Dict.set].
  - rewrite conforms_cons, Hget, Hro, Hx. reflexivity.
  - rewrite conforms_cons in Hacc.
    destruct (String.eqb_spec k0 k) as [->|Hne].
    + rewrite conforms_cons, Hget, Hro, Hx in *.
      apply andb_prop in Hacc as [_ Hrest]. now rewrite Hrest.
    + rewrite conforms_cons.
      destruct (Dict.get props k0) as [p0|]; [|discriminate].
      apply andb_prop in Hacc as [Hhead Hrest]. rewrite Hhead.
      now rewrite (IH Hrest).
Qed.

Lemma filter_properties_conforms recur kvs fc reference cop props :
  recur_conforms v raw_spec refs props_of recur ->
  forall properties filtered c filtered' c',
    Forall (fun kv => isinstance_dict (snd kv) = true) properties ->
    (forall kv ref, In kv properties -> ref_of (snd kv) = Some ref -> refs ref) ->
    (forall kv, In kv properties -> Dict.get props (fst kv) = Some (snd kv)) ->
    conforms props_of props (JObj filtered) = true ->
    (forall k x, In (k, x) filtered -> nesting x < nesting (JObj kvs)) ->
    filter_properties recur (sub_schema v raw_spec) (JObj kvs) fc reference cop
      properties filtered c = (Ok filtered', c') ->
    conforms props_of props (JObj filtered') = true
    /\ (forall k x, In (k, x) filtered' -> nesting x < nesting (JObj kvs)).
Proof.
  intros Hrecur.
  induction properties as [|[p_key p_value] rest IH];
    intros filtered c filtered' c' Hdict Hin_refs Hdeclared Hconf Hnest Hrun.
  - injection Hrun as <- _. auto.
  - apply Forall_cons in Hdict as [Hpv Hdict].
    destruct p_value as [| | | | |p]; try discriminate.
    assert (Hrest : forall filtered0 c0,
      conforms props_of props (JObj filtered0) = true ->
      (forall k x, In (k, x) filtered0 -> nesting x < nesting (JObj kvs)) ->
      filter_properties recur (sub_schema v raw_spec) (JObj kvs) fc reference
        cop rest filtered0 c0 = (Ok filtered', c') ->
      conforms props_of props (JObj filtered') = true
      /\ (forall k x, In (k, x) filtered' -> nesting x < nesting (JObj kvs))).
    { intros filtered0 c0 Hconf0 Hnest0 Hrun0.
      apply (IH filtered0 c0 filtered' c'); auto.
      - intros kv ref Hin. apply Hin_refs. now right.
      - intros kv Hin. apply Hdeclared. now right. }
    clear IH. cbn [filter_properties] in Hrun.
    bind_inv Hrun as key_path Hpath. clear Hpath.
    bind_inv Hrun as known Hknown. lift_inv Hknown.
    destruct known; cbn [negb] in Hrun; [|exact (Hrest _ _ Hconf Hnest Hrun)].
    bind_inv Hrun as read_only Hro. lift_inv Hro.
    destruct (truthy read_only) eqn:Htrue; [exact (Hrest _ _ Hconf Hnest Hrun)|].
    bind_inv Hrun as create_only Hco. clear Hco.
    destruct create_only; [exact (Hrest _ _ Hconf Hnest Hrun)|].
    bind_inv Hrun as has_ref Href. lift_inv Href.
    bind_inv Hrun as value Hvalue. lift_inv Hvalue.
    assert (Hp : Dict.get props p_key = Some (JObj p))
      by (apply (Hdeclared (p_key, JObj p)); now left).
    assert (Hwritable : is_read_only (JObj p) = false).
    { cbn [is_read_only]. unfold py_get, py_get_default in Hro.
      destruct (Dict.get p "readOnly"); injection Hro as <-; exact Htrue. }
    assert (Hchild : nesting value < nesting (JObj kvs)).
    { cbn [py_getitem] in Hvalue.
      destruct (Dict.get kvs p_key) as [item|] eqn:Hget; [|discriminate].
      injection Hvalue as <-.
      exact (nesting_child kvs p_key item (dict_get_in _ _ _ Hget)). }
    assert (Hstore : forall kept c0,
      match ref_of (JObj p) with
      | Some ref =>
          if isinstance_dict kept then conforms props_of (props_of ref) kept
          else true
      | None => true
      end = true ->
      nesting kept <= nesting value ->
      filter_properties recur (sub_schema v raw_spec) (JObj kvs) fc reference
        cop rest (Dict.set filtered p_key kept) c0 = (Ok filtered', c') ->
      conforms props_of props (JObj filtered') = true
      /\ (forall k y, In (k, y) filtered' -> nesting y < nesting (JObj kvs))).
    { intros kept c0 Hkept Hle Hrun0.
      apply (Hrest (Dict.set filtered p_key kept) c0); [| | exact Hrun0].
      - now apply (conforms_set props filtered p_key kept (JObj p)).
      - intros k y Hin.
        destruct (dict_set_in _ _ _ _ _ Hin) as [[-> ->]|Hold];
          [lia | now apply (Hnest k y)]. }
    cbn [py_in] in Href. injection Href as <-. unfold Dict.mem in Hrun.
    cbn [ref_of] in Hstore.
    destruct (Dict.get p "$ref") as [ref|] eqn:Hget_ref; cbn [andb] in Hrun.
    + destruct (isinstance_dict value) eqn:Hisdict.
      * bind_inv Hrun as ref' Href'. lift_inv Href'.
        cbn [py_getitem] in Href'. rewrite Hget_ref in Href'.
        injection Href' as <-.
        bind_inv Hrun as schema Hschema. lift_inv Hschema.
        bind_inv Hrun as sub Hsub.
        assert (Hin_ref : refs ref).
        { apply (Hin_refs (p_key, JObj p)); [now left | exact Hget_ref]. }
        destruct (Hrecur value ref schema _ sub _ Hin_ref Hisdict Hschema Hsub)
          as [Hsub_conf Hsub_nest].
        refine (Hstore sub _ _ Hsub_nest Hrun).
        now destruct (isinstance_dict sub).
      * refine (Hstore value _ _ (le_n _) Hrun). now rewrite Hisdict.
    + exact (Hstore value _ eq_refl (le_n _) Hrun).
Qed.

Lemma filter_json_object_conforms route http_method fc depth :
  forall kvs schema props reference c filtered c',
    plain_schema refs schema props ->
    filter_json_object v raw_spec depth (JObj kvs) route http_method fc
      schema reference c = (Ok filtered, c') ->
    conforms props_of props filtered = true
    /\ nesting filtered <= nesting (JObj kvs)
    /\ isinstance_dict filtered = true.
Proof.
  induction depth as [|depth IH];
    intros kvs schema props reference c filtered c' Hschema Hrun;
    [destruct v; discriminate|].
  destruct Hschema as (s & -> & Hdisc & Hprops & Hnodup & Hdict & Hin_refs).
  rewrite filter_json_object_unfold in Hrun.
  rewrite (bind_run _ _ _ _ _
             (resolve_discriminator_plain v raw_spec depth (JObj kvs) s
                reference c Hdisc)) in Hrun.
  cbn [fst snd] in Hrun. unfold filter_by_properties in Hrun.
  bind_inv Hrun as has_properties Hhas. destruct has_properties.
  - bind_inv Hrun as cop Hcop. clear Hcop.
    bind_inv Hrun as props' Hprops'. lift_inv Hprops'.
    bind_inv Hrun as properties Hitems. lift_inv Hitems.
    bind_inv Hrun as filtered0 Hloop. injection Hrun as <- <-.
    cbn [py_getitem] in Hprops'.
    destruct Hprops as [Hget|[Hget ->]]; rewrite Hget in Hprops';
      [|discriminate].
    injection Hprops' as <-. injection Hitems as <-.
    assert (Hrecur : recur_conforms v raw_spec refs props_of
              (fun value sub reference' =>
                 filter_json_object v raw_spec depth value route http_method
                   fc sub reference')).
    { intros value ref schema c0 sub c0' Hin Hisdict Hsub Hrun0.
      destruct value as [| | | | |ckvs]; try discriminate.
      destruct (Hrefs ref Hin) as (_ & schema' & Hsub' & Hplain).
      rewrite Hsub in Hsub'. injection Hsub' as <-.
      destruct (IH ckvs schema (props_of ref) ref c0 sub c0' Hplain Hrun0)
        as (Hc & Hn & _). auto. }
    assert (Hdeclared : forall kv, In kv props ->
              Dict.get props (fst kv) = Some (snd kv)).
    { intros kv Hin. destruct kv as [k pv]. cbn [fst snd].
      clear - Hnodup Hin. induction props as [|[k0 p0] rest IHp];
        [destruct Hin|].
      cbn [Dict.nodup_keys] in Hnodup. apply andb_prop in Hnodup as [Hk Hrest].
      apply negb_true_iff in Hk. cbn [Dict.get].
      destruct Hin as [[= -> ->]|Hin]; [now rewrite String.eqb_refl|].
      destruct (String.eqb_spec k0 k) as [->|_]; [|now apply IHp].
      now destruct (dict_mem_false_ne rest k Hk (k, pv) Hin). }
    destruct (filter_properties_conforms _ kvs fc reference cop props Hrecur
                props [] _ filtered0 _ Hdict Hin_refs Hdeclared eq_refl
                ltac:(intros k y []) Hloop) as [Hconf Hnest].
    split; [exact Hconf|]. split; [|reflexivity].
    apply nesting_obj_le; [exact Hnest | cbn [nesting]; lia].
  - injection Hrun as <- <-. split; [reflexivity|]. split; [|reflexivity].
    cbn [nesting]. lia.
Qed.

(** X25.  Filtering twice is filtering once.  Under a schema without
    discriminator whose references resolve to such schemas, what
    [filter_json_object] returns, with either value of
    [filter_createonly], is an object that the filter returns as it is:
    filtered again it comes back equal to itself. *)
Theorem filter_json_object_idempotent route http_method fc depth kvs schema
  props reference c once c1 c2 :
  plain_schema refs schema props ->
  reference_ok reference ->
  nesting (JObj kvs) <= depth ->
  filter_json_object v raw_spec depth (JObj kvs) route http_method fc schema
    reference c = (Ok once, c1) ->
  exists twice,
    filter_json_object v raw_spec depth once route http_method false schema
      reference c2 = (Ok twice, c2)
    /\ json_eq twice once.
Proof.
  intros Hschema Hreference Hdepth Hrun.
  destruct (filter_json_object_conforms route http_method fc depth kvs schema
              props reference c once c1 Hschema Hrun)
    as (Hconf & Hnest & Hisdict).
  destruct once as [| | | | |okvs]; try discriminate.
  destruct (filter_json_object_retains v raw_spec refs props_of Hrefs route
              http_method depth okvs schema props reference c2
              ltac:(lia) Hreference Hschema) as (twice & Htwice & Heq).
  exists twice. split; [exact Htwice|].
  now rewrite (retained_conforms props_of (nesting (JObj okvs)) props
                 (JObj okvs)) in Heq.
Qed.

End FilterTwice.

Lemma filter_json_object_idempotent_witness :
  exists twice,
    @filter_json_object Reference.runtime OpenAPIv2 Sample.roles_v2 2
      (JObj [("name", JStr "web"); ("os", JObj [("name", JStr "linux")])])
      "/roles/" "patch" false Sample.role_schema JNull ∅
    = (Ok twice, ∅)
    /\ json_eq twice
         (JObj [("name", JStr "web"); ("os", JObj [("name", JStr "linux")])]).
Proof.
  apply (@filter_json_object_idempotent Reference.runtime OpenAPIv2
           Sample.roles_v2 (fun r => r = JStr "#/definitions/Os")
           (fun _ => Sample.os_properties)) with
    (fc := true)
    (kvs := [("id", JNum 5); ("extra", JNum 1); ("name", JStr "web");
             ("os", JObj [("version", JStr "9"); ("name", JStr "linux")])])
    (props := Sample.role_properties) (c := ∅) (c1 := ∅).
  - intros r ->. split; [eauto|].
    exists (JObj [("properties", JObj Sample.os_properties)]).
    split; [reflexivity|].
    eexists. split; [reflexivity|]. split; [reflexivity|].
    split; [left; reflexivity|]. split; [reflexivity|].
    split; [repeat constructor|].
    intros kv r [<-|[<-|[]]]; discriminate.
  - eexists. split; [reflexivity|]. split; [reflexivity|].
    split; [left; reflexivity|]. split; [reflexivity|].
    split; [repeat constructor|].
    intros kv r [<-|[<-|[<-|[]]]]; cbn; congruence.
  - left; reflexivity.
  - cbn. lia.
  - reflexivity.
Defined.

(** * An update read from standard input *)

Section PatchFromStdin.
Context `{Runtime}.
Variable v : version.
Variable raw_spec : json.
Variable world : World.
Variable reraise : string -> exn.
Variable refs : json -> Prop.
Variable props_of : json -> list (string * json).
Hypothesis Hrefs : plain_references v raw_spec refs props_of.

Lemma filter_json_object_of_route depth data rt meth fc schema c :
  _get_schema v raw_spec rt meth = Ok schema ->
  filter_json_object v raw_spec (S depth) data rt meth fc JNull JNull c
  = filter_json_object v raw_spec (S depth) data rt meth fc schema JNull c.
Proof.
  intros Hschema. rewrite !filter_json_object_body.
  unfold bind at 1, lift. rewrite Hschema.
  destruct schema; reflexivity.
Qed.

(** X26.  A PATCH request whose object is read from standard input: the
    object is filtered with [filter_createonly] left at [False], so that
    under a schema without discriminator what [pre] stores under the name
    of the body parameter has every declared property of the object that
    is not read-only, those listed in ['x-createOnly'] among them; and the
    arguments that [pre] returns have [filter_createonly] set. *)
Theorem pre_patch_stdin_keeps_create_only deeper s kwargs s1 kwargs1 n kvs
  schema props prepared c c' :
  _apply_arguments s kwargs = Ok (s1, kwargs1) ->
  upper (http_method (self s1)) = "PATCH" ->
  truthy (fst (dict_pop kwargs1 "import-data" (JObj []))) = false ->
  truthy (dict_get_or_none kwargs1 "stdin") = true ->
  _read_object world = Returns (JObj kvs) ->
  one_body_parameter v raw_spec s1 n ->
  n <> "filter_createonly" ->
  _get_schema v raw_spec (route (self s1)) (http_method (self s1)) = Ok schema ->
  plain_schema refs schema props ->
  nesting (JObj kvs) <= S deeper ->
  pre v raw_spec (S deeper) world reraise s kwargs c = (Returns prepared, s1, c') ->
  exists filtered,
    Dict.get (arguments prepared) n = Some filtered
    /\ json_eq filtered (retained props_of props (JObj kvs))
    /\ Dict.get (arguments prepared) "filter_createonly" = Some (JBool true).
Proof.
  intros Happly Hmethod Himport Hstdin Hread
    (param_data & Hparams & Hnames & Hresolves) Hn Hschema Hplain Hnest.
  unfold pre. rewrite Happly.
  destruct (_check_arguments raw_spec (self s1) kwargs1) as [[]|e];
    [|discriminate].
  unfold pre_body.
  destruct (dict_pop kwargs1 "import-data" (JObj [])) as [import_data kwargs2]
    eqn:Hpop.
  cbn [fst] in Himport.
  assert (Hstdin2 : truthy (fst (dict_pop kwargs2 "stdin" JNull)) = true).
  { unfold dict_pop in Hpop |- *. injection Hpop as _ <-. cbn [fst].
    rewrite dict_get_remove. change (String.eqb "import-data" "stdin") with false.
    exact Hstdin. }
  destruct (dict_pop kwargs2 "stdin" JNull) as [stdin kwargs3].
  cbn [fst] in Hstdin2. rewrite Hmethod. cbn [in_tuple existsb negb].
  change (String.eqb "PATCH" "PATCH") with true. cbn [orb negb].
  assert (Hname : exists param_name, py_get param_data "name" = Ok param_name).
  { unfold body_param_names in Hnames.
    destruct (py_get param_data "name") as [param_name|]; [eauto | discriminate]. }
  destruct Hname as (param_name & Hname).
  rewrite Hparams. cbn [try]. rewrite p_bind_returns.
  rewrite Hname. cbn [try]. rewrite p_bind_returns.
  rewrite Hnames. cbn [try]. rewrite p_bind_returns.
  unfold except_value_error, pre_try, acquire.
  rewrite Himport, Hstdin2, Hmethod.
  change (String.eqb "PATCH" "PATCH") with true. cbv iota.
  unfold p_bind at 1. unfold p_bind at 1.
  destruct (_get_object_as_text world _ c) as [[raw_text|e] c1].
  2:{ destruct e; discriminate. }
  destruct (filter_json_object_retains v raw_spec refs props_of Hrefs
              (route (self s1)) (http_method (self s1)) (S deeper) kvs schema
              props JNull c1 Hnest (or_introl eq_refl) Hplain)
    as (filtered & Hrun & Heq).
  rewrite Hread.
  rewrite p_bind_returns. unfold p_bind at 1, filter_body, of_M.
  rewrite (filter_json_object_of_route deeper (JObj kvs) _ _ false schema c1
             Hschema).
  rewrite Hrun. cbn [try p_ret]. cbv beta iota.
  rewrite (pre_body_item_one raw_spec param_data n param_name (JObj kvs)
             filtered Hnames Hresolves).
  cbn [try]. rewrite p_bind_returns. cbn [p_ret store_body fst snd].
  intros [= <- <-].
  exists filtered. cbn [arguments]. rewrite !dict_get_set.
  rewrite String.eqb_refl. split; [reflexivity|]. split; [exact Heq|].
  destruct (String.eqb_spec n "filter_createonly") as [Heqn|_];
    [contradiction|]. now rewrite String.eqb_refl.
Qed.

End PatchFromStdin.

Lemma pre_patch_stdin_keeps_create_only_witness :
  exists filtered,
    Dict.get [("filter_createonly", JBool true);
              ("roleObject",
               JObj [("name", JStr "web");
                     ("os", JObj [("name", JStr "linux")])])] "roleObject"
    = Some filtered
    /\ json_eq filtered
         (retained (fun _ => Sample.os_properties) Sample.role_properties
            Cases.whole_role)
    /\ Dict.get [("filter_createonly", JBool true);
                 ("roleObject",
                  JObj [("name", JStr "web");
                        ("os", JObj [("name", JStr "linux")])])]
         "filter_createonly" = Some (JBool true).
Proof.
  apply (@pre_patch_stdin_keeps_create_only Reference.runtime OpenAPIv2
           Cases.role_routes_v2 Cases.piped
           (fun text => ClickException (Msg text))
           (fun r => r = JStr "#/definitions/Os")
           (fun _ => Sample.os_properties)) with
    (deeper := 1) (s := Cases.session "patch") (kwargs := [("stdin", JBool true)])
    (s1 := Cases.session "patch") (kwargs1 := [("stdin", JBool true)])
    (schema := Cases.role_request_schema)
    (prepared :=
       {| arguments :=
            [("filter_createonly", JBool true);
             ("roleObject",
              JObj [("name", JStr "web");
                    ("os", JObj [("name", JStr "linux")])])];
          body_item := None |})
    (c := ∅) (c' := ∅); try reflexivity.
  - intros r ->. split; [eauto|].
    exists (JObj [("properties", JObj Sample.os_properties)]).
    split; [reflexivity|].
    eexists. split; [reflexivity|]. split; [reflexivity|].
    split; [left; reflexivity|]. split; [reflexivity|].
    split; [repeat constructor|].
    intros kv r [<-|[<-|[]]]; discriminate.
  - eexists. split; [reflexivity|]. split; [reflexivity|].
    exists Cases.role_request_schema, false. repeat split; try reflexivity.
    discriminate.
  - discriminate.
  - eexists. split; [reflexivity|]. split; [reflexivity|].
    split; [left; reflexivity|]. split; [reflexivity|].
    split; [repeat constructor|].
    intros kv r [<-|[<-|[<-|[]]]]; cbn; congruence.
Defined.

Lemma pre_never_raises_value_error_witness :
  fst (fst (@pre Reference.runtime OpenAPIv2 Cases.role_routes_v2 2
              Cases.unchanged (fun text => ClickException (Msg text))
              (Cases.session "patch") [] ∅))
  <> Fails (ValueError "No changes in JSON").
Proof.
  apply (@pre_never_raises_value_error Reference.runtime OpenAPIv2
           Cases.role_routes_v2 2 Cases.unchanged
           (fun text => ClickException (Msg text))).
Defined.
